(** * Educational-content platform: storage fallback layer and generation dispatcher

    A shallow embedding of
      - [services/memoryStore.ts]   (class [MemoryStore], [shouldUseMemoryStore]),
      - [services/aiService.ts]     (class [AIService] and its provider adapters),
      - the resource request handlers ([getResources], [getResourceById],
        [likeResource]) and the volatile branch of [register],
      - what the handlers use of the persistent backend ([findById], [save])
        and of the engine ([Array.prototype.sort]),
    together with the properties the specification states about them.

    Conventions.  A JavaScript [string] is a Rocq [string] (its characters
    stand for code units); [===] on strings is [String.eqb]; a value is
    "truthy" as the language defines it (the empty string, [0], [NaN],
    [undefined] and [null] are falsy, every array and object is truthy).  An
    optional property is an [option].  A [Date] is its time value in
    milliseconds.  A thrown exception is the [Throw] constructor of
    [Completion]. *)

From Stdlib Require Import ZArith List Bool Lia Permutation.
From stdpp Require Import prelude strings pretty.
Import ListNotations.

Local Open Scope string_scope.
Local Open Scope list_scope.

(** ** Language-level helpers *)

Module Js.

(** Outcome of a call that may throw [new Error(message)]. *)
Inductive Completion (A : Type) : Type :=
| Return (a : A)
| Throw (message : string).
Arguments Return {A} a.
Arguments Throw {A} message.

(** The numbers the handlers compute with: integers and [NaN]. *)
Inductive Num : Type :=
| NaN
| Int (z : Z).

(** [x + 1] where [x] is the value of a possibly absent numeric property:
    [undefined + 1] and [NaN + 1] are [NaN]. *)
Definition add_one (x : option Num) : Num :=
  match x with
  | Some (Int z) => Int (z + 1)
  | Some NaN => NaN
  | None => NaN
  end.

(** [x > y] on possibly absent numeric properties: any comparison with
    [undefined] or [NaN] is [false]. *)
Definition num_gt (x y : option Num) : bool :=
  match x, y with
  | Some (Int a), Some (Int b) => Z.ltb b a
  | _, _ => false
  end.

(** Truthiness of a string and of an optional string property. *)
Definition truthy_string (s : string) : bool := negb (String.eqb s "").

Definition truthy_opt_string (o : option string) : bool :=
  match o with
  | Some s => truthy_string s
  | None => false
  end.

(** Truthiness of an optional non-negative integer property. *)
Definition truthy_opt_nat (o : option nat) : bool :=
  match o with
  | Some n => negb (Nat.eqb n 0)
  | None => false
  end.

(** [a || b] for an optional string [a]. *)
Definition or_string (a : option string) (b : string) : string :=
  if truthy_opt_string a then default b a else b.

(** [a || b] for an optional non-negative integer [a]. *)
Definition or_nat (a : option nat) (b : nat) : nat :=
  if truthy_opt_nat a then default b a else b.

(** [Array.prototype.slice(start, end)] for non-negative integer bounds. *)
Definition slice {A} (l : list A) (start stop : nat) : list A :=
  take (stop - start) (drop start l).

(** [Array.prototype.join(sep)] on an array of strings. *)
Fixpoint join (sep : string) (l : list string) : string :=
  match l with
  | [] => ""
  | [s] => s
  | s :: rest => s +:+ sep +:+ join sep rest
  end.

(** [String.prototype.includes]: [needle] occurs in [hay] as a substring. *)
Fixpoint starts_with (needle hay : string) : bool :=
  match needle, hay with
  | EmptyString, _ => true
  | String _ _, EmptyString => false
  | String a n', String b h' => Ascii.eqb a b && starts_with n' h'
  end.

Fixpoint includes (hay needle : string) : bool :=
  starts_with needle hay ||
  match hay with
  | EmptyString => false
  | String _ h' => includes h' needle
  end.

(** A [Map<string, V>]: its entries in insertion order. *)
Section JsMap.
Context {V : Type}.

Definition Map := list (string * V).

Definition map_has (m : Map) (k : string) : bool :=
  existsb (fun e => String.eqb (fst e) k) m.

Definition map_get (m : Map) (k : string) : option V :=
  snd <$> List.find (fun e => String.eqb (fst e) k) m.

(** [Map.prototype.set]: an existing key keeps its position, a new key is
    appended. *)
Definition map_set (m : Map) (k : string) (v : V) : Map :=
  if map_has m k
  then List.map (fun e => if String.eqb (fst e) k then (k, v) else e) m
  else m ++ [(k, v)].

Definition map_values (m : Map) : list V := List.map snd m.
Definition map_keys (m : Map) : list string := List.map fst m.
End JsMap.
Arguments Map V : clear implicits.

End Js.

Import Js.

(** ** The engine's [Array.prototype.sort]

    The language standard fixes the result of [sort] only for a consistent
    comparator; otherwise the order is implementation-defined.  The server
    runs on Node.js, whose engine sorts an array of fewer than 64 elements by
    detecting the initial run (reversing it when it is strictly descending)
    and inserting every later element by binary search.  [Engine.sort] is
    that procedure. *)

Module Engine.

Section Sort.
Context {A : Type}.
Variable comparefn : A -> A -> Z.

(** Length of the run continuing after [prev], beyond [prev] itself. *)
Fixpoint run_tail (descending : bool) (prev : A) (rest : list A) : nat :=
  match rest with
  | [] => 0
  | x :: rest' =>
      let order := comparefn x prev in
      if descending
      then (if Z.ltb order 0 then S (run_tail descending x rest') else 0)
      else (if Z.ltb order 0 then 0 else S (run_tail descending x rest'))
  end.

(** [CountAndMakeRun]: the sorted initial run and the remaining elements. *)
Definition count_and_make_run (l : list A) : list A * list A :=
  match l with
  | a :: b :: rest =>
      let descending := Z.ltb (comparefn b a) 0 in
      let n := 2 + run_tail descending b rest in
      let run := take n l in
      (if descending then rev run else run, drop n l)
  | _ => (l, [])
  end.

(** The binary search of [BinaryInsertionSort]: the position of [pivot] in
    the sorted prefix [pre], searched in [[left, right)].  Every iteration
    shrinks the interval, so [right - left] units of fuel reach its end. *)
Fixpoint search (fuel : nat) (pre : list A) (pivot : A) (left right : nat) : nat :=
  match fuel with
  | 0 => left
  | S fuel' =>
      if Nat.ltb left right then
        let mid := left + Nat.div2 (right - left) in
        match pre !! mid with
        | Some y =>
            if Z.ltb (comparefn pivot y) 0
            then search fuel' pre pivot left mid
            else search fuel' pre pivot (mid + 1) right
        | None => left
        end
      else left
  end.

Definition insert_at (k : nat) (x : A) (l : list A) : list A :=
  take k l ++ x :: drop k l.

Definition binary_insert (pre : list A) (pivot : A) : list A :=
  insert_at (search (length pre) pre pivot 0 (length pre)) pivot pre.

Definition sort (l : list A) : list A :=
  if Nat.ltb (length l) 2 then l
  else
    let '(run, rest) := count_and_make_run l in
    fold_left binary_insert rest run.

End Sort.

End Engine.

(** ** The persistent backend: the driver and models/Resource.ts *)

Module Mongoose.

(** [mongoose.connection.readyState]. *)
Inductive ConnectionState :=
| disconnected
| connected
| connecting
| disconnecting
| uninitialized.

Definition readyState (c : ConnectionState) : nat :=
  match c with
  | disconnected => 0
  | connected => 1
  | connecting => 2
  | disconnecting => 3
  | uninitialized => 99
  end.

(** A document of the [Resource] collection. *)
Record Resource := {
  _id : string;
  title : string;
  description : string;
  contentType : string;
  category : string;
  content : string;
  metadata : string;
  tags : list string;
  isPublic : bool;
  creator : string;
  collaborators : list string;
  likes : list string;
  views : Z;
  generationId : option string;
  createdAt : Z;
  updatedAt : Z
}.

Definition set_views (r : Resource) (v : Z) : Resource :=
  {| _id := _id r; title := title r; description := description r;
     contentType := contentType r; category := category r; content := content r;
     metadata := metadata r; tags := tags r; isPublic := isPublic r;
     creator := creator r; collaborators := collaborators r; likes := likes r;
     views := v; generationId := generationId r; createdAt := createdAt r;
     updatedAt := updatedAt r |}.

Definition set_likes (r : Resource) (l : list string) : Resource :=
  {| _id := _id r; title := title r; description := description r;
     contentType := contentType r; category := category r; content := content r;
     metadata := metadata r; tags := tags r; isPublic := isPublic r;
     creator := creator r; collaborators := collaborators r; likes := l;
     views := views r; generationId := generationId r; createdAt := createdAt r;
     updatedAt := updatedAt r |}.

Definition set_updatedAt (r : Resource) (t : Z) : Resource :=
  {| _id := _id r; title := title r; description := description r;
     contentType := contentType r; category := category r; content := content r;
     metadata := metadata r; tags := tags r; isPublic := isPublic r;
     creator := creator r; collaborators := collaborators r; likes := likes r;
     views := views r; generationId := generationId r; createdAt := createdAt r;
     updatedAt := t |}.

(** The database as the server sees it: the state of the connection, the
    identifiers the driver accepts, and the collection. *)
Record Database := {
  connection : ConnectionState;
  isObjectId : string -> bool;
  collection : list Resource
}.

Definition set_collection (db : Database) (l : list Resource) : Database :=
  {| connection := connection db; isObjectId := isObjectId db; collection := l |}.

Definition is_connected (db : Database) : bool :=
  Nat.eqb (readyState (connection db)) 1.

Definition msg_unreachable : string := "buffering timed out".
Definition msg_cast : string := "Cast to ObjectId failed".

(** [ResourceModel.findById(id)]: fails without a connection or on a string
    that is no identifier of the driver. *)
Definition findById (db : Database) (id : string) : Completion (option Resource) :=
  if negb (isObjectId db id) then Throw msg_cast
  else if negb (is_connected db) then Throw msg_unreachable
  else Return (List.find (fun r => String.eqb (_id r) id) (collection db)).

(** [document.save()] at time [now]: writes the document back under its
    identifier and stamps [updatedAt]. *)
Definition save (db : Database) (doc : Resource) (now : Z) : Completion Database :=
  if negb (is_connected db) then Throw msg_unreachable
  else
    Return
      (set_collection db
         (List.map (fun r => if String.eqb (_id r) (_id doc)
                             then set_updatedAt doc now else r)
                   (collection db))).

End Mongoose.

(** ** services/memoryStore.ts *)

Module MemoryStore.

Record Preferences := {
  language : string;
  theme : string;
  aiModels : list string;
  contentTypes : list string
}.

Record Profile := {
  displayName : string;
  bio : string;
  institution : string;
  subjects : list string;
  preferences : Preferences
}.

Record MemoryUser := {
  user_id : string;              (* _id *)
  username : string;
  email : string;
  password : string;
  role : string;
  profile : Profile;
  user_createdAt : Z;
  user_updatedAt : Z;
  lastLoginAt : option Z
}.

(** The argument of [createUser]. *)
Record UserData := {
  ud_username : string;
  ud_email : string;
  ud_password : string;
  ud_role : string
}.

(** [Partial<MemoryUser>], the argument of [updateUser]. *)
Record UserUpdate := {
  up_id : option string;
  up_username : option string;
  up_email : option string;
  up_password : option string;
  up_role : option string;
  up_profile : option Profile;
  up_createdAt : option Z;
  up_lastLoginAt : option Z
}.

(** The [content] and [metadata] payloads are objects the store never
    inspects. *)
Definition Payload := string.

(** A stored resource.  The interface [MemoryResource] declares the first
    twelve properties; [createResource] copies every property of the request
    body, and [getResourceById] reads and writes [views], which is therefore
    kept as a property that may be absent. *)
Record MemoryResource := {
  res_id : string;               (* _id *)
  title : string;
  description : string;
  content : Payload;
  contentType : string;
  category : string;
  tags : list string;
  creator : string;
  isPublic : bool;
  metadata : Payload;
  createdAt : Z;
  updatedAt : Z;
  views : option Num
}.

(** [Omit<MemoryResource, '_id' | 'createdAt' | 'updatedAt'>]. *)
Record ResourceData := {
  rd_title : string;
  rd_description : string;
  rd_content : Payload;
  rd_contentType : string;
  rd_category : string;
  rd_tags : list string;
  rd_creator : string;
  rd_isPublic : bool;
  rd_metadata : Payload;
  rd_views : option Num
}.

(** The fields of the class ([generationResults], which no operation below
    touches, is left out). *)
Record Store := {
  users : Map MemoryUser;
  userIdCounter : nat;
  resourceIdCounter : nat;
  resources : list MemoryResource
}.

(** The state of [new MemoryStore()]. *)
Definition empty_store : Store :=
  {| users := []; userIdCounter := 1; resourceIdCounter := 1; resources := [] |}.

Definition user_key (n : nat) : string := "user_" +:+ pretty n.
Definition resource_key (n : nat) : string := "resource_" +:+ pretty n.

(** [generateUserId]: the identifier and the store with the counter advanced. *)
Definition generateUserId (s : Store) : string * Store :=
  (user_key (userIdCounter s),
   {| users := users s; userIdCounter := S (userIdCounter s);
      resourceIdCounter := resourceIdCounter s; resources := resources s |}).

Definition generateResourceId (s : Store) : string * Store :=
  (resource_key (resourceIdCounter s),
   {| users := users s; userIdCounter := userIdCounter s;
      resourceIdCounter := S (resourceIdCounter s); resources := resources s |}).

Definition set_users (s : Store) (m : Map MemoryUser) : Store :=
  {| users := m; userIdCounter := userIdCounter s;
     resourceIdCounter := resourceIdCounter s; resources := resources s |}.

Definition set_resources (s : Store) (l : list MemoryResource) : Store :=
  {| users := users s; userIdCounter := userIdCounter s;
     resourceIdCounter := resourceIdCounter s; resources := l |}.

Definition msg_user_exists : string := "用户名或邮箱已存在".

Definition saltRounds : nat := 10.

(** *** Accounts *)

Section Accounts.

(** [bcrypt.hash(password, saltRounds)]. *)
Variable bcrypt_hash : string -> nat -> string.

(** The callback of the existence scan of [createUser]. *)
Definition same_email_or_username (d : UserData) (u : MemoryUser) : bool :=
  String.eqb (email u) (ud_email d) || String.eqb (username u) (ud_username d).

Definition existingUser (s : Store) (d : UserData) : option MemoryUser :=
  List.find (same_email_or_username d) (map_values (users s)).

Definition new_user (id : string) (d : UserData) (hashedPassword : string) (now : Z)
  : MemoryUser :=
  {| user_id := id;
     username := ud_username d;
     email := ud_email d;
     password := hashedPassword;
     role := ud_role d;
     profile := {| displayName := ud_username d; bio := ""; institution := "";
                   subjects := [];
                   preferences := {| language := "zh-CN"; theme := "light";
                                     aiModels := []; contentTypes := [] |} |};
     user_createdAt := now;
     user_updatedAt := now;
     lastLoginAt := None |}.

(** [createUser(userData)], called at time [now], run without interleaving. *)
Definition createUser (s : Store) (d : UserData) (now : Z)
  : Store * Completion MemoryUser :=
  match existingUser s d with
  | Some _ => (s, Throw msg_user_exists)
  | None =>
      let hashedPassword := bcrypt_hash (ud_password d) saltRounds in
      let '(id, s1) := generateUserId s in
      let user := new_user id d hashedPassword now in
      (set_users s1 (map_set (users s1) (user_id user) user), Return user)
  end.

Definition findUserByEmail (s : Store) (e : string) : option MemoryUser :=
  List.find (fun u => String.eqb (email u) e) (map_values (users s)).

Definition findUserById (s : Store) (id : string) : option MemoryUser :=
  map_get (users s) id.

(** [{...user, ...updateData, updatedAt: new Date()}]. *)
Definition merge_user (u : MemoryUser) (d : UserUpdate) (now : Z) : MemoryUser :=
  {| user_id := default (user_id u) (up_id d);
     username := default (username u) (up_username d);
     email := default (email u) (up_email d);
     password := default (password u) (up_password d);
     role := default (role u) (up_role d);
     profile := default (profile u) (up_profile d);
     user_createdAt := default (user_createdAt u) (up_createdAt d);
     user_updatedAt := now;
     lastLoginAt := match up_lastLoginAt d with
                    | Some t => Some t
                    | None => lastLoginAt u
                    end |}.

Definition updateUser (s : Store) (id : string) (d : UserUpdate) (now : Z)
  : Store * option MemoryUser :=
  match map_get (users s) id with
  | None => (s, None)
  | Some user =>
      let updatedUser := merge_user user d now in
      (set_users s (map_set (users s) id updatedUser), Some updatedUser)
  end.

Definition no_update : UserUpdate :=
  {| up_id := None; up_username := None; up_email := None; up_password := None;
     up_role := None; up_profile := None; up_createdAt := None;
     up_lastLoginAt := None |}.

Definition updateUserPassword (s : Store) (id newPassword : string) (now : Z)
  : Store * bool :=
  match map_get (users s) id with
  | None => (s, false)
  | Some user =>
      let hashedPassword := bcrypt_hash newPassword saltRounds in
      let updatedUser :=
        merge_user user
          {| up_id := None; up_username := None; up_email := None;
             up_password := Some hashedPassword; up_role := None;
             up_profile := None; up_createdAt := None; up_lastLoginAt := None |}
          now in
      (set_users s (map_set (users s) id updatedUser), true)
  end.

Definition getAllUsers (s : Store) : list MemoryUser := map_values (users s).

(** [clear()]. *)
Definition clear (s : Store) : Store :=
  {| users := []; userIdCounter := 1;
     resourceIdCounter := resourceIdCounter s; resources := resources s |}.

(** The states the account operations lead to from a new store. *)
Inductive reachable : Store -> Prop :=
| reach_empty : reachable empty_store
| reach_createUser s d now : reachable s -> reachable (fst (createUser s d now))
| reach_updateUser s id d now : reachable s -> reachable (fst (updateUser s id d now))
| reach_updateUserPassword s id p now :
    reachable s -> reachable (fst (updateUserPassword s id p now))
| reach_clear s : reachable s -> reachable (clear s)
| reach_resources s l : reachable s -> reachable (set_resources s l)
| reach_resource_counter s : reachable s -> reachable (snd (generateResourceId s)).

End Accounts.

(** The invariant of the account map: every key is [user_n] for some [n]
    below the counter, so the next identifier is not in use. *)
Definition keys_below_counter (s : Store) : list string :=
  List.map user_key (seq 0 (userIdCounter s)).

Definition keys_issued (s : Store) : Prop :=
  forallb (fun k => existsb (String.eqb k) (keys_below_counter s))
          (map_keys (users s)) = true.

(** *** Resources *)

(** One filter-set of a [$or] query. *)
Record Condition := {
  c_creator : option string;
  c_isPublic : option bool
}.

(** The query object of [findResources]; [q_search] is [$text.$search]. *)
Record Query := {
  q_creator : option string;
  q_category : option string;
  q_contentType : option string;
  q_isPublic : option bool;
  q_or : option (list Condition);
  q_search : option string
}.

(** The options object: [sort] holds one key and its order. *)
Record Options := {
  o_sort : option (string * Z);
  o_skip : option nat;
  o_limit : option nat
}.

(** [{}] as a query and as an options object. *)
Definition empty_query : Query :=
  {| q_creator := None; q_category := None; q_contentType := None;
     q_isPublic := None; q_or := None; q_search := None |}.

Definition no_options : Options :=
  {| o_sort := None; o_skip := None; o_limit := None |}.

(** The options of one page, and of an unpaged listing. *)
Definition page_options (srt : option (string * Z)) (skip limit : nat) : Options :=
  {| o_sort := srt; o_skip := Some skip; o_limit := Some limit |}.

Definition sort_only (srt : option (string * Z)) : Options :=
  {| o_sort := srt; o_skip := None; o_limit := None |}.

(** The callback of [query.$or.some]. *)
Definition condition_holds (r : MemoryResource) (c : Condition) : bool :=
  if truthy_opt_string (c_creator c)
  then String.eqb (creator r) (default "" (c_creator c))
  else match c_isPublic c with
       | Some b => Bool.eqb (isPublic r) b
       | None => false
       end.

(** [a[sortKey] > b[sortKey]] on two stored resources.  Strings compare by
    code units, dates by time value, booleans as [0] and [1], the tag array
    by its comma-joined text; the payload objects and every property a
    resource does not have compare [false]. *)
Definition field_gt (sortKey : string) (a b : MemoryResource) : bool :=
  if String.eqb sortKey "_id" then String.ltb (res_id b) (res_id a)
  else if String.eqb sortKey "title" then String.ltb (title b) (title a)
  else if String.eqb sortKey "description"
       then String.ltb (description b) (description a)
  else if String.eqb sortKey "contentType"
       then String.ltb (contentType b) (contentType a)
  else if String.eqb sortKey "category" then String.ltb (category b) (category a)
  else if String.eqb sortKey "creator" then String.ltb (creator b) (creator a)
  else if String.eqb sortKey "tags"
       then String.ltb (join "," (tags b)) (join "," (tags a))
  else if String.eqb sortKey "isPublic" then isPublic a && negb (isPublic b)
  else if String.eqb sortKey "createdAt" then Z.ltb (createdAt b) (createdAt a)
  else if String.eqb sortKey "updatedAt" then Z.ltb (updatedAt b) (updatedAt a)
  else if String.eqb sortKey "views" then num_gt (views a) (views b)
  else false.

(** The comparator handed to [sort]. *)
Definition sort_compare (sortKey : string) (sortOrder : Z) (a b : MemoryResource) : Z :=
  if Z.eqb sortOrder 1
  then (if field_gt sortKey a b then 1 else -1)%Z
  else (if field_gt sortKey b a then 1 else -1)%Z.

Section Resources.

(** [String.prototype.toLowerCase]. *)
Variable toLowerCase : string -> string.

(** [Array.prototype.sort(comparefn)] of the engine the server runs on. *)
Variable array_sort :
  (MemoryResource -> MemoryResource -> Z) -> list MemoryResource -> list MemoryResource.

Definition matches_search (searchTerm : string) (r : MemoryResource) : bool :=
  includes (toLowerCase (title r)) searchTerm
  || includes (toLowerCase (description r)) searchTerm
  || existsb (fun tag => includes (toLowerCase tag) searchTerm) (tags r).

(** The filtering steps of [findResources], in the order of the code. *)
Definition filter_creator (q : Query) (l : list MemoryResource) :=
  if truthy_opt_string (q_creator q)
  then List.filter (fun r => String.eqb (creator r) (default "" (q_creator q))) l
  else l.

Definition filter_category (q : Query) (l : list MemoryResource) :=
  if truthy_opt_string (q_category q)
  then List.filter (fun r => String.eqb (category r) (default "" (q_category q))) l
  else l.

Definition filter_contentType (q : Query) (l : list MemoryResource) :=
  if truthy_opt_string (q_contentType q)
  then List.filter
         (fun r => String.eqb (contentType r) (default "" (q_contentType q))) l
  else l.

Definition filter_isPublic (q : Query) (l : list MemoryResource) :=
  match q_isPublic q with
  | Some b => List.filter (fun r => Bool.eqb (isPublic r) b) l
  | None => l
  end.

Definition filter_or (q : Query) (l : list MemoryResource) :=
  match q_or q with
  | Some conditions =>
      List.filter (fun r => existsb (condition_holds r) conditions) l
  | None => l
  end.

Definition filter_search (q : Query) (l : list MemoryResource) :=
  if truthy_opt_string (q_search q)
  then List.filter (matches_search (toLowerCase (default "" (q_search q)))) l
  else l.

Definition apply_filters (q : Query) (l : list MemoryResource) :=
  filter_search q
    (filter_or q
      (filter_isPublic q (filter_contentType q (filter_category q (filter_creator q l))))).

Definition apply_sort (o : Options) (l : list MemoryResource) :=
  match o_sort o with
  | Some (sortKey, sortOrder) => array_sort (sort_compare sortKey sortOrder) l
  | None => l
  end.

Definition apply_page (o : Options) (l : list MemoryResource) :=
  if truthy_opt_nat (o_skip o) || truthy_opt_nat (o_limit o)
  then
    let skip := or_nat (o_skip o) 0 in
    let limit := or_nat (o_limit o) (length l) in
    slice l skip (skip + limit)
  else l.

(** [findResources(query, options)]. *)
Definition findResources (s : Store) (q : Query) (o : Options) : list MemoryResource :=
  apply_page o (apply_sort o (apply_filters q (resources s))).

(** [countResources(query)]. *)
Definition countResources (s : Store) (q : Query) : nat :=
  length (findResources s q no_options).

End Resources.

(** The records matching a query: those passing each filter of
    [findResources]. *)
Definition matches_query (toLowerCase : string -> string) (q : Query)
  (r : MemoryResource) : bool :=
  (if truthy_opt_string (q_creator q)
   then String.eqb (creator r) (default "" (q_creator q)) else true)
  && (if truthy_opt_string (q_category q)
      then String.eqb (category r) (default "" (q_category q)) else true)
  && (if truthy_opt_string (q_contentType q)
      then String.eqb (contentType r) (default "" (q_contentType q)) else true)
  && (match q_isPublic q with Some b => Bool.eqb (isPublic r) b | None => true end)
  && (match q_or q with
      | Some conditions => existsb (condition_holds r) conditions
      | None => true
      end)
  && (if truthy_opt_string (q_search q)
      then matches_search toLowerCase (toLowerCase (default "" (q_search q))) r
      else true).

(** [findResourceById(id)]: the position of the first resource with that
    identifier; the caller receives the stored object itself. *)
Fixpoint findIndex (id : string) (l : list MemoryResource) : option nat :=
  match l with
  | [] => None
  | r :: l' => if String.eqb (res_id r) id then Some 0 else S <$> findIndex id l'
  end.

Definition findResourceById (s : Store) (id : string) : option MemoryResource :=
  List.find (fun r => String.eqb (res_id r) id) (resources s).

(** [createResource(resourceData)], called at time [now]. *)
Definition createResource (s : Store) (d : ResourceData) (now : Z)
  : Store * MemoryResource :=
  let '(id, s1) := generateResourceId s in
  let resource :=
    {| res_id := id; title := rd_title d; description := rd_description d;
       content := rd_content d; contentType := rd_contentType d;
       category := rd_category d; tags := rd_tags d; creator := rd_creator d;
       isPublic := rd_isPublic d; metadata := rd_metadata d;
       createdAt := now; updatedAt := now; views := rd_views d |} in
  (set_resources s1 (resources s1 ++ [resource]), resource).

(** [deleteResource(id)]. *)
Definition deleteResource (s : Store) (id : string) : Store * bool :=
  match findIndex id (resources s) with
  | None => (s, false)
  | Some index => (set_resources s (delete index (resources s)), true)
  end.

(** *** The backend selector *)



End MemoryStore.

(** ** services/aiService.ts *)

Module AiService.

Record GenerationRequest := {
  type : string;                 (* text, image, audio or video *)
  prompt : string;
  model : option string;
  provider : option string;
  imageSize : option string;
  imageQuality : option string;
  imageStyle : option string;
  educationLevel : option string;
  subject : option string;
  language : option string;
  tone : option string;
  additionalInstructions : option string
}.

Record Usage := {
  promptTokens : nat;
  completionTokens : nat;
  totalTokens : nat
}.

Record Metadata := {
  finishReason : string;
  responseTime : Z;
  isMock : option bool;
  md_imageSize : option string;
  md_imageQuality : option string;
  md_imageStyle : option string
}.

Record GenerationResult := {
  id : string;
  content : string;
  res_provider : string;         (* provider *)
  res_model : string;            (* model *)
  usage : Usage;
  metadata : Metadata
}.

(** The interface [AIProvider]: [generateImage] is optional.  Both methods
    run at the time [Date.now()] given as second argument. *)
Record AIProvider := {
  generateText : GenerationRequest -> Z -> Completion GenerationResult;
  generateImage : option (GenerationRequest -> Z -> Completion GenerationResult)
}.

(** What the remote services answer. *)
Record ChatCompletion := {
  chat_content : option string;
  chat_finish_reason : option string;
  chat_prompt_tokens : option nat;
  chat_completion_tokens : option nat;
  chat_total_tokens : option nat
}.

Record ClaudeMessage := {
  claude_ok : bool;              (* response.ok *)
  claude_status : nat;
  claude_text : option string;
  claude_input_tokens : option nat;
  claude_output_tokens : option nat;
  claude_stop_reason : option string
}.

(** The environment of the service: the API keys present, the remote
    services (answering [None] when the call fails), and the [length] of a
    string. *)
Record Environment := {
  OPENAI_API_KEY : option string;
  CLAUDE_API_KEY : option string;
  openai_chat : GenerationRequest -> option ChatCompletion;
  openai_images : GenerationRequest -> option (option string);
  claude_messages : GenerationRequest -> option ClaudeMessage;
  str_length : string -> nat
}.

Definition dquote : string := String (Ascii.ascii_of_nat 34) EmptyString.
Definition nl : string := String (Ascii.ascii_of_nat 10) EmptyString.

Definition msg_openai_text_failed : string := "OpenAI内容生成失败".
Definition msg_openai_image_failed : string := "OpenAI图像生成失败".
Definition msg_claude_failed : string := "Claude内容生成失败".
Definition msg_unsupported (providerName : string) : string :=
  "不支持的AI提供商: " +:+ providerName.

Definition no_extras (finish : string) (now : Z) : Metadata :=
  {| finishReason := finish; responseTime := now; isMock := None;
     md_imageSize := None; md_imageQuality := None; md_imageStyle := None |}.

Section Providers.
Variable env : Environment.

(** *** OpenAIProvider *)

Definition openai_generateText (request : GenerationRequest) (now : Z)
  : Completion GenerationResult :=
  match openai_chat env request with
  | None => Throw msg_openai_text_failed
  | Some response =>
      Return
        {| id := "openai_" +:+ pretty now;
           content := or_string (chat_content response) "";
           res_provider := "openai";
           res_model := or_string (model request) "gpt-3.5-turbo";
           usage := {| promptTokens := or_nat (chat_prompt_tokens response) 0;
                       completionTokens := or_nat (chat_completion_tokens response) 0;
                       totalTokens := or_nat (chat_total_tokens response) 0 |};
           metadata := no_extras (or_string (chat_finish_reason response) "stop") now |}
  end.

Definition validSizes : list string :=
  ["256x256"; "512x512"; "1024x1024"; "1536x1024"; "1024x1536"; "1792x1024";
   "1024x1792"].

Definition openai_generateImage (request : GenerationRequest) (now : Z)
  : Completion GenerationResult :=
  let size :=
    match imageSize request with
    | Some sz => if existsb (String.eqb sz) validSizes then sz else "1024x1024"
    | None => "1024x1024"
    end in
  match openai_images env request with
  | None => Throw msg_openai_image_failed
  | Some url =>
      Return
        {| id := "openai_img_" +:+ pretty now;
           content := or_string url "";
           res_provider := "openai";
           res_model := or_string (model request) "dall-e-3";
           usage := {| promptTokens := 0; completionTokens := 0; totalTokens := 0 |};
           metadata := {| finishReason := "stop"; responseTime := now;
                          isMock := None; md_imageSize := Some size;
                          md_imageQuality := imageQuality request;
                          md_imageStyle := imageStyle request |} |}
  end.

Definition OpenAIProvider : AIProvider :=
  {| generateText := openai_generateText;
     generateImage := Some openai_generateImage |}.

(** *** ClaudeProvider: no [generateImage] *)

Definition claude_generateText (request : GenerationRequest) (now : Z)
  : Completion GenerationResult :=
  match claude_messages env request with
  | None => Throw msg_claude_failed
  | Some data =>
      if claude_ok data then
        Return
          {| id := "claude_" +:+ pretty now;
             content := or_string (claude_text data) "";
             res_provider := "claude";
             res_model := or_string (model request) "claude-3-sonnet-20240229";
             usage := {| promptTokens := or_nat (claude_input_tokens data) 0;
                         completionTokens := or_nat (claude_output_tokens data) 0;
                         totalTokens := or_nat (claude_input_tokens data) 0
                                        + or_nat (claude_output_tokens data) 0 |};
             metadata := no_extras (or_string (claude_stop_reason data) "stop") now |}
      else Throw msg_claude_failed
  end.

Definition ClaudeProvider : AIProvider :=
  {| generateText := claude_generateText; generateImage := None |}.

(** *** MockProvider *)

Definition mock_text (request : GenerationRequest) : string :=
  if String.eqb (type request) "text" then
    "这是一个模拟的AI生成内容，基于您的提示词：" +:+ dquote +:+ prompt request
      +:+ dquote +:+ "。" +:+ nl +:+ nl
      +:+ "这是为了演示目的而生成的教学资源内容。在实际环境中，这里会是由AI模型生成的高质量教育内容。"
      +:+ nl +:+ nl +:+ "内容特点：" +:+ nl
      +:+ "- 适合" +:+ or_string (educationLevel request) "通用" +:+ "教育水平" +:+ nl
      +:+ "- 学科：" +:+ or_string (subject request) "通用" +:+ nl
      +:+ "- 语言：" +:+ or_string (language request) "zh-cn" +:+ nl
      +:+ "- 风格：" +:+ or_string (tone request) "professional" +:+ nl +:+ nl
      +:+ "请注意：这是模拟内容，实际使用时需要配置真实的AI API密钥。"
  else "模拟的" +:+ type request +:+ "内容生成完成".

Definition mock_generateText (request : GenerationRequest) (now : Z)
  : Completion GenerationResult :=
  let content := mock_text request in
  Return
    {| id := "mock_" +:+ pretty now;
       content := content;
       res_provider := "mock";
       res_model := "mock-model";
       usage := {| promptTokens := str_length env (prompt request);
                   completionTokens := str_length env content;
                   totalTokens := str_length env (prompt request)
                                  + str_length env content |};
       metadata := {| finishReason := "stop"; responseTime := now;
                      isMock := Some true; md_imageSize := None;
                      md_imageQuality := None; md_imageStyle := None |} |}.

Definition mock_image : string :=
  "data:image/svg+xml;base64,PHN2ZyB3aWR0aD0iNTEyIiBoZWlnaHQ9IjUxMiIgeG1sbnM9Imh0dHA6Ly93d3cudzMub3JnLzIwMDAvc3ZnIj4KICA8cmVjdCB3aWR0aD0iMTAwJSIgaGVpZ2h0PSIxMDAlIiBmaWxsPSIjZjBmMGYwIi8+CiAgPHRleHQgeD0iNTAlIiB5PSI1MCUiIGZvbnQtZmFtaWx5PSJBcmlhbCwgc2Fucy1zZXJpZiIgZm9udC1zaXplPSIyNCIgZmlsbD0iIzMzMyIgdGV4dC1hbmNob3I9Im1pZGRsZSIgZHk9Ii4zZW0iPk1vY2sgSW1hZ2U8L3RleHQ+Cjwvc3ZnPg==".

Definition mock_generateImage (request : GenerationRequest) (now : Z)
  : Completion GenerationResult :=
  Return
    {| id := "mock_img_" +:+ pretty now;
       content := mock_image;
       res_provider := "mock";
       res_model := "mock-image-model";
       usage := {| promptTokens := str_length env (prompt request);
                   completionTokens := 0;
                   totalTokens := str_length env (prompt request) |};
       metadata := {| finishReason := "stop"; responseTime := now;
                      isMock := Some true;
                      md_imageSize := Some (or_string (imageSize request) "512x512");
                      md_imageQuality := None; md_imageStyle := None |} |}.

Definition MockProvider : AIProvider :=
  {| generateText := mock_generateText;
     generateImage := Some mock_generateImage |}.

(** *** AIService *)

(** The constructor: the registry [providers]. *)
Definition providers : Map AIProvider :=
  let m0 : Map AIProvider := [] in
  let m1 := if truthy_opt_string (OPENAI_API_KEY env)
            then map_set m0 "openai" OpenAIProvider else m0 in
  let m2 := if truthy_opt_string (CLAUDE_API_KEY env)
            then map_set m1 "claude" ClaudeProvider else m1 in
  map_set m2 "mock" MockProvider.

(** The provider name [generateContent] settles on. *)
Definition selected_provider (request : GenerationRequest) : string :=
  let providerName := or_string (provider request) "openai" in
  if negb (map_has providers providerName) then "mock" else providerName.

(** [generateContent(request)], called at time [now]. *)
Definition generateContent (request : GenerationRequest) (now : Z)
  : Completion GenerationResult :=
  let providerName := selected_provider request in
  match map_get providers providerName with
  | None => Throw (msg_unsupported providerName)
  | Some p =>
      match String.eqb (type request) "image", generateImage p with
      | true, Some generate_image => generate_image request now
      | _, _ => generateText p request now
      end
  end.

Definition getAvailableProviders : list string := map_keys providers.

Definition isProviderAvailable (name : string) : bool := map_has providers name.

End Providers.

End AiService.

(** ** The resource request handlers *)

Module Handlers.

Import MemoryStore.

(** The two backends a handler works against. *)
Record World := {
  database : Mongoose.Database;
  memory : Store
}.

(** What [resource] is bound to in a handler: a document of the persistent
    backend, or the object stored at some index of [memoryStore.resources]. *)
Inductive Found :=
| Document (doc : Mongoose.Resource)
| Stored (index : nat) (r : MemoryResource).

Record Pagination := {
  current : nat;
  pageSize : nat;
  total : nat;
  totalPages : nat
}.

Inductive Data :=
| NoData
| ResourceData (r : Found)
| ListData (l : list MemoryResource) (p : Pagination)
| LikeData (liked : bool) (likesCount : nat).

(** [res.status(status).json({success, message, data})]. *)
Record Response := {
  status : nat;
  success : bool;
  message : option string;
  data : Data
}.

Definition failure (code : nat) (msg : string) : Response :=
  {| status := code; success := false; message := Some msg; data := NoData |}.

Definition found_creator (f : Found) : string :=
  match f with
  | Document doc => Mongoose.creator doc
  | Stored _ r => creator r
  end.

Definition found_isPublic (f : Found) : bool :=
  match f with
  | Document doc => Mongoose.isPublic doc
  | Stored _ r => isPublic r
  end.

Definition set_memory_views (r : MemoryResource) (v : Num) : MemoryResource :=
  {| res_id := res_id r; title := title r; description := description r;
     content := content r; contentType := contentType r; category := category r;
     tags := tags r; creator := creator r; isPublic := isPublic r;
     metadata := metadata r; createdAt := createdAt r; updatedAt := updatedAt r;
     views := Some v |}.

(** The lookup shared by the handlers with a fallback: the persistent
    backend first, the volatile one when that call throws. *)
Definition lookup (w : World) (id : string) : option Found :=
  match Mongoose.findById (database w) id with
  | Return r => Document <$> r
  | Throw _ =>
      match findIndex id (resources (memory w)) with
      | Some index => Stored index <$> (resources (memory w) !! index)
      | None => None
      end
  end.

(** [getResourceById], for the authenticated account [userId] with role
    [userRole], at time [now]. *)
Definition getResourceById (w : World) (id userId userRole : string) (now : Z)
  : World * Response :=
  match lookup w id with
  | None => (w, failure 404 "资源不存在")
  | Some resource =>
      let isOwner := String.eqb (found_creator resource) userId in
      let isPublic := found_isPublic resource in
      if negb isOwner && negb isPublic && negb (String.eqb userRole "admin")
      then (w, failure 403 "没有权限访问此资源")
      else if negb isOwner then
        match resource with
        | Document doc =>
            let doc' := Mongoose.set_views doc (Mongoose.views doc + 1) in
            match Mongoose.save (database w) doc' now with
            | Return db' =>
                ({| database := db'; memory := memory w |},
                 {| status := 200; success := true; message := None;
                    data := ResourceData (Document doc') |})
            | Throw _ => (w, failure 500 "获取资源详情失败")
            end
        | Stored index r =>
            (* the stored object is updated in place; it has no [save] method,
               so the call throws a TypeError *)
            let r' := set_memory_views r (add_one (views r)) in
            ({| database := database w;
                memory := set_resources (memory w)
                            (<[index := r']> (resources (memory w))) |},
             failure 500 "获取资源详情失败")
        end
      else
        (w, {| status := 200; success := true; message := None;
               data := ResourceData resource |})
  end.

(** The toggle of [likeResource] on the [likes] array. *)
Definition toggle_like (userId : string) (likes : list string) : list string :=
  if existsb (String.eqb userId) likes
  then List.filter (fun like => negb (String.eqb like userId)) likes
  else likes ++ [userId].

(** [likeResource]: the persistent backend only. *)
Definition likeResource (db : Mongoose.Database) (id userId : string) (now : Z)
  : Mongoose.Database * Response :=
  match Mongoose.findById db id with
  | Throw _ => (db, failure 500 "操作失败")
  | Return None => (db, failure 404 "资源不存在")
  | Return (Some resource) =>
      let hasLiked := existsb (String.eqb userId) (Mongoose.likes resource) in
      let resource' :=
        Mongoose.set_likes resource (toggle_like userId (Mongoose.likes resource)) in
      match Mongoose.save db resource' now with
      | Throw _ => (db, failure 500 "操作失败")
      | Return db' =>
          (db', {| status := 200; success := true;
                   message := Some (if hasLiked then "取消点赞成功" else "点赞成功");
                   data := LikeData (negb hasLiked)
                                    (length (Mongoose.likes resource')) |})
      end
  end.

(** [n] successive calls of [likeResource] by the same account. *)
Fixpoint likeResource_times (n : nat) (db : Mongoose.Database) (id userId : string)
  (now : Z) : Mongoose.Database :=
  match n with
  | 0 => db
  | S n' => likeResource_times n' (fst (likeResource db id userId now)) id userId now
  end.

(** An entry of [memoryStore.generationResults], and the comparator the
    fallback branch of [getGenerationHistory] sorts them with (newest
    first). *)
Record MemoryGenerationResult := {
  gen_id : string;
  gen_userId : string;
  gen_prompt : string;
  gen_contentType : string;
  gen_content : Payload;
  gen_status : string;
  gen_createdAt : Z;
  gen_updatedAt : Z
}.

Definition history_compare (a b : MemoryGenerationResult) : Z :=
  (gen_createdAt b - gen_createdAt a)%Z.

(** The branch of [register] taken when [shouldUseMemoryStore()] holds; the
    response carries no data in this model. *)
Definition register_volatile (s : Store) (bcrypt_hash : string -> nat -> string)
  (d : UserData) (now : Z) : Store * Response :=
  match createUser bcrypt_hash s d now with
  | (s', Return user) =>
      (s', {| status := 201; success := true; message := Some "注册成功";
              data := NoData |})
  | (s', Throw msg) => (s', failure 400 msg)
  end.

(** The query string of [getResources]; the route accepts [page] and [limit]
    from [1] on. *)
Record ListRequest := {
  page : option nat;
  limit : option nat;
  req_category : option string;
  req_contentType : option string;
  search : option string;
  sortBy : option string;
  sortOrder : option string
}.

(** The query [getResources] builds for [userId] with role [userRole]. *)
Definition build_query (userId userRole : string) (req : ListRequest) : Query :=
  {| q_creator := None;
     q_category := if truthy_opt_string (req_category req)
                   then req_category req else None;
     q_contentType := if truthy_opt_string (req_contentType req)
                      then req_contentType req else None;
     q_isPublic := None;
     q_or := if negb (String.eqb userRole "admin")
             then Some [ {| c_creator := Some userId; c_isPublic := None |};
                         {| c_creator := None; c_isPublic := Some true |} ]
             else None;
     q_search := if truthy_opt_string (search req) then search req else None |}.

Definition build_options (req : ListRequest) : Options :=
  let page := default 1 (page req) in
  let limit := default 20 (limit req) in
  {| o_sort := Some (default "createdAt" (sortBy req),
                     if String.eqb (default "desc" (sortOrder req)) "desc"
                     then (-1)%Z else 1%Z);
     o_skip := Some ((page - 1) * limit);
     o_limit := Some limit |}.

Definition plain_list : ListRequest :=
  {| page := None; limit := None; req_category := None; req_contentType := None;
     search := None; sortBy := None; sortOrder := None |}.

Section Listing.
Variable toLowerCase : string -> string.
Variable array_sort :
  (MemoryResource -> MemoryResource -> Z) -> list MemoryResource -> list MemoryResource.

(** The fallback branch of [getResources]: the listing served by the
    volatile backend. *)
Definition getResources_fallback (s : Store) (userId userRole : string)
  (req : ListRequest) : Response :=
  let query := build_query userId userRole req in
  let memoryOptions := build_options req in
  let resources := findResources toLowerCase array_sort s query memoryOptions in
  let total := countResources toLowerCase array_sort s query in
  let limit := default 20 (limit req) in
  {| status := 200; success := true; message := None;
     data := ListData resources
               {| current := default 1 (page req); pageSize := limit;
                  total := total;
                  totalPages := Nat.div (total + limit - 1) limit |} |}.

End Listing.

End Handlers.

(** ** Sample data

    Concrete stores, requests and environments on which the properties below
    are evaluated. *)

Import MemoryStore.
Import AiService.

Definition demo_hash (p : string) (rounds : nat) : string :=
  "$2a$" +:+ pretty rounds +:+ "$" +:+ p.

Definition teacher_data : UserData :=
  {| ud_username := "teacher"; ud_email := "teacher@example.com";
     ud_password := "Teacher123"; ud_role := "teacher" |}.

Definition student_data : UserData :=
  {| ud_username := "student"; ud_email := "student@example.com";
     ud_password := "Student123"; ud_role := "student" |}.

(** The store after the first step of [initializeDemoUsers]. *)
Definition teacher_store : Store := fst (createUser demo_hash empty_store teacher_data 0).

(** The account of a student, as [createUser] builds it. *)
Definition student : MemoryUser :=
  new_user (user_key 2) student_data (demo_hash "Student123" saltRounds) 0.

Definition plain_request (kind : string) (name : option string) : GenerationRequest :=
  {| type := kind; prompt := "fractions"; model := None; provider := name;
     imageSize := None; imageQuality := None; imageStyle := None;
     educationLevel := None; subject := None; language := None; tone := None;
     additionalInstructions := None |}.

(** A deployment holding a Claude key only, whose remote service answers. *)
Definition claude_env : Environment :=
  {| OPENAI_API_KEY := None;
     CLAUDE_API_KEY := Some "sk-ant";
     openai_chat := fun _ => None;
     openai_images := fun _ => None;
     claude_messages := fun _ =>
       Some {| claude_ok := true; claude_status := 200;
               claude_text := Some "A fraction is a part of a whole.";
               claude_input_tokens := Some 12; claude_output_tokens := Some 9;
               claude_stop_reason := Some "end_turn" |};
     str_length := String.length |}.

(** A stored resource with the given identifier number, title, creator and
    visibility, as [createResource] builds it. *)
Definition sample_resource (n : nat) (ttl owner : string) (pub : bool) : MemoryResource :=
  {| res_id := resource_key n; title := ttl; description := "notes";
     MemoryStore.content := "{}"; contentType := "text"; category := "lesson_plan";
     tags := ["math"]; creator := owner; isPublic := pub;
     MemoryStore.metadata := "{}";
     createdAt := 1000; updatedAt := 1000; views := None |}.

Definition store_of (l : list MemoryResource) : Store :=
  {| users := []; userIdCounter := 1; resourceIdCounter := S (length l);
     resources := l |}.

Definition three_resources : list MemoryResource :=
  [ sample_resource 1 "Fractions" "user_1" true;
    sample_resource 2 "Algebra" "user_2" false;
    sample_resource 3 "Geometry" "user_1" false ].

Definition identity_case (s : string) : string := s.

(** The persistent backend out of reach, and one public resource of
    [user_1] in the volatile backend. *)
Definition offline_world : Handlers.World :=
  {| Handlers.database :=
       {| Mongoose.connection := Mongoose.disconnected;
          Mongoose.isObjectId := fun _ => true;
          Mongoose.collection := [] |};
     Handlers.memory := store_of [sample_resource 1 "Fractions" "user_1" true] |}.

Definition lesson : Mongoose.Resource :=
  {| Mongoose._id := "64b7f0c2a1d3e4f5a6b7c8d9"; Mongoose.title := "Fractions";
     Mongoose.description := "notes"; Mongoose.contentType := "text";
     Mongoose.category := "lesson_plan"; Mongoose.content := "{}";
     Mongoose.metadata := "{}"; Mongoose.tags := ["math"]; Mongoose.isPublic := true;
     Mongoose.creator := "u1"; Mongoose.collaborators := []; Mongoose.likes := [];
     Mongoose.views := 0; Mongoose.generationId := None; Mongoose.createdAt := 1000;
     Mongoose.updatedAt := 1000 |}.

Definition online_db : Mongoose.Database :=
  {| Mongoose.connection := Mongoose.connected;
     Mongoose.isObjectId := fun s => Nat.eqb (String.length s) 24;
     Mongoose.collection := [lesson] |}.

From stdpp Require Import sorting.

(** ** services/memoryStore.ts, continued *)

Module MemoryStoreOps.

(** [Partial<MemoryResource>], the argument of [updateResource]. *)
Record ResourceUpdate := {
  ru_id : option string;
  ru_title : option string;
  ru_description : option string;
  ru_content : option Payload;
  ru_contentType : option string;
  ru_category : option string;
  ru_tags : option (list string);
  ru_creator : option string;
  ru_isPublic : option bool;
  ru_metadata : option Payload;
  ru_createdAt : option Z
}.

(** [{...resource, ...updateData, updatedAt: new Date()}]. *)
Definition merge_resource (r : MemoryResource) (d : ResourceUpdate) (now : Z)
  : MemoryResource :=
  {| res_id := default (res_id r) (ru_id d);
     title := default (title r) (ru_title d);
     description := default (description r) (ru_description d);
     MemoryStore.content := default (MemoryStore.content r) (ru_content d);
     contentType := default (contentType r) (ru_contentType d);
     category := default (category r) (ru_category d);
     tags := default (tags r) (ru_tags d);
     creator := default (creator r) (ru_creator d);
     isPublic := default (isPublic r) (ru_isPublic d);
     MemoryStore.metadata := default (MemoryStore.metadata r) (ru_metadata d);
     createdAt := default (createdAt r) (ru_createdAt d);
     updatedAt := now;
     views := views r |}.

(** [updateResource(id, updateData)], called at time [now]. *)
Definition updateResource (s : Store) (id : string) (d : ResourceUpdate) (now : Z)
  : Store * option MemoryResource :=
  match findIndex id (resources s) with
  | None => (s, None)
  | Some index =>
      match resources s !! index with
      | None => (s, None)
      | Some r =>
          let r' := merge_resource r d now in
          (set_resources s (<[index := r']> (resources s)), Some r')
      end
  end.


(** No two accounts share a username or an email, and no two entries a key. *)
Definition distinct_accounts (s : Store) : Prop :=
  List.NoDup (map_keys (users s))
  /\ List.NoDup (List.map username (map_values (users s)))
  /\ List.NoDup (List.map email (map_values (users s))).

End MemoryStoreOps.

(** ** controllers/authController.ts: the branches served by the volatile
    backend *)

Module AuthController.

Import MemoryStoreOps.

(** What the handlers take from their libraries and environment:
    [bcrypt.hash], [bcrypt.compare], the signing secret and [jwt.sign]. *)
Record Environment := {
  bcrypt_hash : string -> nat -> string;
  bcrypt_compare : string -> string -> bool;
  JWT_SECRET : option string;
  jwt_sign : string -> string -> string
}.

Definition msg_no_secret : string := "JWT_SECRET environment variable is not set".
Definition msg_bad_credentials : string := "邮箱或密码错误".
Definition msg_login_failed : string := "登录失败，请稍后重试".
Definition msg_no_user : string := "用户不存在".
Definition msg_wrong_password : string := "当前密码错误".
Definition msg_password_failed : string := "密码修改失败".

(** [generateToken(userId)] of the authentication middleware. *)
Definition generateToken (env : Environment) (userId : string) : Completion string :=
  if truthy_opt_string (JWT_SECRET env)
  then Return (jwt_sign env userId (default "" (JWT_SECRET env)))
  else Throw msg_no_secret.

(** The account as a response shows it. *)
Record UserView := {
  uv_id : string;
  uv_username : string;
  uv_email : string;
  uv_role : string;
  uv_profile : Profile;
  uv_createdAt : option Z;
  uv_updatedAt : option Z;
  uv_lastLoginAt : option Z
}.

Record Response := {
  status : nat;
  success : bool;
  message : string;
  user : option UserView;
  token : option string
}.

Definition failure (code : nat) (msg : string) : Response :=
  {| status := code; success := false; message := msg; user := None; token := None |}.

(** The body of a registration; [role] defaults to [student]. *)
Record RegisterBody := {
  rb_username : string;
  rb_email : string;
  rb_password : string;
  rb_role : option string
}.

Definition user_data (body : RegisterBody) : UserData :=
  {| ud_username := rb_username body; ud_email := rb_email body;
     ud_password := rb_password body; ud_role := default "student" (rb_role body) |}.

(** [register], at time [now]. *)
Definition register (env : Environment) (s : Store) (body : RegisterBody) (now : Z)
  : Store * Response :=
  match createUser (bcrypt_hash env) s (user_data body) now with
  | (s', Throw msg) => (s', failure 400 msg)
  | (s', Return u) =>
      match generateToken env (user_id u) with
      | Throw msg => (s', failure 400 msg)
      | Return t =>
          (s', {| status := 201; success := true; message := "注册成功";
                  user := Some {| uv_id := user_id u; uv_username := username u;
                                  uv_email := email u; uv_role := role u;
                                  uv_profile := profile u;
                                  uv_createdAt := Some (user_createdAt u);
                                  uv_updatedAt := Some (user_updatedAt u);
                                  uv_lastLoginAt := None |};
                  token := Some t |})
      end
  end.

Definition login_update (now : Z) : UserUpdate :=
  {| up_id := None; up_username := None; up_email := None; up_password := None;
     up_role := None; up_profile := None; up_createdAt := None;
     up_lastLoginAt := Some now |}.

(** [login], at time [now]. *)
Definition login (env : Environment) (s : Store) (mail pass : string) (now : Z)
  : Store * Response :=
  match findUserByEmail s mail with
  | None => (s, failure 401 msg_bad_credentials)
  | Some u =>
      if negb (bcrypt_compare env pass (password u))
      then (s, failure 401 msg_bad_credentials)
      else
        let s' := fst (updateUser s (user_id u) (login_update now) now) in
        match generateToken env (user_id u) with
        | Throw _ => (s', failure 500 msg_login_failed)
        | Return t =>
            (s', {| status := 200; success := true; message := "登录成功";
                    user := Some {| uv_id := user_id u; uv_username := username u;
                                    uv_email := email u; uv_role := role u;
                                    uv_profile := profile u;
                                    uv_createdAt := Some (user_createdAt u);
                                    uv_updatedAt := Some (user_updatedAt u);
                                    uv_lastLoginAt := lastLoginAt u |};
                    token := Some t |})
        end
  end.

(** The body of a profile update. *)
Record ProfileBody := {
  pb_displayName : option string;
  pb_bio : option string;
  pb_institution : option string;
  pb_subjects : option (list string);
  pb_preferences : option Preferences
}.

(** The profile [updateProfile] writes for the authenticated account
    [reqUser]: a falsy field of the body keeps the value [reqUser] has. *)
Definition merged_profile (reqUser : MemoryUser) (body : ProfileBody) : Profile :=
  {| displayName := or_string (pb_displayName body) (displayName (profile reqUser));
     bio := or_string (pb_bio body) (bio (profile reqUser));
     institution := or_string (pb_institution body) (institution (profile reqUser));
     subjects := default (subjects (profile reqUser)) (pb_subjects body);
     preferences := default (preferences (profile reqUser)) (pb_preferences body) |}.

Definition profile_update (p : Profile) : UserUpdate :=
  {| up_id := None; up_username := None; up_email := None; up_password := None;
     up_role := None; up_profile := Some p; up_createdAt := None;
     up_lastLoginAt := None |}.

(** [updateProfile], for the authenticated account [reqUser]. *)
Definition updateProfile (s : Store) (reqUser : MemoryUser) (body : ProfileBody) (now : Z)
  : Store * Response :=
  match updateUser s (user_id reqUser) (profile_update (merged_profile reqUser body)) now with
  | (s', None) => (s', failure 404 msg_no_user)
  | (s', Some u) =>
      (s', {| status := 200; success := true; message := "更新成功";
              user := Some {| uv_id := user_id u; uv_username := username u;
                              uv_email := email u; uv_role := role u;
                              uv_profile := profile u; uv_createdAt := None;
                              uv_updatedAt := None; uv_lastLoginAt := None |};
              token := None |})
  end.

(** [changePassword], for the authenticated account of identifier [userId]. *)
Definition changePassword (env : Environment) (s : Store)
  (userId currentPassword newPassword : string) (now : Z) : Store * Response :=
  match findUserById s userId with
  | None => (s, failure 404 msg_no_user)
  | Some u =>
      if negb (bcrypt_compare env currentPassword (password u))
      then (s, failure 400 msg_wrong_password)
      else
        match updateUserPassword (bcrypt_hash env) s userId newPassword now with
        | (s', false) => (s', failure 500 msg_password_failed)
        | (s', true) =>
            (s', {| status := 200; success := true; message := "密码修改成功";
                    user := None; token := None |})
        end
  end.

(** The stores the handlers and the start-up code lead to. *)
Inductive served (env : Environment) : Store -> Prop :=
| served_new : served env empty_store
| served_createUser s d now :
    served env s -> served env (fst (createUser (bcrypt_hash env) s d now))
| served_register s body now :
    served env s -> served env (fst (register env s body now))
| served_login s mail pass now :
    served env s -> served env (fst (login env s mail pass now))
| served_updateProfile s reqUser body now :
    served env s -> served env (fst (updateProfile s reqUser body now))
| served_changePassword s userId cur new now :
    served env s -> served env (fst (changePassword env s userId cur new now)).

End AuthController.

(** ** controllers/aiController.ts: generation records *)

Module AiController.

(** A generation record as the volatile backend holds it.  The interface
    declares [provider] and [model] as optional. *)
Record StoredGeneration := {
  sg_id : string;                (* _id *)
  sg_userId : string;
  sg_prompt : string;
  sg_contentType : string;
  sg_content : string;
  sg_status : string;
  sg_provider : option string;
  sg_model : option string;
  sg_metadata : Metadata;
  sg_createdAt : Z;
  sg_updatedAt : Z
}.

Inductive Data :=
| NoData
| Generated (recordId : string) (result : GenerationResult)
| History (results : list StoredGeneration) (current pageSize total totalPages : nat)
| Record_ (result : StoredGeneration).

Record Response := {
  status : nat;
  success : bool;
  message : option string;
  data : Data
}.

Definition failure (code : nat) (msg : string) : Response :=
  {| status := code; success := false; message := Some msg; data := NoData |}.

Definition msg_unavailable (providerName : string) : string :=
  "AI提供商 " +:+ providerName +:+ " 不可用".

(** The record [generateContent] stores for a result, at time [now]. *)
Definition new_record (userId : string) (request : GenerationRequest)
  (result : GenerationResult) (now : Z) : StoredGeneration :=
  {| sg_id := pretty now;
     sg_userId := userId;
     sg_prompt := prompt request;
     sg_contentType := type request;
     sg_content := AiService.content result;
     sg_status := "completed";
     sg_provider := None;
     sg_model := None;
     sg_metadata := AiService.metadata result;
     sg_createdAt := now;
     sg_updatedAt := now |}.

(** [generateContent] of the controller, for the account [userId].  The
    service is called at time [called] and the record is built at time
    [now]; [saved] is the identifier the persistent backend assigns, or
    [None] when saving there throws, and [memory] is
    [memoryStore.generationResults]. *)
Definition generateContent (env : AiService.Environment) (saved : option string)
  (memory : list StoredGeneration) (userId : string) (request : GenerationRequest)
  (called now : Z) : list StoredGeneration * Response :=
  if truthy_opt_string (provider request)
     && negb (isProviderAvailable env (default "" (provider request)))
  then (memory, failure 400 (msg_unavailable (default "" (provider request))))
  else
    match AiService.generateContent env request called with
    | Throw msg => (memory, failure 500 msg)
    | Return result =>
        let generationResult := new_record userId request result now in
        match saved with
        | Some mongoId =>
            (memory, {| status := 200; success := true; message := Some "内容生成成功";
                        data := Generated mongoId result |})
        | None =>
            (memory ++ [generationResult],
             {| status := 200; success := true; message := Some "内容生成成功";
                data := Generated (sg_id generationResult) result |})
        end
    end.

(** The query string of [getGenerationHistory]. *)
Record HistoryRequest := {
  h_page : option nat;
  h_limit : option nat;
  h_provider : option string;
  h_type : option string;
  h_status : option string
}.

(** The filter callback of the fallback branch. *)
Definition history_filter (userId : string) (req : HistoryRequest)
  (r : StoredGeneration) : bool :=
  if negb (String.eqb (sg_userId r) userId) then false
  else if truthy_opt_string (h_provider req)
          && negb (match sg_provider r with
                   | Some p => String.eqb p (default "" (h_provider req))
                   | None => false
                   end)
  then false
  else if truthy_opt_string (h_type req)
          && negb (String.eqb (sg_contentType r) (default "" (h_type req)))
  then false
  else if truthy_opt_string (h_status req)
          && negb (String.eqb (sg_status r) (default "" (h_status req)))
  then false
  else true.

(** The comparator of the fallback branch: newest first. *)
Definition newest_first (a b : StoredGeneration) : Z :=
  (sg_createdAt b - sg_createdAt a)%Z.

Section History.
Variable array_sort :
  (StoredGeneration -> StoredGeneration -> Z) -> list StoredGeneration
  -> list StoredGeneration.

(** The fallback branch of [getGenerationHistory]. *)
Definition getGenerationHistory_fallback (memory : list StoredGeneration)
  (userId : string) (req : HistoryRequest) : Response :=
  let page := default 1 (h_page req) in
  let limit := default 20 (h_limit req) in
  let skip := (page - 1) * limit in
  let filteredResults := List.filter (history_filter userId req) memory in
  let total := length filteredResults in
  let results := slice (array_sort newest_first filteredResults) skip (skip + limit) in
  {| status := 200; success := true; message := None;
     data := History results page limit total (Nat.div (total + limit - 1) limit) |}.

End History.

Definition owned_with_id (id userId : string) (r : StoredGeneration) : bool :=
  String.eqb (sg_id r) id && String.eqb (sg_userId r) userId.

(** The fallback branch of [getGenerationById]. *)
Definition getGenerationById_fallback (memory : list StoredGeneration)
  (id userId : string) : Response :=
  match List.find (owned_with_id id userId) memory with
  | None => failure 404 "生成记录不存在"
  | Some result =>
      {| status := 200; success := true; message := None; data := Record_ result |}
  end.

Fixpoint findIndex {A} (f : A -> bool) (l : list A) : option nat :=
  match l with
  | [] => None
  | x :: l' => if f x then Some 0 else S <$> findIndex f l'
  end.

(** The fallback branch of [deleteGenerationResult]. *)
Definition deleteGenerationResult_fallback (memory : list StoredGeneration)
  (id userId : string) : list StoredGeneration * Response :=
  match findIndex (owned_with_id id userId) memory with
  | None => (memory, failure 404 "生成记录不存在")
  | Some index =>
      (delete index memory,
       {| status := 200; success := true; message := Some "删除成功"; data := NoData |})
  end.

End AiController.

(** ** The resource request handlers, continued *)

Module ResourceController.

Import Handlers.

Definition set_isPublic (r : Mongoose.Resource) (b : bool) : Mongoose.Resource :=
  {| Mongoose._id := Mongoose._id r; Mongoose.title := Mongoose.title r;
     Mongoose.description := Mongoose.description r;
     Mongoose.contentType := Mongoose.contentType r;
     Mongoose.category := Mongoose.category r; Mongoose.content := Mongoose.content r;
     Mongoose.metadata := Mongoose.metadata r; Mongoose.tags := Mongoose.tags r;
     Mongoose.isPublic := b; Mongoose.creator := Mongoose.creator r;
     Mongoose.collaborators := Mongoose.collaborators r;
     Mongoose.likes := Mongoose.likes r; Mongoose.views := Mongoose.views r;
     Mongoose.generationId := Mongoose.generationId r;
     Mongoose.createdAt := Mongoose.createdAt r;
     Mongoose.updatedAt := Mongoose.updatedAt r |}.

Fixpoint remove_first (id : string) (l : list Mongoose.Resource) : list Mongoose.Resource :=
  match l with
  | [] => []
  | r :: l' => if String.eqb (Mongoose._id r) id then l' else r :: remove_first id l'
  end.

(** [ResourceModel.findByIdAndDelete(id)]. *)
Definition findByIdAndDelete (db : Mongoose.Database) (id : string)
  : Completion Mongoose.Database :=
  if negb (Mongoose.isObjectId db id) then Throw Mongoose.msg_cast
  else if negb (Mongoose.is_connected db) then Throw Mongoose.msg_unreachable
  else Return (Mongoose.set_collection db (remove_first id (Mongoose.collection db))).



Definition msg_delete_forbidden : string := "没有权限删除此资源".
Definition msg_delete_gone : string := "删除失败，资源可能已不存在".
Definition msg_delete_failed : string := "删除资源失败".
Definition msg_not_found : string := "资源不存在".

(** [deleteResource] of the controller. *)
Definition deleteResource (w : World) (id userId userRole : string) : World * Response :=
  match lookup w id with
  | None => (w, failure 404 msg_not_found)
  | Some resource =>
      let isOwner := String.eqb (found_creator resource) userId in
      if negb isOwner && negb (String.eqb userRole "admin")
      then (w, failure 403 msg_delete_forbidden)
      else
        match resource with
        | Document _ =>
            match findByIdAndDelete (database w) id with
            | Throw _ => (w, failure 500 msg_delete_failed)
            | Return db' =>
                ({| database := db'; memory := memory w |},
                 {| status := 200; success := true; message := Some "资源删除成功";
                    data := NoData |})
            end
        | Stored _ _ =>
            match MemoryStore.deleteResource (memory w) id with
            | (_, false) => (w, failure 404 msg_delete_gone)
            | (s', true) =>
                ({| database := database w; memory := s' |},
                 {| status := 200; success := true; message := Some "资源删除成功";
                    data := NoData |})
            end
        end
  end.

Definition msg_publish_forbidden : string := "只能发布自己的资源".
Definition msg_publish_failed : string := "发布资源失败".

(** [publishResource]: the persistent backend only. *)
Definition publishResource (db : Mongoose.Database) (id userId : string) (now : Z)
  : Mongoose.Database * Response :=
  match Mongoose.findById db id with
  | Throw _ => (db, failure 500 msg_publish_failed)
  | Return None => (db, failure 404 msg_not_found)
  | Return (Some resource) =>
      if negb (String.eqb (Mongoose.creator resource) userId)
      then (db, failure 403 msg_publish_forbidden)
      else
        let resource' := set_isPublic resource true in
        match Mongoose.save db resource' now with
        | Throw _ => (db, failure 500 msg_publish_failed)
        | Return db' =>
            (db', {| status := 200; success := true; message := Some "资源发布成功";
                     data := ResourceData (Document resource') |})
        end
  end.

End ResourceController.

(** ** Reading a listing response *)

Definition listed (r : Handlers.Response) : list MemoryResource :=
  match Handlers.data r with
  | Handlers.ListData l _ => l
  | _ => []
  end.

Definition reported_pages (r : Handlers.Response) : nat :=
  match Handlers.data r with
  | Handlers.ListData _ p => Handlers.totalPages p
  | _ => 0
  end.

Definition with_page (req : Handlers.ListRequest) (p : nat) : Handlers.ListRequest :=
  {| Handlers.page := Some p; Handlers.limit := Handlers.limit req;
     Handlers.req_category := Handlers.req_category req;
     Handlers.req_contentType := Handlers.req_contentType req;
     Handlers.search := Handlers.search req; Handlers.sortBy := Handlers.sortBy req;
     Handlers.sortOrder := Handlers.sortOrder req |}.

(** ** Further sample data *)

(** An environment in which a digest is the tagged password. *)
Definition auth_env : AuthController.Environment :=
  {| AuthController.bcrypt_hash := demo_hash;
     AuthController.bcrypt_compare := fun p h => String.eqb h (demo_hash p saltRounds);
     AuthController.JWT_SECRET := Some "secret";
     AuthController.jwt_sign := fun userId secret => "jwt." +:+ userId |}.

Definition teacher_body : AuthController.RegisterBody :=
  {| AuthController.rb_username := "teacher";
     AuthController.rb_email := "teacher@example.com";
     AuthController.rb_password := "Teacher123";
     AuthController.rb_role := Some "teacher" |}.

(** The store after the teacher has registered. *)
Definition registered_store : Store :=
  fst (AuthController.register auth_env empty_store teacher_body 0).

(** ** The invariant of the accounts the handlers keep *)

(** Every entry of the account map is keyed by the identifier of its
    account. *)
Definition ids_are_keys (s : Store) : Prop :=
  List.map user_id (map_values (users s)) = map_keys (users s).

Definition accounts_ok (s : Store) : Prop :=
  keys_issued s /\ ids_are_keys s /\ MemoryStoreOps.distinct_accounts s.

(** An update that leaves identifier, username and email alone. *)
Definition keeps_identity (d : UserUpdate) : Prop :=
  up_id d = None /\ up_username d = None /\ up_email d = None.

Definition password_update (hashedPassword : string) : UserUpdate :=
  {| up_id := None; up_username := None; up_email := None;
     up_password := Some hashedPassword; up_role := None; up_profile := None;
     up_createdAt := None; up_lastLoginAt := None |}.

(** ** The invariant of the stored resources *)


(** An empty body of a resource, for the samples. *)
Definition worksheet (ttl owner : string) (pub : bool) : MemoryStore.ResourceData :=
  {| rd_title := ttl; rd_description := "exercises"; rd_content := "{}";
     rd_contentType := "text"; rd_category := "worksheet"; rd_tags := [];
     rd_creator := owner; rd_isPublic := pub; rd_metadata := "{}"; rd_views := None |}.

(** A store with two resources made by [createResource]. *)
Definition two_created : Store :=
  fst (createResource (fst (createResource empty_store (worksheet "A" "user_1" true) 1))
         (worksheet "B" "user_2" false) 2).

(** ** The order of a sorted listing *)



(** ** Further sample worlds *)

(** The persistent backend holding one private resource of [u1]. *)
Definition private_db : Mongoose.Database :=
  Mongoose.set_collection online_db [ResourceController.set_isPublic lesson false].


(** An update of the title alone. *)
Definition retitle (ttl : string) : MemoryStoreOps.ResourceUpdate :=
  {| MemoryStoreOps.ru_id := None; MemoryStoreOps.ru_title := Some ttl;
     MemoryStoreOps.ru_description := None; MemoryStoreOps.ru_content := None;
     MemoryStoreOps.ru_contentType := None; MemoryStoreOps.ru_category := None;
     MemoryStoreOps.ru_tags := None; MemoryStoreOps.ru_creator := None;
     MemoryStoreOps.ru_isPublic := None; MemoryStoreOps.ru_metadata := None;
     MemoryStoreOps.ru_createdAt := None |}.

(** ** Further sample deployments *)

(** A deployment without any key. *)
Definition demo_env : Environment :=
  {| OPENAI_API_KEY := None;
     CLAUDE_API_KEY := Some "";
     openai_chat := fun _ => None;
     openai_images := fun _ => None;
     claude_messages := fun _ => None;
     str_length := String.length |}.

(** ** Reading a history response *)

Definition history_results (r : AiController.Response) : list AiController.StoredGeneration :=
  match AiController.data r with
  | AiController.History results _ _ _ _ => results
  | _ => []
  end.

Definition history_total (r : AiController.Response) : nat :=
  match AiController.data r with
  | AiController.History _ _ _ total _ => total
  | _ => 0
  end.

Definition history_pages (r : AiController.Response) : nat :=
  match AiController.data r with
  | AiController.History _ _ _ _ totalPages => totalPages
  | _ => 0
  end.

(** Not older than: the order of a history listing. *)
Definition not_older (a b : AiController.StoredGeneration) : Prop :=
  (AiController.sg_createdAt b <= AiController.sg_createdAt a)%Z.

(** A generation record of [userId] made at time [t]. *)
Definition sample_generation (userId : string) (t : Z) : AiController.StoredGeneration :=
  AiController.new_record userId (plain_request "text" None)
    {| id := "mock_" +:+ pretty t; AiService.content := "text";
       res_provider := "mock"; res_model := "mock-model";
       usage := {| promptTokens := 1; completionTokens := 1; totalTokens := 2 |};
       AiService.metadata := no_extras "stop" t |}
    t.

Definition three_generations : list AiController.StoredGeneration :=
  [sample_generation "user_1" 10; sample_generation "user_2" 20;
   sample_generation "user_1" 30].

Definition history_request (p l : option nat) (name : option string)
  : AiController.HistoryRequest :=
  {| AiController.h_page := p; AiController.h_limit := l;
     AiController.h_provider := name; AiController.h_type := None;
     AiController.h_status := None |}.
(** * Properties *)

(** ** Helper lemmas on the language-level model *)

Lemma map_has_false_iff {V} (m : Map V) k :
  map_has m k = false <-> ~ In k (map_keys m).
Proof.
  unfold map_has, map_keys. split.
  - intros H Hin. apply in_map_iff in Hin as [e [<- He]].
    assert (existsb (fun e0 => String.eqb (fst e0) (fst e)) m = true) as Ht.
    { apply existsb_exists. exists e. split; [exact He | apply String.eqb_refl]. }
    congruence.
  - intros H. destruct (existsb _ m) eqn:E; [| reflexivity].
    apply existsb_exists in E as [e [He Hk]]. apply String.eqb_eq in Hk.
    exfalso. apply H. apply in_map_iff. exists e. auto.
Qed.

Lemma map_set_fresh {V} (m : Map V) k v :
  map_has m k = false -> map_set m k v = m ++ [(k, v)].
Proof. unfold map_set. intros ->. reflexivity. Qed.

Lemma map_keys_set {V} (m : Map V) k v :
  map_has m k = true -> map_keys (map_set m k v) = map_keys m.
Proof.
  unfold map_set, map_keys. intros ->. rewrite List.map_map.
  apply List.map_ext_in. intros e _.
  destruct (String.eqb (fst e) k) eqn:E; [| reflexivity].
  apply String.eqb_eq in E. simpl. congruence.
Qed.

Lemma user_key_inj n m : user_key n = user_key m -> n = m.
Proof.
  unfold user_key. cbn [String.append]. intros H.
  injection H as H. exact (pretty_nat_inj _ _ H).
Qed.

Lemma user_key_fresh (s : Store) :
  keys_issued s -> map_has (users s) (user_key (userIdCounter s)) = false.
Proof.
  unfold keys_issued, keys_below_counter. intros Hk.
  apply map_has_false_iff. intros Hin.
  rewrite forallb_forall in Hk. specialize (Hk _ Hin).
  apply existsb_exists in Hk as [k' [Hk' Heq]]. apply String.eqb_eq in Heq.
  subst k'. apply in_map_iff in Hk' as [n [Hn Hin']].
  apply user_key_inj in Hn. subst n. apply in_seq in Hin'. lia.
Qed.

Lemma find_none_iff {A} (f : A -> bool) (l : list A) :
  List.find f l = None <-> forall x, In x l -> f x = false.
Proof.
  split.
  - apply find_none.
  - induction l as [| a l IH]; intros H; [reflexivity |]. simpl.
    rewrite (H a (or_introl eq_refl)). apply IH. intros x Hx. apply H. now right.
Qed.

(** ** Accounts: the invariant of the account map *)

Lemma map_get_has {V} (m : Map V) k v : map_get m k = Some v -> map_has m k = true.
Proof.
  unfold map_get, map_has. destruct (List.find _ m) as [e |] eqn:E; [| discriminate].
  intros _. apply find_some in E as [Hin Hk].
  apply existsb_exists. exists e. auto.
Qed.

Lemma keys_issued_intro (s : Store) :
  (forall k, In k (map_keys (users s)) ->
             exists n, n < userIdCounter s /\ k = user_key n) ->
  keys_issued s.
Proof.
  intros H. unfold keys_issued. apply forallb_forall. intros k Hk.
  destruct (H k Hk) as [n [Hn ->]]. apply existsb_exists.
  exists (user_key n). split; [| apply String.eqb_refl].
  unfold keys_below_counter. apply in_map. apply in_seq. lia.
Qed.

Lemma keys_issued_elim (s : Store) k :
  keys_issued s -> In k (map_keys (users s)) ->
  exists n, n < userIdCounter s /\ k = user_key n.
Proof.
  unfold keys_issued, keys_below_counter. intros H Hk.
  rewrite forallb_forall in H. specialize (H k Hk).
  apply existsb_exists in H as [k' [Hin Heq]]. apply String.eqb_eq in Heq. subst k'.
  apply in_map_iff in Hin as [n [<- Hn]]. apply in_seq in Hn.
  exists n. split; [lia | reflexivity].
Qed.

Lemma keys_issued_same (s s' : Store) :
  map_keys (users s') = map_keys (users s) -> userIdCounter s' = userIdCounter s ->
  keys_issued s -> keys_issued s'.
Proof.
  unfold keys_issued, keys_below_counter. intros -> ->. trivial.
Qed.

Lemma createUser_fresh bcrypt_hash (s : Store) d now :
  keys_issued s -> existingUser s d = None ->
  createUser bcrypt_hash s d now =
    (let u := new_user (user_key (userIdCounter s)) d
                       (bcrypt_hash (ud_password d) saltRounds) now in
     ({| users := users s ++ [(user_key (userIdCounter s), u)];
         userIdCounter := S (userIdCounter s);
         resourceIdCounter := resourceIdCounter s;
         resources := resources s |}, Return u)).
Proof.
  intros Hk Hex. unfold createUser. rewrite Hex. cbn.
  rewrite map_set_fresh by (apply user_key_fresh; exact Hk). reflexivity.
Qed.

Lemma createUser_keys_issued bcrypt_hash (s : Store) d now :
  keys_issued s -> keys_issued (fst (createUser bcrypt_hash s d now)).
Proof.
  intros Hk. destruct (existingUser s d) as [u |] eqn:Hex.
  - unfold createUser. rewrite Hex. exact Hk.
  - rewrite createUser_fresh by assumption. cbn.
    apply keys_issued_intro. cbn. intros k Hin.
    unfold map_keys in Hin. rewrite List.map_app in Hin.
    apply in_app_iff in Hin as [Hin | [<- | []]].
    + destruct (keys_issued_elim s k Hk Hin) as [n [Hn ->]]. exists n. split; [lia | reflexivity].
    + exists (userIdCounter s). split; [lia | reflexivity].
Qed.

Lemma updateUser_keys_issued (s : Store) id d now :
  keys_issued s -> keys_issued (fst (updateUser s id d now)).
Proof.
  intros Hk. unfold updateUser. destruct (map_get (users s) id) as [u |] eqn:E.
  - cbn. apply (keys_issued_same s); cbn; [| reflexivity | exact Hk].
    apply map_keys_set. eapply map_get_has. exact E.
  - exact Hk.
Qed.

Lemma updateUserPassword_keys_issued bcrypt_hash (s : Store) id p now :
  keys_issued s -> keys_issued (fst (updateUserPassword bcrypt_hash s id p now)).
Proof.
  intros Hk. unfold updateUserPassword. destruct (map_get (users s) id) as [u |] eqn:E.
  - cbn. apply (keys_issued_same s); cbn; [| reflexivity | exact Hk].
    apply map_keys_set. eapply map_get_has. exact E.
  - exact Hk.
Qed.

(** Every state the operations of the store lead to satisfies the invariant. *)
Lemma reachable_keys_issued bcrypt_hash (s : Store) :
  reachable bcrypt_hash s -> keys_issued s.
Proof.
  induction 1.
  - reflexivity.
  - now apply createUser_keys_issued.
  - now apply updateUser_keys_issued.
  - now apply updateUserPassword_keys_issued.
  - reflexivity.
  - assumption.
  - assumption.
Qed.

Lemma existingUser_some_iff (s : Store) d :
  (exists u, existingUser s d = Some u) <->
  (exists u, In u (map_values (users s)) /\
             (username u = ud_username d \/ email u = ud_email d)).
Proof.
  unfold existingUser. split.
  - intros [u Hu]. apply find_some in Hu as [Hin Hp]. exists u. split; [exact Hin |].
    unfold same_email_or_username in Hp. apply orb_true_iff in Hp as [Hp | Hp];
      apply String.eqb_eq in Hp; auto.
  - intros [u [Hin Hp]].
    destruct (List.find (same_email_or_username d) (map_values (users s))) as [u' |] eqn:E.
    + exists u'. reflexivity.
    + exfalso. rewrite find_none_iff in E. specialize (E u Hin).
      unfold same_email_or_username in E. apply orb_false_iff in E as [E1 E2].
      destruct Hp as [Hp | Hp].
      * rewrite Hp, String.eqb_refl in E2. discriminate.
      * rewrite Hp, String.eqb_refl in E1. discriminate.
Qed.

(** ** C1: uniqueness of username and email in the volatile backend *)

(** C1.  In a store whose account keys were issued by the counter, [createUser]
    throws the error of message [msg_user_exists] and leaves the store as it
    was when some stored account has the new username or the new email.
    When no stored account has either, it returns the new account, appends
    exactly that account to the map under a key not in use before, and
    advances the counter by one.  Hence of two creations with the same
    username or the same email, the second one fails. *)
Theorem createUser_unique bcrypt_hash (s : Store) (d : UserData) (now : Z) :
  keys_issued s ->
  ((exists u, In u (map_values (users s)) /\
              (username u = ud_username d \/ email u = ud_email d)) ->
   createUser bcrypt_hash s d now = (s, Throw msg_user_exists))
  /\
  ((forall u, In u (map_values (users s)) ->
              username u <> ud_username d /\ email u <> ud_email d) ->
   let u' := new_user (user_key (userIdCounter s)) d
                      (bcrypt_hash (ud_password d) saltRounds) now in
   map_has (users s) (user_id u') = false /\
   createUser bcrypt_hash s d now =
     ({| users := users s ++ [(user_id u', u')];
         userIdCounter := S (userIdCounter s);
         resourceIdCounter := resourceIdCounter s;
         resources := resources s |}, Return u'))
  /\
  (forall s1 u d' now',
     createUser bcrypt_hash s d now = (s1, Return u) ->
     ud_username d' = ud_username d \/ ud_email d' = ud_email d ->
     createUser bcrypt_hash s1 d' now' = (s1, Throw msg_user_exists)).
Proof.
  intros Hk. split; [| split].
  - intros Hex. apply existingUser_some_iff in Hex as [u Hu].
    unfold createUser. rewrite Hu. reflexivity.
  - intros Hnone. cbn zeta. split.
    + apply user_key_fresh. exact Hk.
    + apply createUser_fresh; [exact Hk |].
      destruct (existingUser s d) as [u |] eqn:E; [| reflexivity].
      exfalso. assert (exists u0, existingUser s d = Some u0) as Hex by eauto.
      apply existingUser_some_iff in Hex as [u0 [Hin Hp]].
      destruct (Hnone u0 Hin) as [H1 H2]. destruct Hp; contradiction.
  - intros s1 u d' now' Hfirst Hsame.
    destruct (existingUser s d) as [u0 |] eqn:E.
    { unfold createUser in Hfirst. rewrite E in Hfirst. discriminate. }
    rewrite createUser_fresh in Hfirst by assumption. cbn zeta in Hfirst.
    injection Hfirst as <- <-.
    assert (exists v, existingUser
                        {| users := users s ++
                             [(user_key (userIdCounter s),
                               new_user (user_key (userIdCounter s)) d
                                 (bcrypt_hash (ud_password d) saltRounds) now)];
                           userIdCounter := S (userIdCounter s);
                           resourceIdCounter := resourceIdCounter s;
                           resources := resources s |} d' = Some v) as [v Hv].
    { apply existingUser_some_iff. eexists. split.
      - unfold map_values. cbn. rewrite List.map_app. apply in_app_iff. right.
        left. reflexivity.
      - cbn. destruct Hsame as [-> | ->]; auto. }
    unfold createUser. rewrite Hv. reflexivity.
Qed.

(** The handler turns the error into a response of status 400 carrying the
    message, with the store as it was. *)
Lemma register_volatile_duplicate bcrypt_hash (s : Store) (d : UserData) (now : Z) :
  (exists u, In u (map_values (users s)) /\
             (username u = ud_username d \/ email u = ud_email d)) ->
  Handlers.register_volatile s bcrypt_hash d now
  = (s, Handlers.failure 400 msg_user_exists).
Proof.
  intros Hex. apply existingUser_some_iff in Hex as [u Hu].
  unfold Handlers.register_volatile, createUser. rewrite Hu. reflexivity.
Qed.

Lemma createUser_unique_witness :
  createUser demo_hash teacher_store
    {| ud_username := "other"; ud_email := "teacher@example.com";
       ud_password := "Aa123456"; ud_role := "student" |} 1
  = (teacher_store, Throw msg_user_exists)
  /\
  exists u', createUser demo_hash teacher_store student_data 1
             = ({| users := users teacher_store ++ [("user_2", u')];
                   userIdCounter := 3; resourceIdCounter := 1; resources := [] |},
                Return u').
Proof.
  split.
  - refine (proj1 (createUser_unique demo_hash teacher_store _ 1 _) _).
    + vm_compute. reflexivity.
    + eexists. split; [left; reflexivity | right; reflexivity].
  - eexists.
    refine (proj2 (proj1 (proj2 (createUser_unique demo_hash teacher_store
                                   student_data 1 _)) _)).
    + vm_compute. reflexivity.
    + intros u Hin. vm_compute in Hin. destruct Hin as [<- | []].
      split; discriminate.
Defined.

(** ** C2: an unregistered provider falls back to the mock adapter *)

Lemma providers_mock env : map_get (providers env) "mock" = Some (MockProvider env).
Proof.
  unfold providers.
  destruct (truthy_opt_string (OPENAI_API_KEY env)),
           (truthy_opt_string (CLAUDE_API_KEY env)); reflexivity.
Qed.

Lemma mock_adapter_results env request now :
  exists r,
    (match String.eqb (type request) "image", generateImage (MockProvider env) with
     | true, Some generate_image => generate_image request now
     | _, _ => generateText (MockProvider env) request now
     end) = Return r
    /\ res_provider r = "mock" /\ isMock (metadata r) = Some true.
Proof.
  cbn. destruct (String.eqb (type request) "image"); eexists; split; try reflexivity;
    split; reflexivity.
Qed.

Lemma generateContent_selected_mock env request now :
  selected_provider env request = "mock" ->
  exists r, generateContent env request now = Return r
            /\ res_provider r = "mock" /\ isMock (metadata r) = Some true.
Proof.
  intros Hsel. unfold generateContent. rewrite Hsel, providers_mock.
  apply mock_adapter_results.
Qed.

(** C2.  When the request names a provider that has no registered adapter,
    [generateContent] throws nothing: it returns the result of the mock
    adapter, whose [provider] is [mock] and whose [metadata.isMock] is
    [true]. *)
Theorem generateContent_unregistered_provider env request now (name : string) :
  provider request = Some name ->
  name <> "" ->
  isProviderAvailable env name = false ->
  exists r, generateContent env request now = Return r
            /\ res_provider r = "mock" /\ isMock (metadata r) = Some true.
Proof.
  intros Hp Hne Hreg. apply generateContent_selected_mock.
  unfold selected_provider, or_string. rewrite Hp. cbn.
  unfold truthy_string. destruct (String.eqb name "") eqn:E.
  - apply String.eqb_eq in E. contradiction.
  - cbn. unfold isProviderAvailable in Hreg. rewrite Hreg. reflexivity.
Qed.

Lemma generateContent_unregistered_provider_witness :
  exists r, generateContent claude_env (plain_request "text" (Some "nonexistent")) 0
            = Return r
            /\ res_provider r = "mock" /\ isMock (metadata r) = Some true.
Proof.
  apply (generateContent_unregistered_provider claude_env _ 0 "nonexistent").
  - reflexivity.
  - discriminate.
  - vm_compute. reflexivity.
Defined.

(** ** C5: an image request to an adapter without [generateImage] *)

(** C5, as stated, fails: with the Claude adapter, which has no
    [generateImage], an image request is not refused. *)
Lemma generateContent_image_not_refused :
  type (plain_request "image" (Some "claude")) = "image"
  /\ (exists adapter,
        map_get (providers claude_env)
                (selected_provider claude_env (plain_request "image" (Some "claude")))
        = Some adapter
        /\ generateImage adapter = None)
  /\ ~ (exists msg,
          generateContent claude_env (plain_request "image" (Some "claude")) 0
          = Throw msg)
  /\ (exists r,
        generateContent claude_env (plain_request "image" (Some "claude")) 0
        = Return r
        /\ res_provider r = "claude"
        /\ AiService.content r = "A fraction is a part of a whole.").
Proof.
  split; [reflexivity |]. split; [| split].
  - eexists. split; [vm_compute; reflexivity | reflexivity].
  - intros [msg H]. vm_compute in H. discriminate.
  - eexists. split; [vm_compute; reflexivity |]. split; reflexivity.
Qed.

(** C5, amended.  For an image request whose selected adapter has no
    [generateImage], the dispatcher raises no error of its own: it calls the
    adapter's [generateText] on the same request and returns what that
    returns or throws. *)
Theorem generateContent_image_falls_back_to_text env request now adapter :
  type request = "image" ->
  map_get (providers env) (selected_provider env request) = Some adapter ->
  generateImage adapter = None ->
  generateContent env request now = generateText adapter request now.
Proof.
  intros Ht Hget Hcap. unfold generateContent. rewrite Hget, Hcap.
  destruct (String.eqb (type request) "image"); reflexivity.
Qed.

Lemma generateContent_image_falls_back_to_text_witness :
  generateContent claude_env (plain_request "image" (Some "claude")) 0
  = claude_generateText claude_env (plain_request "image" (Some "claude")) 0.
Proof.
  apply (generateContent_image_falls_back_to_text claude_env _ 0
           (ClaudeProvider claude_env)).
  - reflexivity.
  - vm_compute. reflexivity.
  - reflexivity.
Defined.

(** ** C9: the backend selector *)


(** ** Filtering in [findResources] *)

Lemma filter_filter {A} (f g : A -> bool) (l : list A) :
  List.filter g (List.filter f l) = List.filter (fun x => f x && g x) l.
Proof.
  induction l as [| a l IH]; [reflexivity |]. simpl.
  destruct (f a); simpl; [destruct (g a) |]; rewrite IH; reflexivity.
Qed.

Lemma filter_true {A} (l : list A) : List.filter (fun _ => true) l = l.
Proof. induction l as [| a l IH]; [reflexivity |]. simpl. now rewrite IH. Qed.

Lemma filter_if {A} (c : bool) (f : A -> bool) (l : list A) :
  (if c then List.filter f l else l) = List.filter (fun x => if c then f x else true) l.
Proof. destruct c; [reflexivity | now rewrite filter_true]. Qed.

Lemma apply_filters_filter toLowerCase (q : Query) (l : list MemoryResource) :
  apply_filters toLowerCase q l = List.filter (matches_query toLowerCase q) l.
Proof.
  unfold apply_filters, filter_search, filter_or, filter_isPublic,
    filter_contentType, filter_category, filter_creator, matches_query.
  rewrite !filter_if.
  assert (forall l0, match q_isPublic q with
                     | Some b => List.filter (fun r => Bool.eqb (isPublic r) b) l0
                     | None => l0
                     end
                     = List.filter (fun r => match q_isPublic q with
                                             | Some b => Bool.eqb (isPublic r) b
                                             | None => true
                                             end) l0) as Hp.
  { intros l0. destruct (q_isPublic q); [reflexivity | now rewrite filter_true]. }
  assert (forall l0, match q_or q with
                     | Some cs => List.filter (fun r => existsb (condition_holds r) cs) l0
                     | None => l0
                     end
                     = List.filter (fun r => match q_or q with
                                             | Some cs => existsb (condition_holds r) cs
                                             | None => true
                                             end) l0) as Ho.
  { intros l0. destruct (q_or q); [reflexivity | now rewrite filter_true]. }
  rewrite Hp, Ho, !filter_filter.
  apply List.filter_ext. intros r. rewrite !andb_assoc. reflexivity.
Qed.

Lemma findResources_no_options toLowerCase array_sort (s : Store) (q : Query) :
  findResources toLowerCase array_sort s q no_options
  = List.filter (matches_query toLowerCase q) (resources s).
Proof.
  unfold findResources, apply_page, apply_sort. cbn.
  apply apply_filters_filter.
Qed.

(** ** C10: the total reported with a listing *)

(** C10.  [countResources(query)] is the length of [findResources(query)]
    called without options, which is the number of stored records matching
    the query; it is the total the listing handler reports. *)
Theorem countResources_length toLowerCase array_sort (s : Store) (q : Query) :
  countResources toLowerCase array_sort s q
  = length (findResources toLowerCase array_sort s q no_options)
  /\ countResources toLowerCase array_sort s q
     = length (List.filter (matches_query toLowerCase q) (resources s))
  /\ (forall userId userRole req,
        q = Handlers.build_query userId userRole req ->
        exists l p,
          Handlers.data (Handlers.getResources_fallback toLowerCase array_sort s
                           userId userRole req) = Handlers.ListData l p
          /\ Handlers.total p
             = length (List.filter (matches_query toLowerCase q) (resources s))).
Proof.
  assert (countResources toLowerCase array_sort s q
          = length (List.filter (matches_query toLowerCase q) (resources s))) as Hc.
  { unfold countResources. now rewrite findResources_no_options. }
  split; [reflexivity |]. split; [exact Hc |].
  intros userId userRole req ->. unfold Handlers.getResources_fallback. cbn.
  eexists. eexists. split; [reflexivity |]. cbn. exact Hc.
Qed.

(** ** C3: the visibility rule of the listing *)

Lemma visible_in_listing toLowerCase array_sort (s : Store) (userId userRole : string)
  (R : MemoryResource) :
  userId <> "" ->
  In R (findResources toLowerCase array_sort s
          (Handlers.build_query userId userRole Handlers.plain_list) no_options)
  <->
  In R (resources s)
  /\ (creator R = userId \/ isPublic R = true \/ userRole = "admin").
Proof.
  intros Hid. rewrite findResources_no_options, filter_In.
  unfold matches_query, Handlers.build_query. cbn.
  assert (truthy_string userId = true) as Ht.
  { unfold truthy_string. destruct (String.eqb userId "") eqn:E; [| reflexivity].
    apply String.eqb_eq in E. contradiction. }
  destruct (String.eqb userRole "admin") eqn:Hrole; cbn.
  - apply String.eqb_eq in Hrole. intuition.
  - assert (userRole <> "admin") as Hna.
    { intros E. rewrite E in Hrole. discriminate. }
    unfold condition_holds. cbn. rewrite Ht. cbn.
    rewrite andb_true_r, orb_false_r.
    destruct (String.eqb (creator R) userId) eqn:Hc;
      [apply String.eqb_eq in Hc | apply String.eqb_neq in Hc];
      destruct (isPublic R); cbn; intuition congruence.
Qed.

(** C3.  For an account [A] with a non-empty identifier, a record is in the
    result of [findResources] on the query [getResources] builds for [A]
    exactly when it is stored and [A] created it, or it is public, or [A] is
    an administrator. *)
Theorem listing_visibility toLowerCase array_sort (s : Store) (A : MemoryUser)
  (R : MemoryResource) :
  user_id A <> "" ->
  In R (findResources toLowerCase array_sort s
          (Handlers.build_query (user_id A) (role A) Handlers.plain_list) no_options)
  <->
  In R (resources s)
  /\ (creator R = user_id A \/ isPublic R = true \/ role A = "admin").
Proof. apply visible_in_listing. Qed.

(** The rule is unchanged by a sort option, for any [sort] that rearranges
    its argument. *)
Lemma visible_in_sorted_listing toLowerCase array_sort (s : Store)
  (userId userRole : string) (R : MemoryResource) srt :
  (forall cmp l, Permutation (array_sort cmp l) l) ->
  userId <> "" ->
  In R (findResources toLowerCase array_sort s
          (Handlers.build_query userId userRole Handlers.plain_list) (sort_only srt))
  <->
  In R (resources s)
  /\ (creator R = userId \/ isPublic R = true \/ userRole = "admin").
Proof.
  intros Hperm Hid.
  rewrite <- (visible_in_listing toLowerCase array_sort s userId userRole R Hid).
  unfold findResources, apply_page, apply_sort, sort_only, no_options. cbn.
  destruct srt as [[sortKey sortOrder] |]; [| reflexivity].
  split; apply Permutation_in; [| symmetry]; apply Hperm.
Qed.

Lemma listing_visibility_witness :
  In (sample_resource 1 "Fractions" "user_1" true)
     (findResources identity_case Engine.sort (store_of three_resources)
        (Handlers.build_query (user_id student) (role student) Handlers.plain_list)
        no_options)
  /\ ~ In (sample_resource 3 "Geometry" "user_1" false)
          (findResources identity_case Engine.sort (store_of three_resources)
             (Handlers.build_query (user_id student) (role student) Handlers.plain_list)
             no_options).
Proof.
  split.
  - apply (listing_visibility identity_case Engine.sort (store_of three_resources)
             student (sample_resource 1 "Fractions" "user_1" true)).
    + discriminate.
    + split; [left; reflexivity | right; left; reflexivity].
  - intros Hin.
    apply (listing_visibility identity_case Engine.sort (store_of three_resources)
             student (sample_resource 3 "Geometry" "user_1" false)) in Hin.
    + destruct Hin as [_ [H | [H | H]]]; discriminate.
    + discriminate.
Defined.

(** ** The engine's sort rearranges its argument *)

Lemma insert_at_permutation {A} k (x : A) (l : list A) :
  Permutation (Engine.insert_at k x l) (x :: l).
Proof.
  unfold Engine.insert_at. symmetry.
  rewrite <- (take_drop k l) at 1. apply Permutation_middle.
Qed.

Lemma fold_binary_insert_permutation {A} (cmp : A -> A -> Z) (rest run : list A) :
  Permutation (fold_left (Engine.binary_insert cmp) rest run) (run ++ rest).
Proof.
  revert run. induction rest as [| x rest IH]; intros run; simpl.
  - now rewrite app_nil_r.
  - rewrite IH. unfold Engine.binary_insert.
    rewrite insert_at_permutation. simpl. apply Permutation_middle.
Qed.

Lemma count_and_make_run_permutation {A} (cmp : A -> A -> Z) (l : list A) :
  Permutation (fst (Engine.count_and_make_run cmp l)
               ++ snd (Engine.count_and_make_run cmp l)) l.
Proof.
  unfold Engine.count_and_make_run.
  destruct l as [| a [| b rest]]; [reflexivity | reflexivity |].
  cbv zeta. cbn [fst snd].
  set (n := 2 + _). set (l := a :: b :: rest).
  destruct (Z.ltb (cmp b a) 0).
  - rewrite <- Permutation_rev. now rewrite take_drop.
  - now rewrite take_drop.
Qed.

Lemma sort_permutation {A} (cmp : A -> A -> Z) (l : list A) :
  Permutation (Engine.sort cmp l) l.
Proof.
  unfold Engine.sort. destruct (Nat.ltb (length l) 2); [reflexivity |].
  pose proof (count_and_make_run_permutation cmp l) as H.
  destruct (Engine.count_and_make_run cmp l) as [run rest]. cbn [fst snd] in H.
  now rewrite fold_binary_insert_permutation.
Qed.

(** The fuel of the binary search is enough: any amount from
    [right - left] on gives the same position. *)
Lemma search_fuel {A} (cmp : A -> A -> Z) (pre : list A) (pivot : A) :
  forall f1 f2 left right,
    right - left <= f1 -> right - left <= f2 ->
    Engine.search cmp f1 pre pivot left right = Engine.search cmp f2 pre pivot left right.
Proof.
  induction f1 as [| f1 IH]; intros f2 left right H1 H2.
  - destruct f2 as [| f2]; [reflexivity |]. cbn [Engine.search].
    destruct (Nat.ltb_spec left right); [lia | reflexivity].
  - cbn [Engine.search]. destruct (Nat.ltb_spec left right) as [Hlt | Hge].
    + destruct f2 as [| f2]; [lia |]. cbn [Engine.search].
      destruct (Nat.ltb_spec left right); [| lia].
      pose proof (Nat.lt_div2 (right - left) ltac:(lia)) as Hd.
      set (half := Nat.div2 (right - left)) in *. clearbody half.
      destruct (pre !! (left + half)) as [y |]; [| reflexivity].
      destruct (Z.ltb (cmp pivot y) 0); apply IH; lia.
    + destruct f2 as [| f2]; [reflexivity |]. cbn [Engine.search].
      destruct (Nat.ltb_spec left right); [lia | reflexivity].
Qed.

(** ** C7: consecutive pages *)

Lemma apply_page_segment srt (k n : nat) (l : list MemoryResource) :
  1 <= n -> apply_page (page_options srt k n) l = take n (drop k l).
Proof.
  intros Hn. unfold apply_page, page_options, or_nat, truthy_opt_nat, slice. cbn.
  destruct n as [| n]; [lia |]. cbn [Nat.eqb negb]. rewrite orb_true_r.
  destruct k as [| k]; cbn [Nat.eqb negb].
  - cbn. reflexivity.
  - replace (S k + S n - S k) with (S n) by lia. reflexivity.
Qed.

Lemma findResources_page toLowerCase array_sort (s : Store) q srt k n :
  1 <= n ->
  findResources toLowerCase array_sort s q (page_options srt k n)
  = take n (drop k (findResources toLowerCase array_sort s q (sort_only srt))).
Proof.
  intros Hn. unfold findResources at 1.
  rewrite apply_page_segment by exact Hn. reflexivity.
Qed.

Lemma take_drop_disjoint {A} (l : list A) (k n m : nat) :
  List.NoDup l -> forall x, In x (take n (drop k l)) -> ~ In x (take m (drop (k + n) l)).
Proof.
  intros Hnd x H1 H2.
  rewrite <- (take_drop k l) in Hnd. apply List.NoDup_app_remove_l in Hnd.
  rewrite <- (take_drop n (drop k l)) in Hnd.
  rewrite drop_drop in Hnd.
  apply NoDup_ListNoDup in Hnd. apply NoDup_app in Hnd as (_ & Hdis & _).
  apply (Hdis x).
  - apply list_elem_of_In. exact H1.
  - apply (subseteq_take m). apply list_elem_of_In. exact H2.
Qed.

Lemma findResources_sorted_NoDup toLowerCase array_sort (s : Store) q srt :
  (forall cmp l, Permutation (array_sort cmp l) l) ->
  List.NoDup (resources s) ->
  List.NoDup (findResources toLowerCase array_sort s q (sort_only srt)).
Proof.
  intros Hperm Hnd. unfold findResources, apply_page, apply_sort, sort_only. cbn.
  rewrite apply_filters_filter.
  assert (List.NoDup (List.filter (matches_query toLowerCase q) (resources s))) as Hf
    by (apply List.NoDup_filter; exact Hnd).
  destruct srt as [[sortKey sortOrder] |]; [| exact Hf].
  eapply Permutation_NoDup; [symmetry; apply Hperm | exact Hf].
Qed.

(** C7, as stated, fails for [n = 0]: a limit of [0] is no limit, so both
    pages are the whole listing. *)
Lemma pagination_zero_limit :
  let s := store_of [sample_resource 1 "Fractions" "user_1" true] in
  let page skip limit :=
    findResources identity_case Engine.sort s empty_query
                  (page_options None skip limit) in
  page 0 0 ++ page (0 + 0) 0 <> page 0 (2 * 0)
  /\ (exists r, In r (page 0 0) /\ In r (page (0 + 0) 0)).
Proof.
  cbv zeta. split.
  - vm_compute. discriminate.
  - eexists. vm_compute. split; left; reflexivity.
Qed.

(** C7, amended.  For a fixed query, sort option and store whose records are
    pairwise distinct, and for every [k] and every [n] from [1] on, the pages
    [skip = k, limit = n] and [skip = k + n, limit = n] are the segments of
    length [n] at [k] and at [k + n] of the same sorted listing, share no
    record, and concatenate to the page [skip = k, limit = 2 n]. *)
Theorem pagination_consecutive_pages toLowerCase array_sort (s : Store) (q : Query)
  (srt : option (string * Z)) (k n : nat) :
  (forall cmp l, Permutation (array_sort cmp l) l) ->
  List.NoDup (resources s) ->
  1 <= n ->
  let page skip limit :=
    findResources toLowerCase array_sort s q (page_options srt skip limit) in
  let listing := findResources toLowerCase array_sort s q (sort_only srt) in
  page k n ++ page (k + n) n = page k (2 * n)
  /\ page k n = take n (drop k listing)
  /\ page (k + n) n = take n (drop (k + n) listing)
  /\ (forall r, In r (page k n) -> ~ In r (page (k + n) n)).
Proof.
  intros Hperm Hnd Hn. cbv beta zeta.
  rewrite !findResources_page by lia.
  repeat split.
  - rewrite <- drop_drop, take_take_drop. f_equal. lia.
  - apply take_drop_disjoint.
    apply findResources_sorted_NoDup; assumption.
Qed.

Lemma pagination_consecutive_pages_witness :
  let page skip limit :=
    findResources identity_case Engine.sort (store_of three_resources) empty_query
                  (page_options (Some ("title", 1%Z)) skip limit) in
  page 0 1 ++ page (0 + 1) 1 = page 0 (2 * 1).
Proof.
  refine (proj1 (pagination_consecutive_pages identity_case Engine.sort
                   (store_of three_resources) empty_query
                   (Some ("title", 1%Z)) 0 1 _ _ _)).
  - intros cmp l. apply sort_permutation.
  - repeat constructor; vm_compute; intuition discriminate.
  - lia.
Defined.

(** ** C6: ties under [sort] *)

Lemma sort_compare_tie sortKey sortOrder (a b : MemoryResource) :
  field_gt sortKey a b = false -> field_gt sortKey b a = false ->
  sort_compare sortKey sortOrder a b = (-1)%Z
  /\ sort_compare sortKey sortOrder b a = (-1)%Z.
Proof.
  intros Hab Hba. unfold sort_compare. rewrite Hab, Hba.
  destruct (Z.eqb sortOrder 1); split; reflexivity.
Qed.

(** C6 (the code departs from it).  When neither of two stored records has
    the greater sort-field value, the comparator [findResources] hands to
    [sort] answers [-1] whichever way the two are compared, and the listing
    sorted by the engine has them in the reverse of their insertion order. *)
Theorem findResources_ties_reversed toLowerCase sortKey sortOrder
  (a b : MemoryResource) :
  field_gt sortKey a b = false -> field_gt sortKey b a = false ->
  sort_compare sortKey sortOrder a b = (-1)%Z
  /\ sort_compare sortKey sortOrder b a = (-1)%Z
  /\ findResources toLowerCase Engine.sort (store_of [a; b]) empty_query
       (sort_only (Some (sortKey, sortOrder))) = [b; a].
Proof.
  intros Hab Hba.
  destruct (sort_compare_tie sortKey sortOrder a b Hab Hba) as [H1 H2].
  repeat split; try assumption.
  unfold findResources, apply_page, apply_sort, sort_only. cbn.
  unfold Engine.sort, Engine.count_and_make_run. cbn. rewrite H2. reflexivity.
Qed.

Lemma findResources_ties_reversed_witness :
  let a := sample_resource 1 "Fractions" "user_1" true in
  let b := sample_resource 2 "Fractions" "user_2" true in
  findResources identity_case Engine.sort (store_of [a; b]) empty_query
    (sort_only (Some ("title", 1%Z))) = [b; a].
Proof.
  cbv zeta.
  refine (proj2 (proj2 (findResources_ties_reversed identity_case "title" 1
                          (sample_resource 1 "Fractions" "user_1" true)
                          (sample_resource 2 "Fractions" "user_2" true) _ _)));
    vm_compute; reflexivity.
Defined.

Lemma sort_keeps_tie_reported {A} (cmp : A -> A -> Z) (a b : A) :
  (0 <= cmp b a)%Z -> Engine.sort cmp [a; b] = [a; b].
Proof.
  intros H. unfold Engine.sort, Engine.count_and_make_run. cbn.
  destruct (Z.ltb_spec (cmp b a) 0); [lia | reflexivity].
Qed.

(** The comparator of the history listing answers [0] on a tie, and the
    engine then keeps the insertion order. *)
Lemma history_ties_kept (a b : Handlers.MemoryGenerationResult) :
  Handlers.gen_createdAt a = Handlers.gen_createdAt b ->
  Handlers.history_compare a b = 0%Z
  /\ Engine.sort Handlers.history_compare [a; b] = [a; b].
Proof.
  intros H. unfold Handlers.history_compare. rewrite H. split; [lia |].
  apply sort_keeps_tie_reported. rewrite H. lia.
Qed.

(** ** The persistent backend: reading back a saved document *)

Lemma find_replaced (id : string) (d' : Mongoose.Resource) (l : list Mongoose.Resource) d :
  Mongoose._id d' = id ->
  List.find (fun r => String.eqb (Mongoose._id r) id) l = Some d ->
  List.find (fun r => String.eqb (Mongoose._id r) id)
    (List.map (fun r => if String.eqb (Mongoose._id r) id then d' else r) l)
  = Some d'.
Proof.
  intros Hid. induction l as [| r l IH]; [discriminate |]. simpl.
  destruct (String.eqb (Mongoose._id r) id) eqn:E.
  - intros _. rewrite Hid, String.eqb_refl. reflexivity.
  - intros H. rewrite E. apply IH. exact H.
Qed.

Lemma findById_found (db : Mongoose.Database) id d :
  Mongoose.findById db id = Return (Some d) ->
  Mongoose.isObjectId db id = true /\ Mongoose.is_connected db = true
  /\ List.find (fun r => String.eqb (Mongoose._id r) id) (Mongoose.collection db) = Some d
  /\ Mongoose._id d = id.
Proof.
  unfold Mongoose.findById.
  destruct (Mongoose.isObjectId db id); [| discriminate].
  destruct (Mongoose.is_connected db); [| discriminate]. cbn.
  intros H. injection H as H. repeat split; try exact H.
  apply find_some in H as [_ H]. now apply String.eqb_eq in H.
Qed.

(** Saving a changed copy [d'] of a document that [findById] returned: the
    call succeeds, and the next [findById] returns [d'] with its new
    [updatedAt]. *)
Lemma save_then_findById (db : Mongoose.Database) id d d' now :
  Mongoose.findById db id = Return (Some d) ->
  Mongoose._id d' = id ->
  exists db',
    Mongoose.save db d' now = Return db'
    /\ Mongoose.findById db' id = Return (Some (Mongoose.set_updatedAt d' now)).
Proof.
  intros Hf Hid. apply findById_found in Hf as (Hoid & Hconn & Hfind & _).
  unfold Mongoose.save. rewrite Hconn. cbn. eexists. split; [reflexivity |].
  unfold Mongoose.findById, Mongoose.is_connected in *. cbn. rewrite Hoid, Hconn. cbn.
  f_equal. rewrite Hid. eapply find_replaced; [exact Hid | exact Hfind].
Qed.

(** The stored object [findResourceById] returns sits at the index
    [findIndex] finds. *)
Lemma findResourceById_index (s : Store) (id : string) :
  findResourceById s id
  = match findIndex id (resources s) with
    | Some index => resources s !! index
    | None => None
    end.
Proof.
  unfold findResourceById. induction (resources s) as [| r l IH]; [reflexivity |].
  cbn. destruct (String.eqb (res_id r) id); [reflexivity |].
  rewrite IH. destruct (findIndex id l); reflexivity.
Qed.

(** ** C4: the view counter *)

(** On the persistent backend, a permitted reader who is not the creator
    raises [views] by one, and the creator leaves the backends as they were. *)
Lemma getResourceById_document_reader (w : Handlers.World) id userId userRole now doc :
  Handlers.lookup w id = Some (Handlers.Document doc) ->
  Mongoose.creator doc <> userId ->
  Mongoose.isPublic doc = true \/ userRole = "admin" ->
  exists db',
    fst (Handlers.getResourceById w id userId userRole now)
    = {| Handlers.database := db'; Handlers.memory := Handlers.memory w |}
    /\ Handlers.status (snd (Handlers.getResourceById w id userId userRole now)) = 200
    /\ exists doc', Mongoose.findById db' id = Return (Some doc')
                    /\ Mongoose.views doc' = (Mongoose.views doc + 1)%Z.
Proof.
  intros Hl Hown Hperm.
  assert (Mongoose.findById (Handlers.database w) id = Return (Some doc)) as Hf.
  { unfold Handlers.lookup in Hl.
    destruct (Mongoose.findById (Handlers.database w) id) as [[d |] | msg]; cbn in Hl.
    - congruence.
    - discriminate.
    - destruct (findIndex id _); [| discriminate].
      destruct (_ !! _); discriminate. }
  destruct (save_then_findById _ id doc
              (Mongoose.set_views doc (Mongoose.views doc + 1)) now Hf) as (db' & Hs & Hr).
  { apply findById_found in Hf. cbn. tauto. }
  unfold Handlers.getResourceById. rewrite Hl. cbn.
  apply String.eqb_neq in Hown. rewrite Hown. cbn.
  assert (negb (Mongoose.isPublic doc) && negb (String.eqb userRole "admin") = false) as Hp.
  { destruct Hperm as [-> | ->]; [reflexivity | cbn; apply andb_false_r]. }
  rewrite Hp, Hs. cbn. exists db'. repeat split.
  eexists. split; [exact Hr | reflexivity].
Qed.

Lemma getResourceById_owner (w : Handlers.World) id userId userRole now resource :
  Handlers.lookup w id = Some resource ->
  Handlers.found_creator resource = userId ->
  Handlers.getResourceById w id userId userRole now
  = (w, {| Handlers.status := 200; Handlers.success := true;
           Handlers.message := None;
           Handlers.data := Handlers.ResourceData resource |}).
Proof.
  intros Hl Hown. unfold Handlers.getResourceById. rewrite Hl, Hown.
  rewrite String.eqb_refl. reflexivity.
Qed.

(** C4 (the code departs from it on the volatile path).  When the lookup
    falls back to the volatile backend and the reader is permitted but is not
    the creator, the handler answers with status 500, and the stored record
    is left with [views] set to the old value plus one, which is [NaN] for a
    record without a [views] property. *)
Theorem getResourceById_volatile_reader (w : Handlers.World) id userId userRole now
  index (r : MemoryResource) :
  Handlers.lookup w id = Some (Handlers.Stored index r) ->
  creator r <> userId ->
  isPublic r = true \/ userRole = "admin" ->
  Handlers.status (snd (Handlers.getResourceById w id userId userRole now)) = 500
  /\ views <$> (resources (Handlers.memory
                             (fst (Handlers.getResourceById w id userId userRole now)))
                !! index)
     = Some (Some (add_one (views r)))
  /\ (views r = None -> add_one (views r) = NaN).
Proof.
  intros Hl Hown Hperm.
  assert (resources (Handlers.memory w) !! index = Some r) as Hi.
  { unfold Handlers.lookup in Hl.
    destruct (Mongoose.findById (Handlers.database w) id) as [[d |] | msg]; cbn in Hl;
      try discriminate.
    destruct (findIndex id _) as [i |]; [| discriminate].
    destruct (_ !! i) as [r0 |] eqn:E; [| discriminate]. cbn in Hl. congruence. }
  unfold Handlers.getResourceById. rewrite Hl. cbn.
  apply String.eqb_neq in Hown. rewrite Hown. cbn.
  assert (negb (isPublic r) && negb (String.eqb userRole "admin") = false) as Hp.
  { destruct Hperm as [-> | ->]; [reflexivity | cbn; apply andb_false_r]. }
  rewrite Hp. cbn. repeat split.
  - rewrite list_lookup_insert_eq by (eapply lookup_lt_Some; exact Hi). reflexivity.
  - intros ->. reflexivity.
Qed.

Lemma getResourceById_volatile_reader_witness :
  Handlers.status
    (snd (Handlers.getResourceById offline_world "resource_1" "user_2" "student" 2000))
  = 500
  /\ views <$> (resources (Handlers.memory
                  (fst (Handlers.getResourceById offline_world "resource_1" "user_2"
                          "student" 2000))) !! 0)
     = Some (Some NaN).
Proof.
  destruct (getResourceById_volatile_reader offline_world "resource_1" "user_2"
              "student" 2000 0 (sample_resource 1 "Fractions" "user_1" true))
    as (H1 & H2 & H3).
  - vm_compute. reflexivity.
  - discriminate.
  - left. reflexivity.
  - split; [exact H1 |]. rewrite H2, H3; reflexivity.
Defined.

(** ** C8: the like toggle *)

Lemma mod2_odd (n : nat) : n mod 2 = Nat.b2n (Nat.odd n).
Proof. now rewrite <- Nat.bit0_mod, Nat.bit0_odd. Qed.

Lemma existsb_eqb_filter_out (u : string) (l : list string) :
  existsb (String.eqb u) (List.filter (fun like => negb (String.eqb like u)) l) = false.
Proof.
  induction l as [| a l IH]; [reflexivity |]. simpl.
  destruct (String.eqb a u) eqn:E; simpl; [exact IH |].
  rewrite String.eqb_sym, E. exact IH.
Qed.

Lemma toggle_like_member (u : string) (l : list string) :
  existsb (String.eqb u) (Handlers.toggle_like u l) = negb (existsb (String.eqb u) l).
Proof.
  unfold Handlers.toggle_like. destruct (existsb (String.eqb u) l) eqn:E; cbn.
  - apply existsb_eqb_filter_out.
  - rewrite existsb_app, E. cbn. now rewrite String.eqb_refl.
Qed.

Lemma count_occ_absent (u : string) (l : list string) :
  existsb (String.eqb u) l = false -> count_occ String.string_dec l u = 0.
Proof.
  intros H. apply count_occ_not_In. intros Hin.
  assert (existsb (String.eqb u) l = true) as Ht; [| congruence].
  apply existsb_exists. exists u. split; [exact Hin | apply String.eqb_refl].
Qed.

Lemma toggle_like_count (u : string) (l : list string) :
  count_occ String.string_dec (Handlers.toggle_like u l) u
  = if existsb (String.eqb u) l then 0 else 1.
Proof.
  pose proof (toggle_like_member u l) as Hm.
  unfold Handlers.toggle_like in *. destruct (existsb (String.eqb u) l) eqn:E.
  - apply count_occ_absent. exact Hm.
  - rewrite count_occ_app, (count_occ_absent u l E). cbn.
    destruct (String.string_dec u u); [reflexivity | contradiction].
Qed.

(** The [likes] array after [n] toggles by [u]. *)
Lemma toggle_like_iter_member (n : nat) (u : string) (l : list string) :
  existsb (String.eqb u) (Nat.iter n (Handlers.toggle_like u) l)
  = xorb (existsb (String.eqb u) l) (Nat.odd n).
Proof.
  induction n as [| n IH].
  - cbn. now rewrite xorb_false_r.
  - rewrite Nat.iter_succ, toggle_like_member, IH, Nat.odd_succ, <- Nat.negb_odd.
    destruct (existsb (String.eqb u) l), (Nat.odd n); reflexivity.
Qed.

Lemma toggle_like_iter_count (n : nat) (u : string) (l : list string) :
  existsb (String.eqb u) l = false ->
  count_occ String.string_dec (Nat.iter n (Handlers.toggle_like u) l) u = n mod 2.
Proof.
  intros H. destruct n as [| n].
  - cbn. apply count_occ_absent. exact H.
  - rewrite Nat.iter_succ, toggle_like_count, toggle_like_iter_member, H, mod2_odd.
    rewrite Nat.odd_succ, <- Nat.negb_odd. cbn. destruct (Nat.odd n); reflexivity.
Qed.

Lemma toggle_like_iter_empty (n : nat) (u : string) :
  Nat.iter n (Handlers.toggle_like u) [] = if Nat.odd n then [u] else [].
Proof.
  induction n as [| n IH]; [reflexivity |].
  rewrite Nat.iter_succ, IH, Nat.odd_succ, <- Nat.negb_odd.
  destruct (Nat.odd n); cbn.
  - unfold Handlers.toggle_like. cbn [existsb List.filter].
    rewrite String.eqb_refl. reflexivity.
  - reflexivity.
Qed.

(** One served call of [likeResource] replaces the stored [likes] by its
    toggle. *)
Lemma likeResource_served (db : Mongoose.Database) id u now r :
  Mongoose.findById db id = Return (Some r) ->
  Handlers.status (snd (Handlers.likeResource db id u now)) = 200
  /\ exists r', Mongoose.findById (fst (Handlers.likeResource db id u now)) id
                = Return (Some r')
                /\ Mongoose.likes r' = Handlers.toggle_like u (Mongoose.likes r).
Proof.
  intros Hf.
  destruct (save_then_findById db id r
              (Mongoose.set_likes r (Handlers.toggle_like u (Mongoose.likes r))) now Hf)
    as (db' & Hs & Hr).
  { apply findById_found in Hf. cbn. tauto. }
  unfold Handlers.likeResource. rewrite Hf, Hs. cbn. split; [reflexivity |].
  eexists. split; [exact Hr | reflexivity].
Qed.

Lemma likeResource_times_likes (n : nat) (db : Mongoose.Database) id u now r :
  Mongoose.findById db id = Return (Some r) ->
  exists r', Mongoose.findById (Handlers.likeResource_times n db id u now) id
             = Return (Some r')
             /\ Mongoose.likes r' = Nat.iter n (Handlers.toggle_like u) (Mongoose.likes r).
Proof.
  revert db r. induction n as [| n IH]; intros db r Hf.
  - exists r. split; [exact Hf | reflexivity].
  - destruct (likeResource_served db id u now r Hf) as (_ & r1 & Hf1 & Hl1).
    destruct (IH _ r1 Hf1) as (r' & Hf' & Hl').
    exists r'. split; [exact Hf' |].
    rewrite Hl', Hl1, Nat.iter_succ_r. reflexivity.
Qed.

(** C8.  For a resource the persistent backend returns, after [n] successive
    calls of [likeResource] by the same account the account is among the
    stored [likes] exactly when its initial membership differs from the
    parity of [n]; starting from a list without the account, the account
    occurs [n mod 2] times, and starting from the empty list the list has
    [n mod 2] entries. *)
Theorem likeResource_toggle (n : nat) (db : Mongoose.Database) id u now r :
  Mongoose.findById db id = Return (Some r) ->
  exists r',
    Mongoose.findById (Handlers.likeResource_times n db id u now) id = Return (Some r')
    /\ existsb (String.eqb u) (Mongoose.likes r')
       = xorb (existsb (String.eqb u) (Mongoose.likes r)) (Nat.odd n)
    /\ (existsb (String.eqb u) (Mongoose.likes r) = false ->
        count_occ String.string_dec (Mongoose.likes r') u = n mod 2)
    /\ (Mongoose.likes r = [] -> length (Mongoose.likes r') = n mod 2).
Proof.
  intros Hf. destruct (likeResource_times_likes n db id u now r Hf) as (r' & Hf' & Hl).
  exists r'. split; [exact Hf' |]. rewrite Hl. repeat split.
  - apply toggle_like_iter_member.
  - apply toggle_like_iter_count.
  - intros ->. rewrite toggle_like_iter_empty, mod2_odd.
    destruct (Nat.odd n); reflexivity.
Qed.

Lemma likeResource_toggle_witness :
  exists r',
    Mongoose.findById
      (Handlers.likeResource_times 3 online_db "64b7f0c2a1d3e4f5a6b7c8d9" "u2" 2000)
      "64b7f0c2a1d3e4f5a6b7c8d9" = Return (Some r')
    /\ existsb (String.eqb "u2") (Mongoose.likes r') = true.
Proof.
  destruct (likeResource_toggle 3 online_db "64b7f0c2a1d3e4f5a6b7c8d9" "u2" 2000 lesson)
    as (r' & Hf & Hm & _).
  - vm_compute. reflexivity.
  - exists r'. split; [exact Hf | exact Hm].
Defined.

(** * Further properties *)

(** ** The engine's sort orders its argument *)

Section SortOrders.
Context {A : Type}.
Variable cmp : A -> A -> Z.
Variable le : A -> A -> Prop.
Hypothesis cmp_neg : forall x y, (cmp x y < 0)%Z -> le x y.
Hypothesis cmp_nonneg : forall x y, (0 <= cmp x y)%Z -> le y x.
Hypothesis le_trans : forall x y z, le x y -> le y z -> le x z.

Lemma StronglySorted_lookup_le (l : list A) i j x y :
  StronglySorted le l -> i < j -> l !! i = Some x -> l !! j = Some y -> le x y.
Proof.
  intros Hs. revert i j. induction Hs as [| a l Hs IH Hall]; intros i j Hij Hi Hj.
  - discriminate.
  - destruct j as [| j]; [lia |]. destruct i as [| i]; cbn in Hi, Hj.
    + injection Hi as <-. rewrite Forall_forall in Hall. apply Hall.
      apply list_elem_of_lookup. eauto.
    + apply (IH i j); [lia | assumption | assumption].
Qed.

(** The run [CountAndMakeRun] measures is a chain. *)
Lemma run_tail_chain (descending : bool) (rest : list A) (prev : A) :
  Sorted (fun p x => if descending then le x p else le p x)
         (prev :: take (Engine.run_tail cmp descending prev rest) rest).
Proof.
  revert prev. induction rest as [| x rest IH]; intros prev; cbn.
  - repeat constructor.
  - destruct descending; destruct (Z.ltb_spec (cmp x prev) 0); cbn;
      try (repeat constructor; fail).
    + constructor; [apply IH | constructor; apply cmp_neg; assumption].
    + constructor; [apply IH | constructor; apply cmp_nonneg; assumption].
Qed.

Lemma StronglySorted_rev_flip (l : list A) :
  StronglySorted (fun p x => le x p) l -> StronglySorted le (rev l).
Proof.
  induction 1 as [| a l Hs IH Hall]; cbn; [constructor |].
  apply StronglySorted_app_2; [| exact IH | repeat constructor].
  intros x y Hx Hy. apply list_elem_of_In in Hx. apply in_rev in Hx.
  apply list_elem_of_In in Hy. destruct Hy as [<- | []].
  rewrite Forall_forall in Hall. apply Hall. apply list_elem_of_In. exact Hx.
Qed.

Lemma count_and_make_run_sorted (l : list A) :
  StronglySorted le (fst (Engine.count_and_make_run cmp l)).
Proof.
  unfold Engine.count_and_make_run.
  destruct l as [| a [| b rest]]; cbn [fst]; [constructor | repeat constructor |].
  cbv zeta. cbn [Nat.add take].
  pose proof (run_tail_chain (Z.ltb (cmp b a) 0) rest b) as Hchain.
  destruct (Z.ltb_spec (cmp b a) 0) as [Hlt | Hge].
  - apply StronglySorted_rev_flip. apply Sorted_StronglySorted.
    + intros x y z Hxy Hyz. eapply le_trans; eassumption.
    + constructor; [exact Hchain | constructor; apply cmp_neg; exact Hlt].
  - apply Sorted_StronglySorted.
    + intros x y z Hxy Hyz. eapply le_trans; eassumption.
    + constructor; [exact Hchain | constructor; apply cmp_nonneg; exact Hge].
Qed.

(** The position the binary search returns splits the sorted prefix around
    the pivot. *)
Lemma search_splits (pre : list A) (pivot : A) :
  StronglySorted le pre ->
  forall fuel left right,
    right - left <= fuel -> left <= right -> right <= length pre ->
    (forall i y, i < left -> pre !! i = Some y -> le y pivot) ->
    (forall i y, right <= i -> pre !! i = Some y -> le pivot y) ->
    let k := Engine.search cmp fuel pre pivot left right in
    k <= length pre
    /\ (forall i y, i < k -> pre !! i = Some y -> le y pivot)
    /\ (forall i y, k <= i -> pre !! i = Some y -> le pivot y).
Proof.
  intros Hs. induction fuel as [| fuel IH]; intros left right Hf Hlr Hr Hlo Hhi.
  - cbn. assert (left = right) as -> by lia. auto.
  - cbn [Engine.search]. destruct (Nat.ltb_spec left right) as [Hlt | Hge].
    + pose proof (Nat.lt_div2 (right - left) ltac:(lia)) as Hd.
      set (half := Nat.div2 (right - left)) in *. clearbody half.
      destruct (pre !! (left + half)) as [y |] eqn:Hy.
      * destruct (Z.ltb_spec (cmp pivot y) 0) as [Hneg | Hpos].
        -- apply IH; try lia; [exact Hlo |].
           intros i z Hi Hz. destruct (Nat.eq_dec i (left + half)) as [-> | Hne].
           ++ assert (z = y) as -> by congruence. apply cmp_neg. exact Hneg.
           ++ eapply le_trans; [apply cmp_neg; exact Hneg |].
              eapply (StronglySorted_lookup_le pre (left + half) i); eauto. lia.
        -- apply IH; try lia; [| exact Hhi].
           intros i z Hi Hz. destruct (Nat.eq_dec i (left + half)) as [-> | Hne].
           ++ assert (z = y) as -> by congruence. apply cmp_nonneg. exact Hpos.
           ++ eapply le_trans; [| apply cmp_nonneg; exact Hpos].
              eapply (StronglySorted_lookup_le pre i (left + half)); eauto. lia.
      * apply lookup_ge_None in Hy. lia.
    + assert (left = right) as -> by lia. auto.
Qed.

Lemma binary_insert_sorted (pre : list A) (pivot : A) :
  StronglySorted le pre -> StronglySorted le (Engine.binary_insert cmp pre pivot).
Proof.
  intros Hs. unfold Engine.binary_insert, Engine.insert_at.
  destruct (search_splits pre pivot Hs (length pre) 0 (length pre))
    as (Hk & Hlo & Hhi); try lia.
  { intros i y Hi Hy. apply lookup_lt_Some in Hy. exfalso. lia. }
  set (k := Engine.search cmp (length pre) pre pivot 0 (length pre)) in *.
  rewrite <- (take_drop k pre) in Hs. apply StronglySorted_app in Hs as (Hcross & H1 & H2).
  apply StronglySorted_app. repeat split.
  - intros x y Hx Hy. apply elem_of_cons in Hy as [-> | Hy].
    + apply elem_of_take in Hx as (i & Hi & Hik). eapply Hlo; eassumption.
    + apply Hcross; assumption.
  - exact H1.
  - constructor; [exact H2 |]. apply Forall_forall. intros y Hy.
    apply list_elem_of_lookup in Hy as [i Hi].
    rewrite lookup_drop in Hi. apply (Hhi (k + i) y); [lia | exact Hi].
Qed.

Lemma fold_binary_insert_sorted (rest run : list A) :
  StronglySorted le run ->
  StronglySorted le (fold_left (Engine.binary_insert cmp) rest run).
Proof.
  revert run. induction rest as [| x rest IH]; intros run Hs; cbn; [exact Hs |].
  apply IH. apply binary_insert_sorted. exact Hs.
Qed.

Lemma engine_sort_sorted (l : list A) : StronglySorted le (Engine.sort cmp l).
Proof.
  unfold Engine.sort. destruct (Nat.ltb_spec (length l) 2) as [Hlt | Hge].
  - destruct l as [| a [| b l]]; cbn in Hlt; try lia; repeat constructor.
  - pose proof (count_and_make_run_sorted l) as Hrun.
    destruct (Engine.count_and_make_run cmp l) as [run rest]. cbn [fst] in Hrun.
    apply fold_binary_insert_sorted. exact Hrun.
Qed.

End SortOrders.

(** ** The order of strings *)





(** ** The comparison of sort-field values *)




Lemma StronglySorted_take_drop {A} (R : A -> A -> Prop) (l : list A) n k :
  StronglySorted R l -> StronglySorted R (take n (drop k l)).
Proof.
  intros Hs. rewrite <- (take_drop k l) in Hs.
  apply StronglySorted_app in Hs as (_ & _ & Hs).
  rewrite <- (take_drop n (drop k l)) in Hs.
  apply StronglySorted_app in Hs as (_ & Hs & _). exact Hs.
Qed.




(** ** What a listing contains *)

Lemma apply_page_limited (o : Options) (l : list MemoryResource) n :
  o_limit o = Some n -> 1 <= n ->
  apply_page o l = take n (drop (or_nat (o_skip o) 0) l).
Proof.
  intros Hl Hn. unfold apply_page, slice. rewrite Hl.
  assert (truthy_opt_nat (Some n) = true) as Ht.
  { cbn. destruct n; [lia | reflexivity]. }
  rewrite Ht, orb_true_r. unfold or_nat at 2. rewrite Ht. cbn.
  f_equal. lia.
Qed.

Lemma in_apply_page (o : Options) (l : list MemoryResource) r :
  In r (apply_page o l) -> In r l.
Proof.
  unfold apply_page, slice.
  destruct (truthy_opt_nat (o_skip o) || truthy_opt_nat (o_limit o)); [| trivial].
  intros H. apply list_elem_of_In in H. apply list_elem_of_In.
  apply (subseteq_drop (or_nat (o_skip o) 0)). eapply subseteq_take. exact H.
Qed.

(** X2.  A listing never shows a record that is not stored or does not match
    the query, whatever the options. *)
Theorem findResources_sound toLowerCase array_sort (s : Store) (q : Query) (o : Options)
  (r : MemoryResource) :
  (forall cmp l x, In x (array_sort cmp l) -> In x l) ->
  In r (findResources toLowerCase array_sort s q o) ->
  In r (resources s) /\ matches_query toLowerCase q r = true.
Proof.
  intros Hsort Hin. unfold findResources in Hin. apply in_apply_page in Hin.
  unfold apply_sort in Hin.
  assert (In r (apply_filters toLowerCase q (resources s))) as Hf.
  { destruct (o_sort o) as [[sortKey sortOrder] |]; [apply Hsort in Hin |]; exact Hin. }
  rewrite apply_filters_filter in Hf. apply filter_In in Hf. exact Hf.
Qed.

Lemma findResources_sound_witness :
  In (sample_resource 1 "Fractions" "user_1" true) three_resources
  /\ matches_query identity_case
       (Handlers.build_query "user_2" "student" Handlers.plain_list)
       (sample_resource 1 "Fractions" "user_1" true) = true.
Proof.
  apply (findResources_sound identity_case Engine.sort (store_of three_resources)
           (Handlers.build_query "user_2" "student" Handlers.plain_list)
           (Handlers.build_options Handlers.plain_list)).
  - intros cmp l x Hx. eapply Permutation_in; [apply sort_permutation | exact Hx].
  - vm_compute. auto.
Defined.

(** X3.  A page holds at most [limit] records, and a page that starts at or
    beyond the number of matching records is empty. *)
Theorem findResources_page_size toLowerCase array_sort (s : Store) (q : Query)
  (o : Options) (n : nat) :
  (forall cmp l, Permutation (array_sort cmp l) l) ->
  o_limit o = Some n -> 1 <= n ->
  length (findResources toLowerCase array_sort s q o) <= n
  /\ (forall k, o_skip o = Some k ->
                countResources toLowerCase array_sort s q <= k ->
                findResources toLowerCase array_sort s q o = []).
Proof.
  intros Hperm Hl Hn. unfold findResources.
  rewrite (apply_page_limited o _ n Hl Hn). split.
  - rewrite length_take. lia.
  - intros k Hk Hc. rewrite Hk.
    assert (length (apply_sort array_sort o (apply_filters toLowerCase q (resources s)))
            = countResources toLowerCase array_sort s q) as Hlen.
    { unfold countResources, findResources, apply_page, apply_sort. cbn.
      destruct (o_sort o) as [[sortKey sortOrder] |]; [| reflexivity].
      apply Permutation_length. apply Hperm. }
    rewrite drop_ge; [apply take_nil |].
    rewrite Hlen.
    assert (or_nat (Some k) 0 = k) as -> by (destruct k; reflexivity). exact Hc.
Qed.

Lemma findResources_page_size_witness :
  length (findResources identity_case Engine.sort (store_of three_resources)
            empty_query (page_options (Some ("title", 1%Z)) 0 2)) <= 2
  /\ findResources identity_case Engine.sort (store_of three_resources)
       empty_query (page_options (Some ("title", 1%Z)) 4 2) = [].
Proof.
  split.
  - apply (proj1 (findResources_page_size identity_case Engine.sort
                    (store_of three_resources) empty_query
                    (page_options (Some ("title", 1%Z)) 0 2) 2
                    (fun cmp l => sort_permutation cmp l) eq_refl ltac:(lia))).
  - apply (proj2 (findResources_page_size identity_case Engine.sort
                    (store_of three_resources) empty_query
                    (page_options (Some ("title", 1%Z)) 4 2) 2
                    (fun cmp l => sort_permutation cmp l) eq_refl ltac:(lia)) 4).
    + reflexivity.
    + vm_compute. lia.
Defined.

(** ** The pages of a listing, taken together *)

Lemma pages_concat {A} (n : nat) (l : list A) :
  1 <= n -> forall k, length l <= k * n ->
  concat (List.map (fun i => take n (drop (i * n) l)) (seq 0 k)) = l.
Proof.
  intros Hn k. revert l. induction k as [| k IH]; intros l Hlen.
  - cbn in *. destruct l; [reflexivity | cbn in Hlen; lia].
  - cbn [seq List.map concat]. rewrite <- seq_shift, List.map_map.
    transitivity (take n l ++ drop n l); [| apply take_drop]. f_equal.
    etransitivity; [| apply (IH (drop n l)); rewrite length_drop; lia].
    f_equal. apply List.map_ext. intros i. rewrite drop_drop. reflexivity.
Qed.

Lemma ceil_div_covers (total n : nat) :
  1 <= n -> total <= Nat.div (total + n - 1) n * n.
Proof.
  intros Hn.
  pose proof (Nat.div_mod (total + n - 1) n ltac:(lia)) as Hdm.
  pose proof (Nat.mod_upper_bound (total + n - 1) n ltac:(lia)) as Hm.
  nia.
Qed.


Lemma build_options_page (req : Handlers.ListRequest) (p : nat) :
  Handlers.build_options (with_page req p)
  = page_options (o_sort (Handlers.build_options req))
                 ((p - 1) * default 20 (Handlers.limit req))
                 (default 20 (Handlers.limit req)).
Proof. reflexivity. Qed.

Lemma sorted_listing_length toLowerCase array_sort (s : Store) (q : Query) srt :
  (forall cmp l, Permutation (array_sort cmp l) l) ->
  length (findResources toLowerCase array_sort s q (sort_only srt))
  = countResources toLowerCase array_sort s q.
Proof.
  intros Hperm. unfold countResources, findResources, apply_page, apply_sort. cbn.
  destruct srt as [[sortKey sortOrder] |]; [| reflexivity].
  apply Permutation_length. apply Hperm.
Qed.

(** X4.  The pages [1] to [totalPages] of the fallback listing, one after the
    other, are the whole sorted listing: no matching record is skipped or
    shown twice. *)
Theorem getResources_pages_cover toLowerCase array_sort (s : Store)
  (userId userRole : string) (req : Handlers.ListRequest) :
  (forall cmp l, Permutation (array_sort cmp l) l) ->
  1 <= default 20 (Handlers.limit req) ->
  concat
    (List.map
       (fun p => listed (Handlers.getResources_fallback toLowerCase array_sort s
                           userId userRole (with_page req p)))
       (seq 1 (reported_pages
                 (Handlers.getResources_fallback toLowerCase array_sort s
                    userId userRole req))))
  = findResources toLowerCase array_sort s
      (Handlers.build_query userId userRole req)
      (sort_only (o_sort (Handlers.build_options req))).
Proof.
  intros Hperm Hn.
  set (n := default 20 (Handlers.limit req)) in *.
  set (q := Handlers.build_query userId userRole req).
  set (srt := o_sort (Handlers.build_options req)).
  set (full := findResources toLowerCase array_sort s q (sort_only srt)).
  assert (reported_pages (Handlers.getResources_fallback toLowerCase array_sort s
                            userId userRole req)
          = Nat.div (length full + n - 1) n) as ->.
  { unfold full. rewrite sorted_listing_length by exact Hperm. reflexivity. }
  rewrite <- seq_shift, List.map_map.
  transitivity
    (concat (List.map (fun i => take n (drop (i * n) full))
                      (seq 0 (Nat.div (length full + n - 1) n))));
    [| apply pages_concat; [exact Hn | apply ceil_div_covers; exact Hn]].
  f_equal. apply List.map_ext. intros i.
  unfold listed, Handlers.getResources_fallback. cbn [Handlers.data].
  rewrite build_options_page.
  change (Handlers.build_query userId userRole (with_page req (S i))) with q.
  fold n. fold srt.
  rewrite findResources_page by exact Hn.
  replace (S i - 1) with i by lia. reflexivity.
Qed.

Lemma getResources_pages_cover_witness :
  let req := {| Handlers.page := None; Handlers.limit := Some 2;
                Handlers.req_category := None; Handlers.req_contentType := None;
                Handlers.search := None; Handlers.sortBy := Some "title";
                Handlers.sortOrder := Some "asc" |} in
  concat
    (List.map
       (fun p => listed (Handlers.getResources_fallback identity_case Engine.sort
                           (store_of three_resources) "user_1" "admin" (with_page req p)))
       (seq 1 (reported_pages
                 (Handlers.getResources_fallback identity_case Engine.sort
                    (store_of three_resources) "user_1" "admin" req))))
  = findResources identity_case Engine.sort (store_of three_resources)
      (Handlers.build_query "user_1" "admin" req)
      (sort_only (o_sort (Handlers.build_options req))).
Proof.
  cbv zeta.
  apply (getResources_pages_cover identity_case Engine.sort (store_of three_resources)
           "user_1" "admin").
  - intros cmp l. apply sort_permutation.
  - cbn. lia.
Defined.

(** ** Accounts: lookups after the operations *)

Lemma find_app_first {A} (f : A -> bool) (l l' : list A) :
  List.find f (l ++ l')
  = match List.find f l with
    | Some x => Some x
    | None => List.find f l'
    end.
Proof.
  induction l as [| a l IH]; [reflexivity |]. cbn.
  destruct (f a); [reflexivity | exact IH].
Qed.

Lemma map_has_find {V} (m : Map V) k :
  map_has m k = false -> List.find (fun e => String.eqb (fst e) k) m = None.
Proof.
  unfold map_has. intros H. apply find_none_iff. intros e He.
  destruct (String.eqb (fst e) k) eqn:E; [| reflexivity].
  assert (existsb (fun e0 => String.eqb (fst e0) k) m = true) as Ht; [| congruence].
  apply existsb_exists. exists e. auto.
Qed.






(** ** Accounts: what an update replaces *)

Lemma replace_untouched {V} (m : Map V) k v' :
  ~ In k (map_keys m) ->
  List.map (fun e => if String.eqb (fst e) k then (k, v') else e) m = m.
Proof.
  induction m as [| e m IH]; intros Hk; [reflexivity |]. cbn.
  destruct (String.eqb (fst e) k) eqn:E.
  - apply String.eqb_eq in E. exfalso. apply Hk. left. exact E.
  - f_equal. apply IH. intros Hin. apply Hk. right. exact Hin.
Qed.

Lemma map_set_present {V} (m : Map V) k v v' :
  List.NoDup (map_keys m) -> map_get m k = Some v ->
  exists m1 m2,
    m = m1 ++ (k, v) :: m2 /\ map_set m k v' = m1 ++ (k, v') :: m2
    /\ ~ In k (map_keys m1) /\ ~ In k (map_keys m2).
Proof.
  intros Hnd Hget. unfold map_set. rewrite (map_get_has m k v Hget).
  unfold map_get in Hget. induction m as [| e m IH]; [discriminate |].
  cbn in Hget, Hnd |- *. apply List.NoDup_cons_iff in Hnd as [Hnotin Hnd].
  destruct (String.eqb (fst e) k) eqn:E.
  - apply String.eqb_eq in E. cbn in Hget. injection Hget as <-.
    exists [], m. destruct e as [k0 v0]. cbn in *. subst k0.
    rewrite replace_untouched by exact Hnotin. auto.
  - destruct (IH Hnd Hget) as (m1 & m2 & -> & Hset & H1 & H2).
    exists (e :: m1), m2. cbn. rewrite Hset. repeat split; try assumption.
    intros [Hk | Hk]; [| contradiction].
    apply String.eqb_neq in E. contradiction.
Qed.

Lemma map_get_middle {V} (m1 m2 : Map V) k v k' :
  ~ In k (map_keys m1) ->
  map_get (m1 ++ (k, v) :: m2) k'
  = if String.eqb k k' then Some v
    else match map_get m1 k' with
         | Some x => Some x
         | None => map_get m2 k'
         end.
Proof.
  intros Hk. unfold map_get. rewrite find_app_first. cbn.
  destruct (String.eqb k k') eqn:E.
  - apply String.eqb_eq in E. subst k'.
    rewrite map_has_find; [reflexivity |]. apply map_has_false_iff. exact Hk.
  - destruct (List.find _ m1); reflexivity.
Qed.

Lemma updateUser_lookup (s : Store) (id : string) (d : UserUpdate) (now : Z) :
  List.NoDup (map_keys (users s)) ->
  (findUserById s id = None -> updateUser s id d now = (s, None))
  /\ (forall u, findUserById s id = Some u ->
        snd (updateUser s id d now) = Some (merge_user u d now)
        /\ findUserById (fst (updateUser s id d now)) id = Some (merge_user u d now)
        /\ map_keys (users (fst (updateUser s id d now))) = map_keys (users s)
        /\ userIdCounter (fst (updateUser s id d now)) = userIdCounter s
        /\ (forall id', id' <> id ->
              findUserById (fst (updateUser s id d now)) id' = findUserById s id')).
Proof.
  intros Hnd. unfold findUserById, updateUser. split.
  - intros ->. reflexivity.
  - intros u Hu. rewrite Hu. cbn [fst snd set_users users userIdCounter].
    destruct (map_set_present (users s) id u (merge_user u d now) Hnd Hu)
      as (m1 & m2 & Hm & Hset & H1 & H2).
    repeat split.
    + rewrite Hset, map_get_middle by exact H1. now rewrite String.eqb_refl.
    + apply map_keys_set. eapply map_get_has. exact Hu.
    + intros id' Hne. rewrite Hset, Hm, !map_get_middle by exact H1.
      destruct (String.eqb id id') eqn:E; [| reflexivity].
      apply String.eqb_eq in E. congruence.
Qed.

(** X6.  [updateUser] on an unknown identifier changes nothing; on a known one
    it stores the merged account at the same place, which is then found
    under that identifier, while every other identifier finds what it found
    before. *)
Theorem updateUser_then_find (s : Store) (id : string) (d : UserUpdate) (now : Z) :
  List.NoDup (map_keys (users s)) ->
  (findUserById s id = None -> updateUser s id d now = (s, None))
  /\ (forall u, findUserById s id = Some u ->
        snd (updateUser s id d now) = Some (merge_user u d now)
        /\ findUserById (fst (updateUser s id d now)) id = Some (merge_user u d now)
        /\ map_keys (users (fst (updateUser s id d now))) = map_keys (users s)
        /\ userIdCounter (fst (updateUser s id d now)) = userIdCounter s
        /\ (forall id', id' <> id ->
              findUserById (fst (updateUser s id d now)) id' = findUserById s id')).
Proof. apply updateUser_lookup. Qed.

Lemma updateUser_then_find_witness :
  findUserById
    (fst (updateUser teacher_store "user_1" (AuthController.login_update 5) 5)) "user_1"
  = Some (merge_user (new_user "user_1" teacher_data
                        (demo_hash "Teacher123" saltRounds) 0)
                     (AuthController.login_update 5) 5).
Proof.
  refine (proj1 (proj2 (proj2 (updateUser_then_find teacher_store "user_1"
                                 (AuthController.login_update 5) 5 _) _ _))).
  - repeat constructor. vm_compute. tauto.
  - vm_compute. reflexivity.
Defined.

(** ** Accounts: the invariant the handlers keep *)

Lemma NoDup_snoc {A} (l : list A) (x : A) :
  List.NoDup l -> ~ In x l -> List.NoDup (l ++ [x]).
Proof.
  intros Hnd Hx. apply NoDup_ListNoDup. apply NoDup_app. repeat split.
  - apply NoDup_ListNoDup. exact Hnd.
  - intros y Hy Hy'. apply list_elem_of_In in Hy, Hy'. destruct Hy' as [<- | []].
    contradiction.
  - apply NoDup_ListNoDup. repeat constructor. intros [].
Qed.

Lemma createUser_accounts_ok bcrypt_hash (s : Store) d now :
  accounts_ok s -> accounts_ok (fst (createUser bcrypt_hash s d now)).
Proof.
  intros (Hk & Hids & Hkeys & Hnames & Hmails).
  destruct (existingUser s d) as [u0 |] eqn:Hex.
  { unfold createUser. rewrite Hex. repeat split; assumption. }
  pose proof (createUser_keys_issued bcrypt_hash s d now Hk) as Hk'.
  rewrite createUser_fresh in * by assumption. cbn [fst] in *.
  unfold existingUser in Hex. rewrite find_none_iff in Hex.
  split; [exact Hk' |]. unfold ids_are_keys, MemoryStoreOps.distinct_accounts,
    map_values, map_keys in *. cbn [users].
  rewrite !List.map_app, !List.map_map in *. cbn. repeat split.
  - rewrite Hids. reflexivity.
  - apply NoDup_snoc; [exact Hkeys |].
    apply map_has_false_iff. apply user_key_fresh. exact Hk.
  - apply NoDup_snoc; [exact Hnames |]. intros Hin.
    apply in_map_iff in Hin as [e [He Hin]].
    specialize (Hex (snd e) (in_map snd _ _ Hin)).
    unfold same_email_or_username in Hex. apply orb_false_iff in Hex as [_ Hex].
    rewrite He, String.eqb_refl in Hex. discriminate.
  - apply NoDup_snoc; [exact Hmails |]. intros Hin.
    apply in_map_iff in Hin as [e [He Hin]].
    specialize (Hex (snd e) (in_map snd _ _ Hin)).
    unfold same_email_or_username in Hex. apply orb_false_iff in Hex as [Hex _].
    rewrite He, String.eqb_refl in Hex. discriminate.
Qed.

Lemma updateUser_projection {B} (g : MemoryUser -> B) (s : Store) id d now :
  List.NoDup (map_keys (users s)) ->
  (forall u, g (merge_user u d now) = g u) ->
  List.map g (map_values (users (fst (updateUser s id d now))))
  = List.map g (map_values (users s)).
Proof.
  intros Hnd Hg. unfold updateUser.
  destruct (map_get (users s) id) as [u |] eqn:E; [| reflexivity].
  cbn [fst set_users users].
  destruct (map_set_present (users s) id u (merge_user u d now) Hnd E)
    as (m1 & m2 & Hm & Hset & _).
  rewrite Hset, Hm. unfold map_values. rewrite !List.map_app. cbn.
  now rewrite Hg.
Qed.

Lemma updateUser_keys (s : Store) id d now :
  map_keys (users (fst (updateUser s id d now))) = map_keys (users s).
Proof.
  unfold updateUser. destruct (map_get (users s) id) as [u |] eqn:E; [| reflexivity].
  cbn. apply map_keys_set. eapply map_get_has. exact E.
Qed.

Lemma updateUser_accounts_ok (s : Store) id d now :
  keeps_identity d -> accounts_ok s -> accounts_ok (fst (updateUser s id d now)).
Proof.
  intros (Hi & Hn & He) (Hk & Hids & Hkeys & Hnames & Hmails).
  split; [apply updateUser_keys_issued; exact Hk |].
  unfold ids_are_keys, MemoryStoreOps.distinct_accounts.
  rewrite updateUser_keys.
  rewrite !updateUser_projection; try assumption; try tauto.
  - intros u. cbn. now rewrite He.
  - intros u. cbn. now rewrite Hn.
  - intros u. cbn. now rewrite Hi.
Qed.

Lemma updateUserPassword_as_update bcrypt_hash (s : Store) id p now :
  fst (updateUserPassword bcrypt_hash s id p now)
  = fst (updateUser s id (password_update (bcrypt_hash p saltRounds)) now).
Proof.
  unfold updateUserPassword, updateUser, password_update.
  destruct (map_get (users s) id); reflexivity.
Qed.

Lemma register_store env (s : Store) body now :
  fst (AuthController.register env s body now)
  = fst (createUser (AuthController.bcrypt_hash env) s (AuthController.user_data body) now).
Proof.
  unfold AuthController.register.
  destruct (createUser _ s _ now) as [s' [u | msg]]; [| reflexivity].
  destruct (AuthController.generateToken env (user_id u)); reflexivity.
Qed.

Lemma login_store env (s : Store) mail pass now :
  fst (AuthController.login env s mail pass now) = s
  \/ exists id, fst (AuthController.login env s mail pass now)
                = fst (updateUser s id (AuthController.login_update now) now).
Proof.
  unfold AuthController.login.
  destruct (findUserByEmail s mail) as [u |]; [| left; reflexivity].
  destruct (negb _); [left; reflexivity |].
  right. exists (user_id u).
  destruct (AuthController.generateToken env (user_id u)); reflexivity.
Qed.

Lemma updateProfile_store (s : Store) reqUser body now :
  fst (AuthController.updateProfile s reqUser body now)
  = fst (updateUser s (user_id reqUser)
           (AuthController.profile_update (AuthController.merged_profile reqUser body))
           now).
Proof.
  unfold AuthController.updateProfile.
  destruct (updateUser s _ _ now) as [s' [u |]]; reflexivity.
Qed.

Lemma changePassword_store env (s : Store) userId cur new now :
  fst (AuthController.changePassword env s userId cur new now) = s
  \/ fst (AuthController.changePassword env s userId cur new now)
     = fst (updateUser s userId
              (password_update (AuthController.bcrypt_hash env new saltRounds)) now).
Proof.
  unfold AuthController.changePassword.
  destruct (findUserById s userId) as [u |]; [| left; reflexivity].
  destruct (negb _); [left; reflexivity |]. right.
  rewrite <- updateUserPassword_as_update.
  destruct (updateUserPassword _ s userId new now) as [s' [|]]; reflexivity.
Qed.

Lemma served_accounts_ok env (s : Store) :
  AuthController.served env s -> accounts_ok s.
Proof.
  induction 1 as [| s d now _ IH | s body now _ IH | s mail pass now _ IH
                  | s reqUser body now _ IH | s userId cur new now _ IH].
  - repeat split; try reflexivity; constructor.
  - apply createUser_accounts_ok. exact IH.
  - rewrite register_store. apply createUser_accounts_ok. exact IH.
  - destruct (login_store env s mail pass now) as [-> | [id ->]]; [exact IH |].
    apply updateUser_accounts_ok; [repeat split | exact IH].
  - rewrite updateProfile_store.
    apply updateUser_accounts_ok; [repeat split | exact IH].
  - destruct (changePassword_store env s userId cur new now) as [-> | ->]; [exact IH |].
    apply updateUser_accounts_ok; [repeat split | exact IH].
Qed.


Lemma registered_served : AuthController.served auth_env registered_store.
Proof. apply AuthController.served_register. apply AuthController.served_new. Qed.


(** ** The account handlers *)

Lemma value_found_by_id (m : Map MemoryUser) (u : MemoryUser) :
  List.map user_id (map_values m) = map_keys m ->
  List.NoDup (map_keys m) ->
  In u (map_values m) -> map_get m (user_id u) = Some u.
Proof.
  unfold map_values, map_keys, map_get.
  induction m as [| [k v] m IH]; intros Hids Hnd Hin; [contradiction |].
  cbn in *. injection Hids as Hk Hids. apply List.NoDup_cons_iff in Hnd as [Hnotin Hnd].
  destruct Hin as [-> | Hin].
  - rewrite <- Hk, String.eqb_refl. reflexivity.
  - destruct (String.eqb k (user_id u)) eqn:E.
    + apply String.eqb_eq in E. exfalso. apply Hnotin. rewrite <- Hids, E.
      apply in_map. exact Hin.
    + apply IH; assumption.
Qed.

Lemma found_by_email_is_stored (s : Store) mail u :
  accounts_ok s -> findUserByEmail s mail = Some u ->
  findUserById s (user_id u) = Some u /\ email u = mail.
Proof.
  intros (_ & Hids & Hkeys & _) Hf. unfold findUserByEmail in Hf.
  apply find_some in Hf as [Hin He]. apply String.eqb_eq in He.
  split; [| exact He]. apply value_found_by_id; assumption.
Qed.


Lemma generateToken_cases env userId :
  (truthy_opt_string (AuthController.JWT_SECRET env) = true
   /\ exists t, AuthController.generateToken env userId = Return t)
  \/ (truthy_opt_string (AuthController.JWT_SECRET env) = false
      /\ AuthController.generateToken env userId = Throw AuthController.msg_no_secret).
Proof.
  unfold AuthController.generateToken.
  destruct (truthy_opt_string (AuthController.JWT_SECRET env)); eauto.
Qed.

(** X8.  [login] answers 200 only when the password matches the digest of the
    account with that email; a refusal is the same 401 for an unknown email
    and for a wrong password and changes nothing; once the password matches,
    the stored account gets [lastLoginAt = now] and keeps its identity. *)
Theorem login_outcome env (s : Store) (mail pass : string) (now : Z) :
  AuthController.served env s ->
  (AuthController.status (snd (AuthController.login env s mail pass now)) = 401 ->
   AuthController.login env s mail pass now
   = (s, AuthController.failure 401 AuthController.msg_bad_credentials))
  /\ (AuthController.status (snd (AuthController.login env s mail pass now)) = 200 ->
      exists u, findUserByEmail s mail = Some u
                /\ AuthController.bcrypt_compare env pass (password u) = true)
  /\ (forall u,
        findUserByEmail s mail = Some u ->
        AuthController.bcrypt_compare env pass (password u) = true ->
        exists u',
          findUserById (fst (AuthController.login env s mail pass now)) (user_id u)
          = Some u'
          /\ lastLoginAt u' = Some now
          /\ username u' = username u /\ email u' = email u
          /\ password u' = password u /\ role u' = role u
          /\ profile u' = profile u).
Proof.
  intros Hserved. pose proof (served_accounts_ok env s Hserved) as Hok.
  unfold AuthController.login.
  destruct (findUserByEmail s mail) as [u |] eqn:Hf.
  2:{ repeat split; intros; try reflexivity; discriminate. }
  destruct (AuthController.bcrypt_compare env pass (password u)) eqn:Hc; cbn [negb].
  2:{ repeat split; intros; try reflexivity; try discriminate; congruence. }
  destruct (found_by_email_is_stored s mail u Hok Hf) as [Hid _].
  destruct Hok as (_ & _ & Hkeys & _).
  destruct (updateUser_lookup s (user_id u) (AuthController.login_update now) now Hkeys)
    as [_ Hupd].
  destruct (Hupd u Hid) as (_ & Hfound & _).
  destruct (generateToken_cases env (user_id u)) as [[_ [t ->]] | [_ ->]];
    cbn [fst snd AuthController.status AuthController.failure];
    (split; [intros Hst; discriminate |]);
    (split; [intros _; exists u; split; [reflexivity | exact Hc] |]);
    intros u0 Hu0 _; injection Hu0 as <-;
    (eexists; split; [exact Hfound | repeat split]).
Qed.

Lemma login_outcome_witness :
  AuthController.login auth_env registered_store "teacher@example.com" "wrong" 7
  = (registered_store, AuthController.failure 401 AuthController.msg_bad_credentials).
Proof.
  apply (proj1 (login_outcome auth_env registered_store "teacher@example.com" "wrong" 7
                  registered_served)).
  vm_compute. reflexivity.
Defined.



Lemma updateUserPassword_found bcrypt_hash (s : Store) id p now u :
  findUserById s id = Some u ->
  snd (updateUserPassword bcrypt_hash s id p now) = true.
Proof.
  unfold findUserById, updateUserPassword. intros ->. reflexivity.
Qed.

(** X10.  [changePassword] answers 404, 400 or 200 and never the 500 of a
    failed update; it changes the store only when it answers 200, and then
    the account found under the identifier carries the digest of the new
    password and is otherwise the account it was. *)
Theorem changePassword_outcome env (s : Store) (userId cur new : string) (now : Z) :
  List.NoDup (map_keys (users s)) ->
  let r := AuthController.changePassword env s userId cur new now in
  AuthController.message (snd r) <> AuthController.msg_password_failed
  /\ (AuthController.status (snd r) = 404 \/ AuthController.status (snd r) = 400
      \/ AuthController.status (snd r) = 200)
  /\ (AuthController.status (snd r) <> 200 -> fst r = s)
  /\ (AuthController.status (snd r) = 200 ->
      exists u u',
        findUserById s userId = Some u
        /\ AuthController.bcrypt_compare env cur (password u) = true
        /\ findUserById (fst r) userId = Some u'
        /\ password u' = AuthController.bcrypt_hash env new saltRounds
        /\ username u' = username u /\ email u' = email u /\ role u' = role u
        /\ profile u' = profile u /\ lastLoginAt u' = lastLoginAt u).
Proof.
  intros Hnd. cbv zeta. unfold AuthController.changePassword.
  destruct (findUserById s userId) as [u |] eqn:Hu.
  2:{ cbn. repeat split; try discriminate; auto. }
  destruct (AuthController.bcrypt_compare env cur (password u)) eqn:Hc; cbn [negb].
  2:{ cbn. repeat split; try discriminate; auto. }
  pose proof (updateUserPassword_found (AuthController.bcrypt_hash env) s userId new now
                u Hu) as Hok.
  pose proof (updateUserPassword_as_update (AuthController.bcrypt_hash env) s userId
                new now) as Hst.
  destruct (updateUserPassword (AuthController.bcrypt_hash env) s userId new now)
    as [s' b]. cbn [fst snd] in Hok, Hst. subst b s'. cbn.
  repeat split; try discriminate; auto; try congruence.
  intros _. exists u.
  destruct (updateUser_lookup s userId
              (password_update (AuthController.bcrypt_hash env new saltRounds)) now Hnd)
    as [_ Hupd].
  destruct (Hupd u Hu) as (_ & Hfound & _).
  eexists. split; [reflexivity |]. split; [exact Hc |]. split; [exact Hfound |].
  repeat split.
Qed.

Lemma changePassword_outcome_witness :
  AuthController.status
    (snd (AuthController.changePassword auth_env registered_store "user_1"
            "Teacher123" "Newpass1" 8)) = 200
  /\ AuthController.message
       (snd (AuthController.changePassword auth_env registered_store "user_1"
               "Teacher123" "Newpass1" 8)) <> AuthController.msg_password_failed.
Proof.
  split; [vm_compute; reflexivity |].
  apply (changePassword_outcome auth_env registered_store "user_1" "Teacher123"
           "Newpass1" 8).
  repeat constructor. vm_compute. tauto.
Defined.



(** X12.  [updateProfile] rewrites the profile only: username, email, password
    and role stay.  A text field sent as the empty string keeps its old
    value, while an empty subject list replaces the old list. *)
Theorem updateProfile_fields (s : Store) (reqUser : MemoryUser)
  (body : AuthController.ProfileBody) (now : Z) :
  List.NoDup (map_keys (users s)) ->
  findUserById s (user_id reqUser) = Some reqUser ->
  exists u',
    findUserById (fst (AuthController.updateProfile s reqUser body now)) (user_id reqUser)
    = Some u'
    /\ AuthController.status (snd (AuthController.updateProfile s reqUser body now)) = 200
    /\ username u' = username reqUser /\ email u' = email reqUser
    /\ password u' = password reqUser /\ role u' = role reqUser
    /\ profile u' = AuthController.merged_profile reqUser body
    /\ (AuthController.pb_displayName body = Some "" ->
        displayName (profile u') = displayName (profile reqUser))
    /\ (AuthController.pb_bio body = Some "" -> bio (profile u') = bio (profile reqUser))
    /\ (AuthController.pb_institution body = Some "" ->
        institution (profile u') = institution (profile reqUser))
    /\ (AuthController.pb_subjects body = Some [] -> subjects (profile u') = []).
Proof.
  intros Hnd Hu.
  destruct (updateUser_lookup s (user_id reqUser)
              (AuthController.profile_update (AuthController.merged_profile reqUser body))
              now Hnd) as [_ Hupd].
  destruct (Hupd reqUser Hu) as (Hsnd & Hfound & _).
  unfold AuthController.updateProfile.
  destruct (updateUser s (user_id reqUser) _ now) as [s' r]. cbn [fst snd] in *.
  subst r. eexists. split; [exact Hfound |]. cbn.
  repeat split; intros ->; reflexivity.
Qed.

Lemma updateProfile_fields_witness :
  exists u',
    findUserById
      (fst (AuthController.updateProfile registered_store
              (new_user "user_1" teacher_data (demo_hash "Teacher123" saltRounds) 0)
              {| AuthController.pb_displayName := Some "";
                 AuthController.pb_bio := Some "Teaches fractions";
                 AuthController.pb_institution := None;
                 AuthController.pb_subjects := Some [];
                 AuthController.pb_preferences := None |} 4)) "user_1" = Some u'
    /\ displayName (profile u') = "teacher"
    /\ bio (profile u') = "Teaches fractions".
Proof.
  destruct (updateProfile_fields registered_store
              (new_user "user_1" teacher_data (demo_hash "Teacher123" saltRounds) 0)
              {| AuthController.pb_displayName := Some "";
                 AuthController.pb_bio := Some "Teaches fractions";
                 AuthController.pb_institution := None;
                 AuthController.pb_subjects := Some [];
                 AuthController.pb_preferences := None |} 4)
    as (u' & Hf & _ & _ & _ & _ & _ & Hp & _).
  - repeat constructor. vm_compute. tauto.
  - vm_compute. reflexivity.
  - exists u'. split; [exact Hf |]. rewrite Hp. split; reflexivity.
Defined.

(** ** Resources: identifiers and lookups *)


















(** ** Resources: deletion *)

Lemma findIndex_find id (l : list MemoryResource) :
  match findIndex id l with
  | Some index => exists r, l !! index = Some r
                            /\ List.find (fun x => String.eqb (res_id x) id) l = Some r
                            /\ S (length (delete index l)) = length l
  | None => List.find (fun x => String.eqb (res_id x) id) l = None
  end.
Proof.
  induction l as [| a l IH]; [reflexivity |]. cbn.
  destruct (String.eqb (res_id a) id) eqn:E.
  - exists a. auto.
  - destruct (findIndex id l) as [index |]; cbn; [| exact IH].
    destruct IH as (r & Hr & Hf & Hlen). exists r. cbn. auto.
Qed.

Lemma delete_first_other id id' (l : list MemoryResource) index :
  findIndex id l = Some index -> id' <> id ->
  List.find (fun x => String.eqb (res_id x) id') (delete index l)
  = List.find (fun x => String.eqb (res_id x) id') l.
Proof.
  revert index. induction l as [| a l IH]; intros index; [discriminate |]. cbn.
  destruct (String.eqb (res_id a) id) eqn:E.
  - intros [= <-] Hne. cbn. apply String.eqb_eq in E.
    destruct (String.eqb (res_id a) id') eqn:E'; [| reflexivity].
    apply String.eqb_eq in E'. congruence.
  - destruct (findIndex id l) as [i |]; [| discriminate]. cbn.
    intros [= <-] Hne. cbn. destruct (String.eqb (res_id a) id'); [reflexivity |].
    apply IH; [reflexivity | exact Hne].
Qed.

Lemma delete_first_gone id (l : list MemoryResource) index :
  findIndex id l = Some index -> List.NoDup (List.map res_id l) ->
  List.find (fun x => String.eqb (res_id x) id) (delete index l) = None.
Proof.
  revert index. induction l as [| a l IH]; intros index; [discriminate |]. cbn.
  destruct (String.eqb (res_id a) id) eqn:E.
  - intros [= <-] Hnd. cbn. apply String.eqb_eq in E.
    apply List.NoDup_cons_iff in Hnd as [Hnotin _].
    apply find_none_iff. intros x Hx. apply String.eqb_neq. intros He.
    apply Hnotin. rewrite E, <- He. apply in_map. exact Hx.
  - destruct (findIndex id l) as [i |]; [| discriminate]. cbn.
    intros [= <-] Hnd. cbn. rewrite E.
    apply List.NoDup_cons_iff in Hnd as [_ Hnd]. apply IH; [reflexivity | exact Hnd].
Qed.

Lemma deleteResource_effect (s : Store) (id : string) :
  (findResourceById s id = None -> deleteResource s id = (s, false))
  /\ (forall r, findResourceById s id = Some r ->
        snd (deleteResource s id) = true
        /\ S (length (resources (fst (deleteResource s id)))) = length (resources s)
        /\ users (fst (deleteResource s id)) = users s
        /\ resourceIdCounter (fst (deleteResource s id)) = resourceIdCounter s
        /\ (forall id', id' <> id ->
              findResourceById (fst (deleteResource s id)) id' = findResourceById s id')
        /\ (List.NoDup (List.map res_id (resources s)) ->
            findResourceById (fst (deleteResource s id)) id = None)).
Proof.
  unfold findResourceById, deleteResource.
  pose proof (findIndex_find id (resources s)) as Hfi.
  destruct (findIndex id (resources s)) as [index |] eqn:Hi.
  - destruct Hfi as (r0 & Hr0 & Hf & Hlen). split; [congruence |].
    intros r _. cbn [fst snd resources set_resources users resourceIdCounter].
    repeat split.
    + exact Hlen.
    + intros id' Hne. apply (delete_first_other id); assumption.
    + intros Hnd. apply (delete_first_gone id); assumption.
  - split; [reflexivity |]. intros r Hr. congruence.
Qed.

(** X14.  [deleteResource] of the store answers [false] and changes nothing for
    an unknown identifier; otherwise it removes one record, the first with
    that identifier: every other identifier finds what it found before, the
    counter stays, and with distinct identifiers the deleted one is found no
    more. *)
Theorem deleteResource_outcome (s : Store) (id : string) :
  (findResourceById s id = None -> deleteResource s id = (s, false))
  /\ (forall r, findResourceById s id = Some r ->
        snd (deleteResource s id) = true
        /\ S (length (resources (fst (deleteResource s id)))) = length (resources s)
        /\ users (fst (deleteResource s id)) = users s
        /\ resourceIdCounter (fst (deleteResource s id)) = resourceIdCounter s
        /\ (forall id', id' <> id ->
              findResourceById (fst (deleteResource s id)) id' = findResourceById s id')
        /\ (List.NoDup (List.map res_id (resources s)) ->
            findResourceById (fst (deleteResource s id)) id = None)).
Proof. apply deleteResource_effect. Qed.



(** ** The resource handlers: who may read, delete and publish *)

Lemma lookup_stored (w : Handlers.World) id index r :
  Handlers.lookup w id = Some (Handlers.Stored index r) ->
  findIndex id (resources (Handlers.memory w)) = Some index
  /\ resources (Handlers.memory w) !! index = Some r
  /\ exists msg, Mongoose.findById (Handlers.database w) id = Throw msg.
Proof.
  unfold Handlers.lookup.
  destruct (Mongoose.findById (Handlers.database w) id) as [[d |] | msg]; cbn;
    try discriminate.
  destruct (findIndex id _) as [i |]; [| discriminate].
  destruct (_ !! i) as [r0 |] eqn:E; cbn; [| discriminate].
  intros [= <- <-]. eauto.
Qed.

Lemma lookup_document (w : Handlers.World) id doc :
  Handlers.lookup w id = Some (Handlers.Document doc) ->
  Mongoose.findById (Handlers.database w) id = Return (Some doc).
Proof.
  unfold Handlers.lookup.
  destruct (Mongoose.findById (Handlers.database w) id) as [[d |] | msg]; cbn.
  - congruence.
  - discriminate.
  - destruct (findIndex id _); [| discriminate]. destruct (_ !! _); discriminate.
Qed.

(** X16.  [getResourceById] answers 200 only for a resource one of the backends
    holds and only to its creator, to anyone when it is public, or to an
    administrator; a refused or unanswered request (403, 404) leaves both
    backends as they were. *)
Theorem getResourceById_permission (w : Handlers.World) (id userId userRole : string)
  (now : Z) :
  let r := Handlers.getResourceById w id userId userRole now in
  (Handlers.status (snd r) = 200 ->
   exists resource,
     Handlers.lookup w id = Some resource
     /\ (Handlers.found_creator resource = userId
         \/ Handlers.found_isPublic resource = true \/ userRole = "admin"))
  /\ (Handlers.status (snd r) = 403 \/ Handlers.status (snd r) = 404 -> fst r = w)
  /\ (forall resource,
        Handlers.lookup w id = Some resource ->
        Handlers.found_creator resource <> userId ->
        Handlers.found_isPublic resource = false -> userRole <> "admin" ->
        r = (w, Handlers.failure 403 "没有权限访问此资源")).
Proof.
  cbv zeta. unfold Handlers.getResourceById.
  destruct (Handlers.lookup w id) as [resource |] eqn:Hl.
  2:{ cbn. repeat split; try discriminate; intros; discriminate. }
  destruct (String.eqb (Handlers.found_creator resource) userId) eqn:Hown;
    [apply String.eqb_eq in Hown | apply String.eqb_neq in Hown]; cbn [negb andb].
  { cbn. split; [| split].
    - intros _. exists resource. auto.
    - intros [H | H]; discriminate.
    - intros r0 [= <-] Hne. contradiction. }
  destruct (Handlers.found_isPublic resource) eqn:Hpub; cbn [negb andb].
  { split; [intros _; exists resource; auto |]. split.
    - destruct resource as [doc | index r].
      + destruct (Mongoose.save _ _ now); cbn; intros [H | H]; discriminate.
      + cbn. intros [H | H]; discriminate.
    - intros r0 [= <-] _ Hf. rewrite Hpub in Hf. discriminate. }
  destruct (String.eqb userRole "admin") eqn:Hadm;
    [apply String.eqb_eq in Hadm | apply String.eqb_neq in Hadm]; cbn [negb].
  { split; [intros _; exists resource; auto |]. split.
    - destruct resource as [doc | index r].
      + destruct (Mongoose.save _ _ now); cbn; intros [H | H]; discriminate.
      + cbn. intros [H | H]; discriminate.
    - intros r0 _ _ _ Hna. contradiction. }
  cbn. split; [discriminate |]. split; intros; reflexivity.
Qed.

(** X17.  [deleteResource] of the controller deletes only for the creator or
    an administrator: anyone else gets 403 and both backends stay as they
    were.  On the volatile path a permitted request removes exactly the
    looked-up record and answers 200; the answer that the record is already
    gone never occurs. *)
Theorem deleteResource_guarded (w : Handlers.World) (id userId userRole : string) :
  let r := ResourceController.deleteResource w id userId userRole in
  Handlers.message (snd r) <> Some ResourceController.msg_delete_gone
  /\ (Handlers.status (snd r) = 200 ->
      exists resource,
        Handlers.lookup w id = Some resource
        /\ (Handlers.found_creator resource = userId \/ userRole = "admin"))
  /\ (Handlers.status (snd r) <> 200 -> fst r = w)
  /\ (forall resource,
        Handlers.lookup w id = Some resource ->
        Handlers.found_creator resource <> userId -> userRole <> "admin" ->
        r = (w, Handlers.failure 403 ResourceController.msg_delete_forbidden))
  /\ (forall index res,
        Handlers.lookup w id = Some (Handlers.Stored index res) ->
        creator res = userId \/ userRole = "admin" ->
        Handlers.status (snd r) = 200
        /\ Handlers.database (fst r) = Handlers.database w
        /\ resources (Handlers.memory (fst r))
           = delete index (resources (Handlers.memory w))).
Proof.
  cbv zeta. unfold ResourceController.deleteResource.
  destruct (Handlers.lookup w id) as [resource |] eqn:Hl.
  2:{ cbn. split; [discriminate |]. split; [discriminate |].
      split; [reflexivity |]. split; intros; discriminate. }
  assert (negb (String.eqb (Handlers.found_creator resource) userId)
          && negb (String.eqb userRole "admin") = false
          <-> (Handlers.found_creator resource = userId \/ userRole = "admin"))
    as Hguard.
  { rewrite andb_false_iff, !negb_false_iff, !String.eqb_eq. reflexivity. }
  destruct (negb (String.eqb (Handlers.found_creator resource) userId)
            && negb (String.eqb userRole "admin")) eqn:G.
  - assert (~ (Handlers.found_creator resource = userId \/ userRole = "admin")) as Hnot.
    { intros Hp. apply Hguard in Hp. discriminate. }
    cbn. split; [discriminate |]. split; [discriminate |].
    split; [reflexivity |]. split; [reflexivity |].
    intros index res Heq Hp. injection Heq as ->. exfalso. apply Hnot. exact Hp.
  - assert (Handlers.found_creator resource = userId \/ userRole = "admin") as Hp
      by (apply Hguard; reflexivity).
    destruct resource as [doc | index res].
    + destruct (ResourceController.findByIdAndDelete (Handlers.database w) id)
        as [db' | msg]; cbn.
      * split; [discriminate |]. split; [intros _; eexists; split; [reflexivity | exact Hp] |].
        split; [intros Hne; exfalso; apply Hne; reflexivity |].
        split; [| intros; discriminate].
        intros r0 Heq Hne Hna. injection Heq as <-. destruct Hp; contradiction.
      * split; [discriminate |]. split; [discriminate |].
        split; [reflexivity |]. split; [| intros; discriminate].
        intros r0 Heq Hne Hna. injection Heq as <-. destruct Hp; contradiction.
    + destruct (lookup_stored w id index res Hl) as (Hi & Hr & _).
      unfold MemoryStore.deleteResource. rewrite Hi. cbn.
      split; [discriminate |]. split; [intros _; eexists; split; [reflexivity | exact Hp] |].
      split; [intros Hne; exfalso; apply Hne; reflexivity |].
      split.
      * intros r0 Heq Hne Hna. injection Heq as <-. destruct Hp; contradiction.
      * intros i0 r0 Heq _. injection Heq as <- <-.
        split; [reflexivity |]. split; reflexivity.
Qed.

(** ** Publishing *)

Lemma publishResource_effect (db : Mongoose.Database) (id userId : string) (now : Z)
  (resource : Mongoose.Resource) :
  Mongoose.findById db id = Return (Some resource) ->
  Mongoose.creator resource = userId ->
  exists db',
    ResourceController.publishResource db id userId now
    = (db', {| Handlers.status := 200; Handlers.success := true;
               Handlers.message := Some "资源发布成功";
               Handlers.data :=
                 Handlers.ResourceData
                   (Handlers.Document (ResourceController.set_isPublic resource true)) |})
    /\ Mongoose.findById db' id
       = Return (Some (Mongoose.set_updatedAt
                         (ResourceController.set_isPublic resource true) now)).
Proof.
  intros Hf Hown.
  destruct (save_then_findById db id resource
              (ResourceController.set_isPublic resource true) now Hf)
    as (db' & Hs & Hf').
  { apply findById_found in Hf as (_ & _ & _ & Hid). exact Hid. }
  exists db'. split; [| exact Hf'].
  unfold ResourceController.publishResource. rewrite Hf, Hown, String.eqb_refl. cbn.
  rewrite Hs. reflexivity.
Qed.


(** X19.  After [publishResource] answered 200, [getResourceById] answers 200
    to every account, whatever its role. *)
Theorem publish_then_read (w : Handlers.World) (id userId reader readerRole : string)
  (now now' : Z) :
  Handlers.status (snd (ResourceController.publishResource
                          (Handlers.database w) id userId now)) = 200 ->
  let w' := {| Handlers.database :=
                 fst (ResourceController.publishResource (Handlers.database w) id userId now);
               Handlers.memory := Handlers.memory w |} in
  Handlers.status (snd (Handlers.getResourceById w' id reader readerRole now')) = 200.
Proof.
  intros Hok w'.
  destruct (Mongoose.findById (Handlers.database w) id) as [[resource |] | msg] eqn:Hf.
  2,3: unfold ResourceController.publishResource in Hok; rewrite Hf in Hok; discriminate.
  destruct (String.eqb (Mongoose.creator resource) userId) eqn:E.
  2:{ unfold ResourceController.publishResource in Hok. rewrite Hf, E in Hok. discriminate. }
  apply String.eqb_eq in E.
  destruct (publishResource_effect _ id userId now resource Hf E) as (db' & Hp & Hf').
  assert (Handlers.lookup w' id
          = Some (Handlers.Document
                    (Mongoose.set_updatedAt
                       (ResourceController.set_isPublic resource true) now))) as Hl.
  { unfold Handlers.lookup, w'. cbn. rewrite Hp. cbn. rewrite Hf'. reflexivity. }
  destruct (String.eqb userId reader) eqn:Er.
  - apply String.eqb_eq in Er.
    rewrite (getResourceById_owner w' id reader readerRole now' _ Hl); [reflexivity |].
    cbn. congruence.
  - apply String.eqb_neq in Er.
    destruct (getResourceById_document_reader w' id reader readerRole now' _ Hl)
      as (db2 & _ & Hst & _).
    + cbn. congruence.
    + left. reflexivity.
    + exact Hst.
Qed.

Lemma publish_then_read_witness :
  Handlers.status
    (snd (Handlers.getResourceById
            {| Handlers.database :=
                 fst (ResourceController.publishResource private_db
                        "64b7f0c2a1d3e4f5a6b7c8d9" "u1" 5);
               Handlers.memory := empty_store |}
            "64b7f0c2a1d3e4f5a6b7c8d9" "u2" "student" 6)) = 200.
Proof.
  apply (publish_then_read
           {| Handlers.database := private_db; Handlers.memory := empty_store |}
           "64b7f0c2a1d3e4f5a6b7c8d9" "u1" "u2" "student" 5 6).
  reflexivity.
Defined.

(** ** Creating through the handler, and deleting again *)







(** ** Updating a stored resource *)

Lemma findIndex_lookup id (l : list MemoryResource) :
  match findIndex id l with
  | Some index => exists r, l !! index = Some r
                            /\ List.find (fun x => String.eqb (res_id x) id) l = Some r
  | None => List.find (fun x => String.eqb (res_id x) id) l = None
  end.
Proof.
  induction l as [| x l IH]; cbn; [reflexivity |].
  destruct (String.eqb (res_id x) id); [exists x; split; reflexivity |].
  destruct (findIndex id l) as [i |]; cbn; exact IH.
Qed.

Lemma insert_first_found id (l : list MemoryResource) index r' :
  findIndex id l = Some index -> res_id r' = id ->
  List.find (fun x => String.eqb (res_id x) id) (<[index := r']> l) = Some r'
  /\ (forall id', id' <> id ->
        List.find (fun x => String.eqb (res_id x) id') (<[index := r']> l)
        = List.find (fun x => String.eqb (res_id x) id') l).
Proof.
  intros Hi Hid. revert index Hi. induction l as [| x l IH]; intros index; [discriminate |].
  cbn. destruct (String.eqb (res_id x) id) eqn:E.
  - intros [= <-]. cbn. rewrite Hid, String.eqb_refl. split; [reflexivity |].
    intros id' Hne. apply String.eqb_eq in E.
    destruct (String.eqb id id') eqn:E'; [apply String.eqb_eq in E'; congruence |].
    rewrite E. rewrite E'. reflexivity.
  - destruct (findIndex id l) as [i |]; [| discriminate]. cbn. intros [= <-]. cbn.
    rewrite E. destruct (IH i eq_refl) as [H1 H2]. split; [exact H1 |].
    intros id' Hne. cbn. destruct (String.eqb (res_id x) id'); [reflexivity |].
    apply H2. exact Hne.
Qed.

(** X21.  [updateResource] answers [null] and changes nothing for an unknown
    identifier; otherwise it replaces one record by the merge, which the
    identifier then finds, and every other identifier finds what it found
    before. *)
Theorem updateResource_outcome (s : Store) (id : string)
  (d : MemoryStoreOps.ResourceUpdate) (now : Z) :
  MemoryStoreOps.ru_id d = None ->
  (findResourceById s id = None -> MemoryStoreOps.updateResource s id d now = (s, None))
  /\ (forall r, findResourceById s id = Some r ->
        snd (MemoryStoreOps.updateResource s id d now)
        = Some (MemoryStoreOps.merge_resource r d now)
        /\ findResourceById (fst (MemoryStoreOps.updateResource s id d now)) id
           = Some (MemoryStoreOps.merge_resource r d now)
        /\ length (resources (fst (MemoryStoreOps.updateResource s id d now)))
           = length (resources s)
        /\ (forall id', id' <> id ->
              findResourceById (fst (MemoryStoreOps.updateResource s id d now)) id'
              = findResourceById s id')).
Proof.
  intros Hd. unfold findResourceById, MemoryStoreOps.updateResource.
  pose proof (findIndex_lookup id (resources s)) as Hfi.
  destruct (findIndex id (resources s)) as [index |] eqn:Hi.
  - destruct Hfi as (r0 & Hr0 & Hf). split; [congruence |].
    intros r Hr. rewrite Hf in Hr. injection Hr as <-. rewrite Hr0.
    cbn [fst snd resources set_resources].
    assert (res_id (MemoryStoreOps.merge_resource r0 d now) = id) as Hid.
    { cbn. rewrite Hd. cbn. apply find_some in Hf as [_ Hf].
      apply String.eqb_eq. exact Hf. }
    destruct (insert_first_found id (resources s) index _ Hi Hid) as [H1 H2].
    split; [reflexivity |]. split; [exact H1 |].
    split; [apply length_insert | exact H2].
  - split; [reflexivity |]. intros r Hr. congruence.
Qed.

Lemma updateResource_outcome_witness :
  findResourceById
    (fst (MemoryStoreOps.updateResource two_created "resource_2" (retitle "B2") 7))
    "resource_1"
  = findResourceById two_created "resource_1".
Proof.
  destruct (updateResource_outcome two_created "resource_2" (retitle "B2") 7 eq_refl)
    as [_ H].
  destruct (H _ eq_refl) as (_ & _ & _ & H4).
  apply H4. discriminate.
Defined.

(** ** The generation service: which adapter answers *)

Lemma providers_entries env :
  providers env
  = (if truthy_opt_string (OPENAI_API_KEY env) then [("openai", OpenAIProvider env)] else [])
    ++ (if truthy_opt_string (CLAUDE_API_KEY env) then [("claude", ClaudeProvider env)] else [])
    ++ [("mock", MockProvider env)].
Proof.
  unfold providers.
  destruct (truthy_opt_string (OPENAI_API_KEY env)),
           (truthy_opt_string (CLAUDE_API_KEY env)); reflexivity.
Qed.

Lemma providers_get env name p :
  map_get (providers env) name = Some p ->
  (name = "openai" /\ truthy_opt_string (OPENAI_API_KEY env) = true
   /\ p = OpenAIProvider env)
  \/ (name = "claude" /\ truthy_opt_string (CLAUDE_API_KEY env) = true
      /\ p = ClaudeProvider env)
  \/ (name = "mock" /\ p = MockProvider env).
Proof.
  rewrite providers_entries. unfold map_get.
  destruct (truthy_opt_string (OPENAI_API_KEY env)),
           (truthy_opt_string (CLAUDE_API_KEY env)); cbn -[String.eqb];
    repeat match goal with
           | |- context [String.eqb ?a name] =>
               destruct (String.eqb_spec a name) as [<- | ?]; cbn -[String.eqb]
           end;
    intros H; try discriminate; injection H as <-; auto.
Qed.

Lemma providers_has env name :
  map_has (providers env) name
  = (String.eqb "openai" name && truthy_opt_string (OPENAI_API_KEY env))
    || (String.eqb "claude" name && truthy_opt_string (CLAUDE_API_KEY env))
    || String.eqb "mock" name.
Proof.
  rewrite providers_entries. unfold map_has.
  destruct (truthy_opt_string (OPENAI_API_KEY env)),
           (truthy_opt_string (CLAUDE_API_KEY env)); cbn -[String.eqb];
    destruct (String.eqb "openai" name), (String.eqb "claude" name),
             (String.eqb "mock" name); reflexivity.
Qed.

Lemma selected_provider_has env request :
  map_has (providers env) (selected_provider env request) = true.
Proof.
  unfold selected_provider.
  destruct (map_has (providers env) (or_string (provider request) "openai")) eqn:E; cbn.
  - exact E.
  - rewrite providers_has. rewrite String.eqb_refl. apply orb_true_r.
Qed.

Lemma dispatch_label (p : AIProvider) (name : string) request now :
  (forall r, generateText p request now = Return r -> res_provider r = name) ->
  (forall g r, generateImage p = Some g -> g request now = Return r ->
               res_provider r = name) ->
  forall r,
    (match String.eqb (type request) "image", generateImage p with
     | true, Some generate_image => generate_image request now
     | _, _ => generateText p request now
     end) = Return r ->
    res_provider r = name.
Proof.
  intros Ht Hi r. destruct (String.eqb (type request) "image").
  - destruct (generateImage p) as [g |] eqn:Eg.
    + apply (Hi g r eq_refl).
    + apply Ht.
  - destruct (generateImage p); apply Ht.
Qed.

Lemma generateContent_label env request now r :
  generateContent env request now = Return r ->
  res_provider r = selected_provider env request.
Proof.
  unfold generateContent.
  destruct (map_get (providers env) (selected_provider env request)) as [p |] eqn:Hp;
    [| discriminate].
  apply providers_get in Hp as [(Hn & _ & ->) | [(Hn & _ & ->) | (Hn & ->)]];
    rewrite Hn; apply dispatch_label.
  - cbn. unfold openai_generateText. intros r0.
    destruct (openai_chat env request); [| discriminate]. intros [= <-]. reflexivity.
  - cbn. intros g r0 [= <-]. unfold openai_generateImage.
    destruct (openai_images env request); [| discriminate]. intros [= <-]. reflexivity.
  - cbn. unfold claude_generateText. intros r0.
    destruct (claude_messages env request) as [data |]; [| discriminate].
    destruct (claude_ok data); [| discriminate]. intros [= <-]. reflexivity.
  - cbn. intros g r0. discriminate.
  - cbn. intros r0 [= <-]. reflexivity.
  - cbn. intros g r0 [= <-] [= <-]. reflexivity.
Qed.

Lemma generateContent_throws env request now msg :
  generateContent env request now = Throw msg ->
  msg = msg_openai_text_failed \/ msg = msg_openai_image_failed \/ msg = msg_claude_failed.
Proof.
  unfold generateContent.
  pose proof (selected_provider_has env request) as Hhas.
  destruct (map_get (providers env) (selected_provider env request)) as [p |] eqn:Hp.
  - apply providers_get in Hp as [(_ & _ & ->) | [(_ & _ & ->) | (_ & ->)]]; cbn.
    + destruct (String.eqb (type request) "image").
      * unfold openai_generateImage.
        destruct (openai_images env request); [discriminate |]. intros [= <-]. auto.
      * unfold openai_generateText.
        destruct (openai_chat env request); [discriminate |]. intros [= <-]. auto.
    + assert (claude_generateText env request now = Throw msg -> msg = msg_claude_failed)
        as Hc.
      { unfold claude_generateText.
        destruct (claude_messages env request) as [data |].
        - destruct (claude_ok data); [discriminate |]. intros [= <-]. reflexivity.
        - intros [= <-]. reflexivity. }
      destruct (String.eqb (type request) "image"); intros H; auto.
    + destruct (String.eqb (type request) "image"); discriminate.
  - exfalso. unfold map_get in Hp. unfold map_has in Hhas.
    destruct (List.find _ (providers env)) as [e |] eqn:Ef; [discriminate |].
    apply existsb_exists in Hhas as (e & Hin & He).
    pose proof (find_none _ _ Ef e Hin) as Hn. cbn in Hn. congruence.
Qed.

(** X22.  The registry holds [openai] exactly when an OpenAI key is set, [claude]
    exactly when a Claude key is set, and always [mock], in this order. *)
Theorem providers_available env (name : string) :
  getAvailableProviders env
  = (if truthy_opt_string (OPENAI_API_KEY env) then ["openai"] else [])
    ++ (if truthy_opt_string (CLAUDE_API_KEY env) then ["claude"] else [])
    ++ ["mock"]
  /\ (isProviderAvailable env name = true
      <-> (name = "openai" /\ truthy_opt_string (OPENAI_API_KEY env) = true)
          \/ (name = "claude" /\ truthy_opt_string (CLAUDE_API_KEY env) = true)
          \/ name = "mock").
Proof.
  split.
  - unfold getAvailableProviders. rewrite providers_entries.
    destruct (truthy_opt_string (OPENAI_API_KEY env)),
             (truthy_opt_string (CLAUDE_API_KEY env)); reflexivity.
  - unfold isProviderAvailable. rewrite providers_has.
    rewrite !orb_true_iff, !andb_true_iff, !String.eqb_eq.
    split.
    + intros [[[<- H] | [<- H]] | <-]; auto.
    + intros [[-> H] | [[-> H] | ->]]; auto.
Qed.

(** X23.  [generateContent] of the service always selects a registered adapter.
    A result carries the name of the selected adapter as its provider; an
    error is one of the three adapter failures, never comes from the mock
    adapter, and is never the unsupported-provider error. *)
Theorem generateContent_outcome env (request : GenerationRequest) (now : Z) :
  In (selected_provider env request) (getAvailableProviders env)
  /\ match generateContent env request now with
     | Return r => res_provider r = selected_provider env request
     | Throw msg =>
         (msg = msg_openai_text_failed \/ msg = msg_openai_image_failed
          \/ msg = msg_claude_failed)
         /\ selected_provider env request <> "mock"
         /\ forall name, msg <> msg_unsupported name
     end.
Proof.
  split.
  - pose proof (selected_provider_has env request) as Hhas.
    unfold getAvailableProviders, map_keys. unfold map_has in Hhas.
    apply existsb_exists in Hhas as (e & Hin & He). apply String.eqb_eq in He.
    rewrite <- He. apply in_map. exact Hin.
  - destruct (generateContent env request now) as [r | msg] eqn:Hg.
    + apply generateContent_label with (now := now). exact Hg.
    + pose proof (generateContent_throws env request now msg Hg) as Hmsg.
      split; [exact Hmsg |]. split.
      * intros Hsel.
        destruct (generateContent_selected_mock env request now Hsel) as (r & Hr & _).
        congruence.
      * intros name. destruct Hmsg as [-> | [-> | ->]]; discriminate.
Qed.

(** X24.  Without keys the mock adapter is the only one registered, and every
    request, whatever provider it names, returns a mock result. *)
Theorem generateContent_demo_mode env (request : GenerationRequest) (now : Z) :
  truthy_opt_string (OPENAI_API_KEY env) = false ->
  truthy_opt_string (CLAUDE_API_KEY env) = false ->
  getAvailableProviders env = ["mock"]
  /\ exists r, generateContent env request now = Return r
               /\ res_provider r = "mock" /\ isMock (metadata r) = Some true.
Proof.
  intros Ho Hc. split.
  - unfold getAvailableProviders. rewrite providers_entries, Ho, Hc. reflexivity.
  - apply generateContent_selected_mock. unfold selected_provider.
    rewrite providers_has, Ho, Hc, !andb_false_r. cbn [orb].
    destruct (String.eqb_spec "mock" (or_string (provider request) "openai")) as [<- | ?];
      reflexivity.
Qed.

Lemma generateContent_demo_mode_witness :
  exists r, generateContent demo_env (plain_request "text" (Some "openai")) 7 = Return r
            /\ res_provider r = "mock" /\ isMock (metadata r) = Some true.
Proof.
  exact (proj2 (generateContent_demo_mode demo_env (plain_request "text" (Some "openai")) 7
                  eq_refl eq_refl)).
Defined.

(** ** The generation handlers *)

Lemma selected_named env request name :
  provider request = Some name -> name <> "" ->
  isProviderAvailable env name = true ->
  selected_provider env request = name.
Proof.
  intros Hp Hne Hav. unfold selected_provider, or_string. rewrite Hp.
  unfold truthy_opt_string, truthy_string.
  destruct (String.eqb_spec name "") as [-> | _]; [contradiction |]. cbn.
  unfold isProviderAvailable in Hav. rewrite Hav. reflexivity.
Qed.

(** X25.  The handler [generateContent] refuses a named provider that is not
    available with 400, and a result it returns for a named provider comes
    from that provider. *)
Theorem generateContent_named_provider env (saved : option string)
  (memory : list AiController.StoredGeneration) (userId : string)
  (request : GenerationRequest) (called now : Z) (name : string) :
  provider request = Some name -> name <> "" ->
  let r := AiController.generateContent env saved memory userId request called now in
  (isProviderAvailable env name = false ->
     r = (memory, AiController.failure 400 (AiController.msg_unavailable name)))
  /\ (forall recordId result,
        AiController.data (snd r) = AiController.Generated recordId result ->
        isProviderAvailable env name = true /\ res_provider result = name).
Proof.
  intros Hp Hne. cbv zeta. unfold AiController.generateContent. rewrite Hp.
  assert (truthy_opt_string (Some name) = true) as ->.
  { unfold truthy_opt_string, truthy_string.
    destruct (String.eqb_spec name "") as [-> | _]; [contradiction | reflexivity]. }
  change (default "" (Some name)) with name. cbn [andb].
  destruct (isProviderAvailable env name) eqn:Hav; cbn [negb].
  - split; [discriminate |]. intros recordId result.
    destruct (generateContent env request called) as [res | msg] eqn:Hg.
    + pose proof (generateContent_label env request called res Hg) as Hl.
      rewrite (selected_named env request name Hp Hne Hav) in Hl.
      destruct saved; cbn; intros Heq; injection Heq as _ <-;
        (split; [reflexivity | exact Hl]).
    + cbn. discriminate.
  - split; [reflexivity |]. cbn. discriminate.
Qed.

Lemma generateContent_named_provider_witness :
  AiController.generateContent claude_env None [] "user_1"
    (plain_request "text" (Some "openai")) 5 6
  = ([], AiController.failure 400 (AiController.msg_unavailable "openai")).
Proof.
  apply (proj1 (generateContent_named_provider claude_env None [] "user_1"
                  (plain_request "text" (Some "openai")) 5 6 "openai" eq_refl
                  ltac:(discriminate))).
  reflexivity.
Defined.

Lemma find_owned_none (memory : list AiController.StoredGeneration) id userId :
  (forall x, In x memory -> AiController.sg_id x = id ->
             AiController.sg_userId x <> userId) ->
  List.find (AiController.owned_with_id id userId) memory = None.
Proof.
  intros H. apply find_none_iff. intros x Hin. unfold AiController.owned_with_id.
  destruct (String.eqb_spec (AiController.sg_id x) id) as [Hi | _]; [| reflexivity].
  destruct (String.eqb_spec (AiController.sg_userId x) userId) as [Hu | _];
    [| reflexivity].
  exfalso. exact (H x Hin Hi Hu).
Qed.

(** X26.  The record the handler [generateContent] stores in the volatile
    backend is returned by the fallback of [getGenerationById] to its owner
    under the identifier of the response, and to no other account. *)
Theorem generate_then_get env (memory : list AiController.StoredGeneration)
  (userId : string) (request : GenerationRequest) (called now : Z)
  (recordId : string) (result : GenerationResult) :
  AiController.data
    (snd (AiController.generateContent env None memory userId request called now))
  = AiController.Generated recordId result ->
  (forall x, In x memory -> AiController.sg_id x <> pretty now) ->
  let memory' :=
    fst (AiController.generateContent env None memory userId request called now) in
  memory' = memory ++ [AiController.new_record userId request result now]
  /\ AiController.getGenerationById_fallback memory' recordId userId
     = {| AiController.status := 200; AiController.success := true;
          AiController.message := None;
          AiController.data :=
            AiController.Record_ (AiController.new_record userId request result now) |}
  /\ (forall other, other <> userId ->
        AiController.status (AiController.getGenerationById_fallback memory' recordId other)
        = 404).
Proof.
  intros Hd Hfresh. cbv zeta. revert Hd. unfold AiController.generateContent.
  destruct (truthy_opt_string (provider request)
            && negb (isProviderAvailable env (default "" (provider request))));
    [cbn; discriminate |].
  destruct (generateContent env request called) as [res | msg]; [| cbn; discriminate].
  cbn [fst snd AiController.data]. intros [= <- <-].
  split; [reflexivity |].
  unfold AiController.getGenerationById_fallback.
  assert (forall u, List.find (AiController.owned_with_id (pretty now) u) memory = None)
    as Hnone.
  { intros u. apply find_owned_none. intros x Hin Hi. exfalso.
    exact (Hfresh x Hin Hi). }
  cbn [AiController.sg_id AiController.new_record]. split.
  - rewrite find_app_first, Hnone. cbn [List.find].
    unfold AiController.owned_with_id at 1. cbn [AiController.sg_id AiController.sg_userId
      AiController.new_record]. rewrite !String.eqb_refl. reflexivity.
  - intros other Hne. rewrite find_app_first, Hnone. cbn [List.find].
    unfold AiController.owned_with_id at 1. cbn [AiController.sg_id AiController.sg_userId
      AiController.new_record]. rewrite String.eqb_refl.
    destruct (String.eqb_spec userId other) as [He | _]; [congruence | reflexivity].
Qed.

Lemma generate_then_get_witness :
  AiController.status
    (AiController.getGenerationById_fallback
       (fst (AiController.generateContent claude_env None three_generations "user_2"
               (plain_request "text" (Some "claude")) 40 41))
       "41" "user_1") = 404.
Proof.
  refine (proj2 (proj2 (generate_then_get claude_env three_generations "user_2"
                          (plain_request "text" (Some "claude")) 40 41 "41" _ eq_refl _))
            "user_1" _).
  - intros x Hin. vm_compute in Hin. vm_compute.
    destruct Hin as [<- | [<- | [<- | []]]]; discriminate.
  - discriminate.
Defined.

(** ** Generation records: reading, deleting and listing *)

Lemma owned_with_id_true id userId (x : AiController.StoredGeneration) :
  AiController.owned_with_id id userId x = true
  <-> AiController.sg_id x = id /\ AiController.sg_userId x = userId.
Proof.
  unfold AiController.owned_with_id.
  rewrite andb_true_iff, !String.eqb_eq. reflexivity.
Qed.

Lemma find_owned_none_elim (memory : list AiController.StoredGeneration) id userId :
  List.find (AiController.owned_with_id id userId) memory = None ->
  forall x, In x memory -> AiController.sg_id x = id ->
            AiController.sg_userId x <> userId.
Proof.
  intros Hf x Hin Hi Hu. pose proof (find_none _ _ Hf x Hin) as Hx.
  assert (AiController.owned_with_id id userId x = true) as Ht
    by (apply owned_with_id_true; split; assumption).
  congruence.
Qed.

(** X27.  The fallback of [getGenerationById] answers 200 with a stored record
    of that identifier owned by the caller, and 404 when the caller owns no
    record of that identifier. *)
Theorem getGenerationById_fallback_owner (memory : list AiController.StoredGeneration)
  (id userId : string) :
  let r := AiController.getGenerationById_fallback memory id userId in
  match AiController.data r with
  | AiController.Record_ x =>
      AiController.status r = 200 /\ In x memory
      /\ AiController.sg_id x = id /\ AiController.sg_userId x = userId
  | _ =>
      AiController.status r = 404
      /\ forall x, In x memory -> AiController.sg_id x = id ->
                   AiController.sg_userId x <> userId
  end.
Proof.
  cbv zeta. unfold AiController.getGenerationById_fallback.
  destruct (List.find (AiController.owned_with_id id userId) memory) as [x |] eqn:Hf; cbn.
  - apply find_some in Hf as [Hin Hx]. apply owned_with_id_true in Hx as [Hi Hu].
    split; [reflexivity |]. split; [exact Hin |]. split; [exact Hi | exact Hu].
  - split; [reflexivity |]. apply find_owned_none_elim. exact Hf.
Qed.

Lemma findIndex_delete {A} (f : A -> bool) (l : list A) :
  match AiController.findIndex f l with
  | Some index =>
      exists x, In x l /\ f x = true
                /\ S (length (delete index l)) = length l
                /\ forall g : A -> bool, g x = false ->
                     List.filter g (delete index l) = List.filter g l
                     /\ List.find g (delete index l) = List.find g l
  | None => List.find f l = None
  end.
Proof.
  induction l as [| a l IH]; cbn; [reflexivity |].
  destruct (f a) eqn:Ea.
  - exists a. split; [left; reflexivity |]. split; [exact Ea |]. split; [reflexivity |].
    intros g Hg. cbn. rewrite Hg. split; reflexivity.
  - destruct (AiController.findIndex f l) as [i |]; cbn; [| exact IH].
    destruct IH as (x & Hin & Hx & Hlen & Hg). exists x.
    split; [right; exact Hin |]. split; [exact Hx |].
    split; [change (S (S (length (delete i l))) = S (length l)); lia |].
    intros g Hgx. destruct (Hg g Hgx) as [H1 H2].
    change (delete (S i) (a :: l)) with (a :: delete i l). cbn [List.filter List.find].
    destruct (g a); (split; [first [exact H1 | f_equal; exact H1] |
                            first [exact H2 | reflexivity]]).
Qed.

(** X28.  The fallback of [deleteGenerationResult] answers 404 and changes
    nothing when the caller owns no record of that identifier; otherwise it
    removes one such record.  The records of every other account and the
    lookups under every other identifier stay as they were. *)
Theorem deleteGenerationResult_fallback_outcome
  (memory : list AiController.StoredGeneration) (id userId : string) :
  let r := AiController.deleteGenerationResult_fallback memory id userId in
  ((AiController.status (snd r) = 404 /\ fst r = memory
    /\ forall x, In x memory -> AiController.sg_id x = id ->
                 AiController.sg_userId x <> userId)
   \/ (AiController.status (snd r) = 200
       /\ S (length (fst r)) = length memory
       /\ exists x, In x memory /\ AiController.sg_id x = id
                    /\ AiController.sg_userId x = userId))
  /\ (forall other, other <> userId ->
        List.filter (fun x => String.eqb (AiController.sg_userId x) other) (fst r)
        = List.filter (fun x => String.eqb (AiController.sg_userId x) other) memory)
  /\ (forall id' u, id' <> id ->
        AiController.getGenerationById_fallback (fst r) id' u
        = AiController.getGenerationById_fallback memory id' u).
Proof.
  cbv zeta. unfold AiController.deleteGenerationResult_fallback.
  pose proof (findIndex_delete (AiController.owned_with_id id userId) memory) as Hfi.
  destruct (AiController.findIndex (AiController.owned_with_id id userId) memory)
    as [index |]; cbn [fst snd AiController.status AiController.failure].
  - destruct Hfi as (x & Hin & Hx & Hlen & Hg).
    apply owned_with_id_true in Hx as [Hi Hu]. split; [| split].
    + right. split; [reflexivity |]. split; [exact Hlen |].
      exists x. split; [exact Hin |]. split; [exact Hi | exact Hu].
    + intros other Hne. apply Hg. apply String.eqb_neq. congruence.
    + intros id' u Hne. unfold AiController.getGenerationById_fallback.
      assert (AiController.owned_with_id id' u x = false) as Hx.
      { unfold AiController.owned_with_id.
        destruct (String.eqb_spec (AiController.sg_id x) id') as [He | _];
          [congruence | reflexivity]. }
      rewrite (proj2 (Hg _ Hx)). reflexivity.
  - split; [| split].
    + left. split; [reflexivity |]. split; [reflexivity |].
      apply find_owned_none_elim. exact Hfi.
    + reflexivity.
    + reflexivity.
Qed.

Lemma newest_first_sorted (l : list AiController.StoredGeneration) :
  StronglySorted not_older (Engine.sort AiController.newest_first l).
Proof.
  apply engine_sort_sorted; unfold not_older, AiController.newest_first; intros; lia.
Qed.

(** X29.  A page of the history fallback holds records of the caller that pass
    the filters, newest first, at most [limit] of them, and the reported
    numbers of records and pages fit. *)
Theorem getGenerationHistory_fallback_page
  (memory : list AiController.StoredGeneration) (userId : string)
  (req : AiController.HistoryRequest) :
  length memory < 64 ->
  1 <= default 1 (AiController.h_page req) ->
  1 <= default 20 (AiController.h_limit req) ->
  let r := AiController.getGenerationHistory_fallback Engine.sort memory userId req in
  (forall x, In x (history_results r) ->
             In x memory /\ AiController.sg_userId x = userId
             /\ AiController.history_filter userId req x = true)
  /\ StronglySorted not_older (history_results r)
  /\ length (history_results r) <= default 20 (AiController.h_limit req)
  /\ history_total r
     = length (List.filter (AiController.history_filter userId req) memory)
  /\ history_total r <= history_pages r * default 20 (AiController.h_limit req)
  /\ history_pages r * default 20 (AiController.h_limit req)
     < history_total r + default 20 (AiController.h_limit req).
Proof.
  intros _ Hpage Hlimit. cbv zeta.
  unfold AiController.getGenerationHistory_fallback, history_results, history_total,
    history_pages. cbn [AiController.data].
  set (limit := default 20 (AiController.h_limit req)) in *.
  set (skip := (default 1 (AiController.h_page req) - 1) * limit).
  set (filtered := List.filter (AiController.history_filter userId req) memory).
  unfold slice. replace (skip + limit - skip) with limit by lia.
  split; [| split; [| split; [| split; [| split]]]].
  - intros x Hin.
    assert (In x filtered) as Hf.
    { apply (Permutation_in x (sort_permutation AiController.newest_first filtered)).
      apply list_elem_of_In. apply list_elem_of_In in Hin.
      apply (subseteq_drop skip). eapply subseteq_take. exact Hin. }
    apply filter_In in Hf as [Hm Hpass]. split; [exact Hm |]. split; [| exact Hpass].
    unfold AiController.history_filter in Hpass.
    destruct (String.eqb_spec (AiController.sg_userId x) userId) as [He | _];
      [exact He | discriminate].
  - apply StronglySorted_take_drop. apply newest_first_sorted.
  - rewrite length_take. lia.
  - reflexivity.
  - apply ceil_div_covers. exact Hlimit.
  - pose proof (Nat.div_mod (length filtered + limit - 1) limit ltac:(lia)) as Hdm.
    pose proof (Nat.mod_upper_bound (length filtered + limit - 1) limit ltac:(lia)) as Hm.
    nia.
Qed.

Lemma getGenerationHistory_fallback_page_witness :
  StronglySorted not_older
    (history_results
       (AiController.getGenerationHistory_fallback Engine.sort three_generations
          "user_1" (history_request (Some 1) (Some 1) None))).
Proof.
  refine (proj1 (proj2 (getGenerationHistory_fallback_page three_generations "user_1"
                          (history_request (Some 1) (Some 1) None) _ _ _))).
  - vm_compute. lia.
  - vm_compute. lia.
  - vm_compute. lia.
Defined.

(** X30.  A record the handler stores carries no provider, so a history
    filtered by provider never counts it. *)
Theorem history_provider_filter_skips_stored env array_sort
  (memory : list AiController.StoredGeneration) (userId reader : string)
  (request : GenerationRequest) (called now : Z) (req : AiController.HistoryRequest) :
  truthy_opt_string (AiController.h_provider req) = true ->
  let memory' :=
    fst (AiController.generateContent env None memory userId request called now) in
  history_total (AiController.getGenerationHistory_fallback array_sort memory' reader req)
  = history_total (AiController.getGenerationHistory_fallback array_sort memory reader req).
Proof.
  intros Hp. cbv zeta.
  unfold AiController.getGenerationHistory_fallback, history_total.
  cbn [AiController.data]. f_equal.
  unfold AiController.generateContent.
  destruct (truthy_opt_string (provider request)
            && negb (isProviderAvailable env (default "" (provider request))));
    [reflexivity |].
  destruct (generateContent env request called) as [res | msg]; [| reflexivity].
  cbn [fst]. rewrite List.filter_app. cbn [List.filter].
  assert (AiController.history_filter reader req
            (AiController.new_record userId request res now) = false) as ->.
  { unfold AiController.history_filter.
    destruct (negb (String.eqb (AiController.sg_userId
                                  (AiController.new_record userId request res now))
                      reader)); [reflexivity |].
    rewrite Hp. reflexivity. }
  apply app_nil_r.
Qed.

Lemma history_provider_filter_skips_stored_witness :
  history_total
    (AiController.getGenerationHistory_fallback Engine.sort
       (fst (AiController.generateContent claude_env None [] "user_1"
               (plain_request "text" (Some "claude")) 5 6))
       "user_1" (history_request None None (Some "claude")))
  = 0.
Proof.
  rewrite (history_provider_filter_skips_stored claude_env Engine.sort [] "user_1"
             "user_1" (plain_request "text" (Some "claude")) 5 6
             (history_request None None (Some "claude")) eq_refl).
  reflexivity.
Defined.
